(** * MRS CAN bootloader protocol (mrs_bl_protocol.py): a shallow embedding

    The Python module drives a CAN bus: it packs commands with [struct],
    sends them, waits for a reply and checks the reply against a message
    class.  The embedding keeps that shape:

    - bytes are [Byte.byte], Python integers are [Z], a Python [str] is a
      list of code points;
    - [struct.pack] / [struct.unpack] are functions over a list of format
      fields, with the range and arity errors of the library;
    - exceptions are values of [exn]; a computation that touches the bus is
      a function from the bus state to an outcome and the bus state, so the
      frames sent before an exception stay visible;
    - the bus is a log of the frames sent and a script of what
      [bus.recv] delivers next ([None]: nothing until the deadline). *)

From Stdlib Require Import ZArith List Lia Bool String Ascii.
From Stdlib Require Import Strings.Byte Strings.HexString.
From stdpp Require Import base option list gmap strings.
From Equations Require Import Equations.

Local Open Scope Z_scope.
Local Open Scope list_scope.

(** ** Bytes and big-endian integers *)

Abbreviation byte := Byte.byte.
Abbreviation bytes := (list Byte.byte).

#[global] Instance byte_eq_dec : EqDecision byte := Byte.byte_eq_dec.

Definition Z_of_byte (b : byte) : Z := Z.of_N (Byte.to_N b).

Definition byte_of_Z (z : Z) : byte :=
  match Byte.of_N (Z.to_N (z mod 256)) with
  | Some b => b
  | None => Byte.x00
  end.

(** [n] bytes of [z], most significant first. *)
Fixpoint be_of_Z (n : nat) (z : Z) : bytes :=
  match n with
  | O => []
  | S n' => byte_of_Z (z / 256 ^ Z.of_nat n') :: be_of_Z n' z
  end.

Definition be_to_Z (bs : bytes) : Z :=
  fold_left (fun acc b => acc * 256 + Z_of_byte b) bs 0.

(** ** Exceptions *)

(** What a [MessageError] raised by the codec is about. *)
Inductive msg_check :=
| WrongId
| WrongLength
| WrongField (index : nat)
| WrongStatus
| ScanTraffic.

Inductive exn :=
| MessageError (c : msg_check)
| ModuleError (msg : string)
| RuntimeError (msg : string)
| StructError
| NameError (name : string)
| KeyError
| IndexError
| ValueError
| TypeError
| UnicodeEncodeError
| UnicodeDecodeError.

#[global] Instance msg_check_eq_dec : EqDecision msg_check.
Proof. solve_decision. Defined.
#[global] Instance exn_eq_dec : EqDecision exn.
Proof. solve_decision. Defined.

Inductive outcome (A : Type) :=
| Ok (a : A)
| Err (e : exn).
Arguments Ok {A} a.
Arguments Err {A} e.

Definition rbind {A B} (r : outcome A) (k : A -> outcome B) : outcome B :=
  match r with
  | Ok a => k a
  | Err e => Err e
  end.

Definition is_MessageError (e : exn) : bool :=
  match e with MessageError _ => true | _ => false end.

Definition is_ModuleError (e : exn) : bool :=
  match e with ModuleError _ => true | _ => false end.

(** ** The [struct] codec *)

Module struct.

(** One item of a format string: [B], [H], [I] (big-endian, the formats
    with wider items all start with [>]), [<n>s] and [c].  A repeat count
    on [B] or [c] is that many items. *)
Inductive field :=
| fB
| fH
| fI
| fs (n : nat)
| fc.

Inductive value :=
| VInt (z : Z)
| VBytes (bs : bytes).

#[global] Instance value_eq_dec : EqDecision value.
Proof. solve_decision. Defined.

Definition size (f : field) : nat :=
  match f with
  | fB => 1
  | fH => 2
  | fI => 4
  | fs n => n
  | fc => 1
  end.

Definition calcsize (fmt : list field) : nat :=
  fold_right (fun f acc => (size f + acc)%nat) O fmt.

Definition pack_int (n : nat) (v : value) : outcome bytes :=
  match v with
  | VInt z => if (0 <=? z) && (z <? 256 ^ Z.of_nat n)
              then Ok (be_of_Z n z) else Err StructError
  | VBytes _ => Err StructError
  end.

Definition pack_field (f : field) (v : value) : outcome bytes :=
  match f with
  | fB => pack_int 1 v
  | fH => pack_int 2 v
  | fI => pack_int 4 v
  | fs n =>
      match v with
      | VBytes bs => Ok (firstn n bs ++ repeat Byte.x00 (n - length bs))
      | VInt _ => Err StructError
      end
  | fc =>
      match v with
      | VBytes [b] => Ok [b]
      | _ => Err StructError
      end
  end.

(** [struct.pack(fmt, *args)]: one argument per item. *)
Fixpoint pack (fmt : list field) (args : list value) : outcome bytes :=
  match fmt, args with
  | [], [] => Ok []
  | f :: fmt', a :: args' =>
      rbind (pack_field f a) (fun b =>
      rbind (pack fmt' args') (fun bs => Ok (b ++ bs)))
  | _, _ => Err StructError
  end.

Definition unpack_field (f : field) (bs : bytes) : value :=
  match f with
  | fB | fH | fI => VInt (be_to_Z bs)
  | fs _ | fc => VBytes bs
  end.

Fixpoint unpack_fields (fmt : list field) (bs : bytes) : list value :=
  match fmt with
  | [] => []
  | f :: fmt' =>
      unpack_field f (firstn (size f) bs)
        :: unpack_fields fmt' (skipn (size f) bs)
  end.

(** [struct.unpack(fmt, data)]: the buffer must have the format's size. *)
Definition unpack (fmt : list field) (bs : bytes) : outcome (list value) :=
  if decide (length bs = calcsize fmt)
  then Ok (unpack_fields fmt bs) else Err StructError.

End struct.
Export struct.

(** ** CAN frames and identifiers *)

(** [can.Message]: the arbitration id and the payload; [dlc] is the
    payload's length. *)
Record frame := Message { arbitration_id : Z; data : bytes }.

#[global] Instance frame_eq_dec : EqDecision frame.
Proof. solve_decision. Defined.

Definition dlc (raw : frame) : nat := length (data raw).

Definition ACK_ID : Z := 0x1ffffff0.
Definition CMD_ID : Z := 0x1ffffff1.
Definition RSP_ID : Z := 0x1ffffff2.
Definition SREC_ID : Z := 0x1ffffff3.
Definition DATA_ID : Z := 0x1ffffff4.
Definition EEPROM_ID : Z := 0x1ffffff5.
Definition CONSOLE_ID : Z := 0x1ffffffe.

Definition RECEIVE_FILTER : list Z := [ACK_ID; RSP_ID; DATA_ID; CONSOLE_ID].

Import Byte.

(** ** Messages that are sent *)

(** [TXMessage.__init__]: the payload is the arguments packed with the
    class's [_format]. *)
Definition TXMessage (_format : list field) (message_id : Z)
    (args : list value) : outcome frame :=
  rbind (pack _format args) (fun d => Ok (Message message_id d)).

Definition MSG_ping : outcome frame :=
  TXMessage [fH] CMD_ID [VInt 0].

Definition MSG_select (module_id : Z) : outcome frame :=
  TXMessage [fH; fI] CMD_ID [VInt 0x2010; VInt module_id].

Definition MSG_read_eeprom (address count : Z) : outcome frame :=
  TXMessage [fH; fH; fB] CMD_ID [VInt 0x2003; VInt address; VInt count].

(** The format is [>H3c]: three one-byte items after the opcode, yet the
    constructor passes the three unlock bytes as one argument. *)
Definition MSG_write_eeprom : outcome frame :=
  TXMessage [fH; fc; fc; fc] CMD_ID [VInt 0x2011; VBytes [xf3; x33; xaf]].

Definition MSG_write_eeprom_data (address : Z) (payload : bytes)
    : outcome frame :=
  rbind (pack [fH] [VInt address]) (fun a => Ok (Message EEPROM_ID (a ++ payload))).

Definition MSG_close_eeprom : outcome frame :=
  TXMessage [fH] CMD_ID [VInt 0x2002].

Definition MSG_program : outcome frame :=
  TXMessage [fH] CMD_ID [VInt 0x2000].

Definition MSG_erase : outcome frame :=
  TXMessage [fH] CMD_ID [VInt 0x0202].

Definition MSG_srecord (payload : bytes) : frame :=
  Message SREC_ID payload.

(** ** Messages that are received *)

(** The check of one [_filter] entry against the unpacked values, in the
    order of [enumerate(self._filter)]. *)
Fixpoint check_filter (index : nat) (_filter : list (bool * value))
    (_values : list value) : outcome unit :=
  match _filter with
  | [] => Ok tt
  | (check, v) :: rest =>
      if check then
        match _values !! index with
        | None => Err IndexError
        | Some x =>
            if decide (v = x) then check_filter (S index) rest _values
            else Err (MessageError (WrongField index))
        end
      else check_filter (S index) rest _values
  end.

(** [RXMessage.__init__]: returns [self._values]. *)
Definition RXMessage (_format : list field) (_filter : list (bool * value))
    (expected_id : Z) (raw : frame) : outcome (list value) :=
  if decide (arbitration_id raw = expected_id) then
    if decide (dlc raw = calcsize _format) then
      rbind (unpack _format (data raw)) (fun _values =>
      rbind (check_filter 0 _filter _values) (fun _ => Ok _values))
    else Err (MessageError WrongLength)
  else Err (MessageError WrongId).

(** The message classes derived from [RXMessage]. *)
Inductive rx_class :=
| ack
| selected
| eeprom_open
| eeprom_write_ok
| eeprom_closed
| program_nak
| program_ack
| progress
| erase_done
| srec_start_ok
| srec_cont_ok
| srec_end_ok
| srecords_done
| no_program.

#[global] Instance rx_class_eq_dec : EqDecision rx_class.
Proof. solve_decision. Defined.

Definition all_rx_classes : list rx_class :=
  [ack; selected; eeprom_open; eeprom_write_ok; eeprom_closed; program_nak;
   program_ack; progress; erase_done; srec_start_ok; srec_cont_ok;
   srec_end_ok; srecords_done; no_program].

Definition _format (c : rx_class) : list field :=
  match c with
  | ack => [fB; fI; fB; fH]
  | selected | program_nak | program_ack => [fH; fI; fH]
  | eeprom_open | eeprom_write_ok | eeprom_closed => [fH; fs 3]
  | progress => [fB; fB; fB; fB]
  | erase_done => [fH; fB; fB]
  | srec_start_ok | no_program => [fs 5]
  | srec_cont_ok => [fs 2]
  | srec_end_ok | srecords_done => [fs 3]
  end.

Definition _filter (c : rx_class) : list (bool * value) :=
  match c with
  | ack => [(false, VInt 0); (false, VInt 0); (false, VInt 0); (false, VInt 0)]
  | selected => [(true, VInt 0x2110); (false, VInt 0); (false, VInt 0)]
  | eeprom_open => [(true, VInt 0x2111); (true, VBytes [x01; x00; x00])]
  | eeprom_write_ok => [(true, VInt 0x20e8); (true, VBytes [x00; x00; x00])]
  | eeprom_closed => [(true, VInt 0x20f0); (true, VBytes [x02; x00; x00])]
  | program_nak => [(true, VInt 0x2fff); (false, VInt 0); (false, VInt 0)]
  | program_ack => [(true, VInt 0x2100); (false, VInt 0); (false, VInt 0)]
  | progress => [(true, VInt 0); (false, VInt 0); (false, VInt 0); (true, VInt 0)]
  | erase_done => [(true, VInt 0x0000); (false, VInt 0x00); (true, VInt 0x01)]
  | srec_start_ok => [(true, VBytes [x00; x01; x01; x01; x01])]
  | srec_cont_ok => [(true, VBytes [x00; x01])]
  | srec_end_ok => [(true, VBytes [x00; x00; x01])]
  | srecords_done => [(true, VBytes [x00; x12; x34])]
  | no_program => [(true, VBytes [x00; x02; x02; x02; x02])]
  end.

Definition expected_id (c : rx_class) : Z :=
  match c with
  | ack => ACK_ID
  | _ => RSP_ID
  end.

(** What a class's own [__init__] does after [super().__init__]: only
    [MSG_erase_done] adds a check, on the unfiltered second value. *)
Definition post_init (c : rx_class) (_values : list value) : outcome unit :=
  match c with
  | erase_done =>
      match _values !! 1%nat with
      | None => Err IndexError
      | Some v =>
          if decide (v = VInt 0) then Ok tt
          else if decide (v = VInt 0xff) then Ok tt
          else Err (MessageError WrongStatus)
      end
  | _ => Ok tt
  end.

(** Constructing the message class [c] from the received frame [raw]. *)
Definition receive (c : rx_class) (raw : frame) : outcome (list value) :=
  rbind (RXMessage (_format c) (_filter c) (expected_id c) raw) (fun _values =>
  rbind (post_init c _values) (fun _ => Ok _values)).

Definition REASON_MAP : list (Z * string) :=
  [(0x00, "power-on"); (0x01, "reset"); (0x11, "low-voltage reset");
   (0x21, "clock lost"); (0x31, "address error"); (0x41, "illegal opcode");
   (0x51, "watchdog timeout")]%string.

Definition STATUS_MAP : list (Z * string) :=
  [(0, "OK"); (4, "NO PROG")]%string.

(** [d[key]] with the [KeyError] caught and replaced by ["unknown"]. *)
Definition lookup_or_unknown (d : gmap Z string) (key : Z) : string :=
  match d !! key with
  | Some s => s
  | None => "unknown"%string
  end.

Record ack_msg := {
  reason_code : Z;
  ack_module_id : Z;
  status_code : Z;
  ack_sw_version : Z;
  ack_reason : string;
  ack_status : string
}.

Definition MSG_ack (raw : frame) : outcome ack_msg :=
  rbind (receive ack raw) (fun _values =>
  match _values with
  | [VInt r; VInt m; VInt s; VInt v] =>
      Ok {| reason_code := r; ack_module_id := m; status_code := s;
            ack_sw_version := v;
            ack_reason := lookup_or_unknown (list_to_map REASON_MAP) r;
            ack_status := lookup_or_unknown (list_to_map STATUS_MAP) s |}
  | _ => Err ValueError
  end).

Record selected_msg := { module_id : Z; sw_version : Z }.

Definition MSG_selected (raw : frame) : outcome selected_msg :=
  rbind (receive selected raw) (fun _values =>
  match _values with
  | [_; VInt m; VInt v] => Ok {| module_id := m; sw_version := v |}
  | _ => Err ValueError
  end).

Record progress_msg := { progress_pos : Z; limit : Z }.

Definition MSG_progress (raw : frame) : outcome progress_msg :=
  rbind (receive progress raw) (fun _values =>
  match _values with
  | [_; VInt p; VInt l; _] => Ok {| progress_pos := p; limit := l |}
  | _ => Err ValueError
  end).

(** ** The bus *)

(** [tx]: the frames handed to [bus.send], oldest first.  [rx]: what
    [bus.recv] will deliver, [None] standing for a deadline that passes
    with nothing on the bus; after the script the bus is silent.  [clock]:
    how many more times [scan] will find the time before its deadline. *)
Record Bus := { tx : list frame; rx : list (option frame); clock : nat }.

Definition M (A : Type) : Type := Bus -> outcome A * Bus.

Definition ret {A} (a : A) : M A := fun b => (Ok a, b).

Definition raise {A} (e : exn) : M A := fun b => (Err e, b).

Definition bind {A B} (m : M A) (k : A -> M B) : M B :=
  fun b =>
    match m b with
    | (Ok a, b') => k a b'
    | (Err e, b') => (Err e, b')
    end.

(** A pure step that may raise, such as building a message. *)
Definition lift {A} (r : outcome A) : M A := fun b => (r, b).

(** [try: m except <the exceptions h handles>: h e]; [h] returns [None]
    for an exception the clause does not name. *)
Definition try_except {A} (m : M A) (h : exn -> option (M A)) : M A :=
  fun b =>
    match m b with
    | (Ok a, b') => (Ok a, b')
    | (Err e, b') =>
        match h e with
        | Some handler => handler b'
        | None => (Err e, b')
        end
    end.

Declare Scope bus_scope.
Delimit Scope bus_scope with bus.
Notation "x <- m ;; k" := (bind m (fun x => k))
  (at level 100, m at next level, right associativity) : bus_scope.
Notation "m ;; k" := (bind m (fun _ => k))
  (at level 100, right associativity) : bus_scope.
Local Open Scope bus_scope.

(** ** Interface *)

(** [Interface.send]. *)
Definition send (message : frame) : M unit :=
  fun b => (Ok tt, {| tx := tx b ++ [message]; rx := rx b; clock := clock b |}).

(** The loop of [Interface.recv] over what the bus delivers: a frame
    whose id is not in [RECEIVE_FILTER] is dropped and the wait goes on. *)
Fixpoint recv_filtered (script : list (option frame))
    : option frame * list (option frame) :=
  match script with
  | [] => (None, [])
  | None :: rest => (None, rest)
  | Some msg :: rest =>
      if decide (arbitration_id msg ∈ RECEIVE_FILTER) then (Some msg, rest)
      else recv_filtered rest
  end.

(** [Interface.recv(timeout)], the timeout in milliseconds. *)
Definition recv (timeout : Z) : M (option frame) :=
  fun b =>
    let (msg, rest) := recv_filtered (rx b) in
    (Ok msg, {| tx := tx b; rx := rest; clock := clock b |}).

(** [time.time() < scan_end_time] *)
Definition before_deadline : M bool :=
  fun b =>
    match clock b with
    | O => (Ok false, b)
    | S n => (Ok true, {| tx := tx b; rx := rx b; clock := n |})
    end.

(** ** Module *)

Record Module := { _module_id : Z; _verbose : bool }.

(** [Module._cmd]: send a message, wait for a response. *)
Definition _cmd (message : frame) (reply_class : option rx_class) : M frame :=
  send message ;;
  rsp <- recv 1000 ;;
  match rsp with
  | None => raise (ModuleError "timed out waiting for a reply")
  | Some rsp =>
      match reply_class with
      | None => ret rsp
      | Some c =>
          match receive c rsp with
          | Ok _ => ret rsp
          | Err e =>
              if is_MessageError e
              then raise (ModuleError "unexpected reply type")
              else raise e
          end
      end
  end.

(** [Module._select].  The name [CanError] is bound nowhere in the
    module, so the [raise] statement stops at evaluating it. *)
Definition _select (self : Module) : M Z :=
  message <- lift (MSG_select (_module_id self)) ;;
  rsp <- _cmd message None ;;
  sel <- lift (MSG_selected rsp) ;;
  if decide (module_id sel <> _module_id self)
  then raise (NameError "CanError")
  else ret (sw_version sel).

(** [try: m except ModuleError: raise ModuleError(msg)] *)
Definition reraise_ModuleError {A} (m : M A) (msg : string) : M A :=
  try_except m (fun e =>
    if is_ModuleError e then Some (raise (ModuleError msg)) else None).

(** [try: cls(rsp) except MessageError: raise ModuleError(msg)] *)
Definition expect (c : rx_class) (rsp : frame) (msg : string) : M unit :=
  match receive c rsp with
  | Ok _ => ret tt
  | Err e => if is_MessageError e then raise (ModuleError msg) else raise e
  end.

(** The [while length > 0] loop of [Module._read_eeprom]; [len] is the
    source's [length]. *)
Equations? read_eeprom_loop (address len : Z) (result : bytes)
    : M bytes by wf (Z.to_nat len) lt :=
read_eeprom_loop address len result with decide (len > 0) := {
  | right _ => ret result
  | left _ =>
      let amount := if decide (len <= 8) then len else 8 in
      message <- lift (MSG_read_eeprom address amount) ;;
      rsp <- _cmd message None ;;
      if decide (arbitration_id rsp <> DATA_ID)
      then raise (ModuleError "unexpected reply to EEPROM read")
      else read_eeprom_loop (address + amount) (len - amount)
                            (result ++ data rsp) }.
Proof. destruct (decide (len <= 8)); lia. Qed.

(** [Module._read_eeprom] *)
Definition _read_eeprom (self : Module) (address len : Z) : M bytes :=
  _select self ;;
  read_eeprom_loop address len [].

(** The [while len(data) > 0] loop of [Module._write_eeprom]. *)
Equations? write_eeprom_loop (address : Z) (payload : bytes)
    : M unit by wf (length payload) lt :=
write_eeprom_loop address payload with decide (0 < length payload)%nat := {
  | right _ => ret tt
  | left _ =>
      let buf := firstn 6 payload in
      reraise_ModuleError
        (message <- lift (MSG_write_eeprom_data address buf) ;;
         _cmd message (Some eeprom_write_ok))
        "could not write EEPROM data" ;;
      write_eeprom_loop address (skipn 6 payload) }.
Proof. rewrite length_skipn. lia. Qed.

(** [Module._write_eeprom] *)
Definition _write_eeprom (self : Module) (address : Z) (payload : bytes)
    : M unit :=
  _select self ;;
  reraise_ModuleError
    (message <- lift MSG_write_eeprom ;;
     _cmd message (Some eeprom_open))
    "could not write to module EEPROM" ;;
  write_eeprom_loop address payload ;;
  reraise_ModuleError
    (message <- lift MSG_close_eeprom ;;
     _cmd message (Some eeprom_closed))
    "error disabling EEPROM write mode" ;;
  ret tt.

(** *** Loops that run on what the bus delivers *)

Definition inspect {A} (a : A) : {b : A | a = b} := exist _ a eq_refl.

Lemma recv_filtered_shrinks script msg rest :
  recv_filtered script = (Some msg, rest) -> (length rest < length script)%nat.
Proof.
  induction script as [|[f|] script IH]; simpl; intros H; try discriminate.
  destruct (decide (arbitration_id f ∈ RECEIVE_FILTER)).
  - inversion H; subst. lia.
  - specialize (IH H). lia.
Qed.

Lemma recv_filtered_le script r rest :
  recv_filtered script = (r, rest) -> (length rest <= length script)%nat.
Proof.
  revert r rest.
  induction script as [|[f|] script IH]; simpl; intros r rest H.
  - inversion H; subst. simpl. lia.
  - destruct (decide (arbitration_id f ∈ RECEIVE_FILTER)).
    + inversion H; subst. lia.
    + specialize (IH _ _ H). lia.
  - inversion H; subst. lia.
Qed.

Lemma recv_shrinks timeout b rsp b' :
  recv timeout b = (Ok (Some rsp), b') -> (length (rx b') < length (rx b))%nat.
Proof.
  unfold recv. destruct (recv_filtered (rx b)) as [m rest] eqn:E.
  intros H; inversion H; subst; simpl.
  eapply recv_filtered_shrinks; eauto.
Qed.

Lemma recv_quiet timeout b r b' :
  recv timeout b = (r, b') ->
  (length (rx b') <= length (rx b))%nat /\ clock b' = clock b.
Proof.
  unfold recv. destruct (recv_filtered (rx b)) as [m rest] eqn:E.
  intros H; inversion H; subst; simpl.
  split; [eapply recv_filtered_le; eauto | reflexivity].
Qed.

(** The [while True] loop of [Module._wait_for_boot]. *)
Equations? wait_for_boot_loop (self : Module) (timeout : Z) (b : Bus)
    : outcome unit * Bus by wf (length (rx b)) lt :=
wait_for_boot_loop self timeout b with inspect (recv timeout b) := {
  | exist _ (Ok (Some rsp), b') _ =>
      match MSG_ack rsp with
      | Ok boot_message =>
          if decide (ack_module_id boot_message <> _module_id self)
          then wait_for_boot_loop self timeout b'
          else if decide (ack_reason boot_message <> "reboot"%string)
          then wait_for_boot_loop self timeout b'
          else (Ok tt, b')
      | Err e =>
          if is_MessageError e then wait_for_boot_loop self timeout b'
          else (Err e, b')
      end
  | exist _ (Ok None, b') _ =>
      (Err (ModuleError "timed out waiting for module reboot message"), b')
  | exist _ (Err e, b') _ => (Err e, b') }.
Proof. all: eapply recv_shrinks; eauto. Qed.

(** [Module._wait_for_boot] *)
Definition _wait_for_boot (self : Module) (timeout : Z) : M unit :=
  wait_for_boot_loop self timeout.

(** [Module._enter_flash_mode] *)
Definition _enter_flash_mode (self : Module) : M unit :=
  _select self ;;
  message <- lift MSG_program ;;
  rsp <- _cmd message None ;;
  rsp <- try_except
           (lift (receive program_nak rsp) ;;
            _wait_for_boot self 2000 ;;
            _select self ;;
            message <- lift MSG_program ;;
            _cmd message None)
           (fun e => if is_MessageError e then Some (ret rsp) else None) ;;
  lift (receive program_ack rsp) ;;
  ret tt.

(** The [while True] loop of [Module._erase]. *)
Equations? erase_loop (b : Bus) : outcome unit * Bus
    by wf (length (rx b)) lt :=
erase_loop b with inspect (recv 2000 b) := {
  | exist _ (Ok (Some rsp), b') _ =>
      match receive erase_done rsp with
      | Ok _ => (Ok tt, b')
      | Err e =>
          if is_MessageError e then
            match MSG_progress rsp with
            | Ok _ => erase_loop b'
            | Err e' =>
                if is_MessageError e'
                then (Err (ModuleError "got unexpected message instead of erase progress / completion"), b')
                else (Err e', b')
            end
          else (Err e, b')
      end
  | exist _ (Ok None, b') _ =>
      (Err (ModuleError "timed out waiting for module progress message"), b')
  | exist _ (Err e, b') _ => (Err e, b') }.
Proof. eapply recv_shrinks; eauto. Qed.

(** [Module._erase] *)
Definition _erase : M unit :=
  message <- lift MSG_erase ;;
  send message ;;
  erase_loop.

(** *** Programming *)

Definition in_range (lo hi : Z) (b : byte) : bool :=
  (lo <=? Z_of_byte b) && (Z_of_byte b <=? hi).

(** Whether [bytes.decode()] (UTF-8, strict) accepts the bytes. *)
Fixpoint utf8_valid (l : bytes) : bool :=
  match l with
  | [] => true
  | a :: rest =>
      if in_range 0x00 0x7f a then utf8_valid rest
      else if in_range 0xc2 0xdf a then
        match rest with
        | b :: rest' => in_range 0x80 0xbf b && utf8_valid rest'
        | _ => false
        end
      else if in_range 0xe0 0xef a then
        match rest with
        | b :: c :: rest' =>
            in_range (if decide (a = xe0) then 0xa0 else 0x80)
                     (if decide (a = xed) then 0x9f else 0xbf) b
            && in_range 0x80 0xbf c && utf8_valid rest'
        | _ => false
        end
      else if in_range 0xf0 0xf4 a then
        match rest with
        | b :: c :: d :: rest' =>
            in_range (if decide (a = xf0) then 0x90 else 0x80)
                     (if decide (a = xf4) then 0x8f else 0xbf) b
            && in_range 0x80 0xbf c && in_range 0x80 0xbf d
            && utf8_valid rest'
        | _ => false
        end
      else false
  end.

(** The verbose trace of a record: [srec[0:2].decode()] is the one part
    of the [print] that can raise. *)
Definition trace_record (self : Module) (srec : bytes) : M unit :=
  if _verbose self then
    if utf8_valid (firstn 2 srec) then ret tt else raise UnicodeDecodeError
  else ret tt.

(** The [while len(srec) > 8] loop of [Module._program]; it leaves the
    bytes not yet sent. *)
Equations? program_middle_loop (srec : bytes) : M bytes
    by wf (length srec) lt :=
program_middle_loop srec with decide (8 < length srec)%nat := {
  | right _ => ret srec
  | left _ =>
      rsp <- _cmd (MSG_srecord (firstn 8 srec)) None ;;
      expect srec_cont_ok rsp "unexpected response to S-record" ;;
      program_middle_loop (skipn 8 srec) }.
Proof. rewrite length_skipn. lia. Qed.

(** The body of the [for srec in memory_records] loop. *)
Definition program_record (self : Module) (srec : bytes) : M unit :=
  trace_record self srec ;;
  srec <- (if decide (8 < length srec)%nat then
             rsp <- _cmd (MSG_srecord (firstn 8 srec)) None ;;
             expect srec_start_ok rsp "unexpected response to S-record" ;;
             ret (skipn 8 srec)
           else ret srec) ;;
  srec <- program_middle_loop srec ;;
  rsp <- _cmd (MSG_srecord (firstn 8 srec)) None ;;
  expect srec_end_ok rsp "unexpected response to S-record".

Fixpoint for_each {A} (l : list A) (body : A -> M unit) : M unit :=
  match l with
  | [] => ret tt
  | x :: l' => body x ;; for_each l' body
  end.

(** [Module._program]; [records] is [list(srecords.upload_records())]. *)
Definition _program (self : Module) (records : list bytes) : M unit :=
  let memory_records := removelast records in
  terminal_record <- lift (match last records with
                           | Some r => Ok r
                           | None => Err IndexError
                           end) ;;
  for_each memory_records (program_record self) ;;
  rsp <- _cmd (MSG_srecord terminal_record) None ;;
  expect srecords_done rsp "unexpected response to terminal S-record".

(** [Module.upload] *)
Definition upload (self : Module) (records : list bytes) : M unit :=
  _enter_flash_mode self ;;
  _erase ;;
  _program self records.

(** [Module.erase] *)
Definition erase (self : Module) : M unit :=
  _enter_flash_mode self ;;
  _erase.

(** *** Parameters *)

Definition PARAMETER_MAP : list (list field * string) :=
  [([fB; fB], "_");
   ([fH], "_ParameterMagic");
   ([fI], "SerialNumber");
   ([fs 12], "PartNumber");
   ([fs 12], "DrawingNumber");
   ([fs 20], "Name");
   ([fs 8], "OrderNumber");
   ([fs 8], "TestDate");
   ([fH], "HardwareVersion");
   ([fB], "ResetCounter");
   ([fH], "LibraryVersion");
   ([fB], "ResetReasonLVD");
   ([fB], "ResetReasonLOC");
   ([fB], "ResetReasonILAD");
   ([fB], "ResetReasonILOP");
   ([fB], "ResetReasonCOP");
   ([fB], "MCUType");
   ([fB], "HardwareCANActive");
   ([fB; fB; fB], "Reserved1");
   ([fH], "BootloaderVersion");
   ([fH], "ProgramState");
   ([fH], "Portbyte1");
   ([fH], "Portbyte2");
   ([fH], "BaudrateBootloader1");
   ([fH], "BaudrateBootloader2");
   ([fB], "BootloaderIDExt1");
   ([fI], "BootloaderID1");
   ([fB], "BootloaderIDCRC1");
   ([fB], "BootloaderIDExt2");
   ([fI], "BootloaderID2");
   ([fB], "BootloaderIDCRC2");
   ([fs 20], "SoftwareVersion");
   ([fs 30], "ModuleName");
   ([fB], "BootloaderCANBus");
   ([fH], "COPWatchdogTimeout");
   ([fB; fB; fB; fB; fB; fB; fB], "Reserved2")]%string.

Definition PARAMETER_WRITE_OK : list string :=
  ["BaudrateBootloader1"; "SoftwareVersion"; "ModuleName"]%string.

Definition BAUD_MAP : list (Z * bytes) :=
  [(1000, [xfe; x01]);
   (800, [xfd; x02]);
   (500, [xfc; x03]);
   (250, [xfb; x04]);
   (125, [xfa; x05]);
   (100, [xf6; x09])].

(** The loop of [Module._parameter] from a running [offset]. *)
Fixpoint parameter_lookup (map : list (list field * string)) (offset : Z)
    (parameter_name : string) : outcome (Z * list field) :=
  match map with
  | [] => Err (RuntimeError "attempt to lookup non-existent parameter")
  | (fmt, name) :: rest =>
      if decide (name = parameter_name) then Ok (offset, fmt)
      else parameter_lookup rest (offset + Z.of_nat (calcsize fmt))
                            parameter_name
  end.

(** [Module._parameter] *)
Definition _parameter (parameter_name : string) : outcome (Z * list field) :=
  parameter_lookup PARAMETER_MAP 0 parameter_name.

(** [fmt[-1] == 's'] *)
Definition ends_in_s (fmt : list field) : bool :=
  match last fmt with
  | Some (fs _) => true
  | _ => false
  end.

(** A Python [str]: its code points. *)
Abbreviation pystr := (list Z).

Definition pystr_of_string (s : string) : pystr :=
  map (fun a => Z.of_N (N_of_ascii a)) (list_ascii_of_string s).

(** [b.decode('ascii')] *)
Definition decode_ascii (b : bytes) : outcome pystr :=
  if forallb (fun x => Z_of_byte x <? 128) b
  then Ok (map Z_of_byte b) else Err UnicodeDecodeError.

Definition is_ascii (c : Z) : bool := (0 <=? c) && (c <? 128).

(** [s.encode('ascii')] *)
Definition encode_ascii (s : pystr) : outcome bytes :=
  if forallb is_ascii s
  then Ok (map byte_of_Z s) else Err UnicodeEncodeError.

(** What [Module.parameter] returns: a string (decoded, or the [#x]
    rendering of a lone integer) or the unpacked tuple. *)
Inductive pvalue :=
| PStr (s : pystr)
| PTuple (vs : list value).

(** [Module.parameter] *)
Definition parameter (self : Module) (parameter_name : string) : M pvalue :=
  found <- lift (_parameter parameter_name) ;;
  let '(address, fmt) := found in
  raw <- _read_eeprom self address (Z.of_nat (calcsize fmt)) ;;
  value <- lift (unpack fmt raw) ;;
  if ends_in_s fmt then
    match value with
    | VBytes b :: _ => s <- lift (decode_ascii b) ;; ret (PStr s)
    | VInt _ :: _ => raise TypeError
    | [] => raise IndexError
    end
  else
    match value with
    | [VInt z] => ret (PStr (pystr_of_string (HexString.of_Z z)))
    | [VBytes _] => raise ValueError
    | _ => ret (PTuple value)
    end.

(** The argument of [set_parameter]: an integer or a string. *)
Inductive pyvalue :=
| PyInt (z : Z)
| PyStr (s : pystr).

(** [while len(value) < fmtlen: value += '\0'] *)
Equations? pad_nul (value : pystr) (fmtlen : nat) : pystr
    by wf (fmtlen - length value)%nat lt :=
pad_nul value fmtlen with decide (length value < fmtlen)%nat := {
  | left _ => pad_nul (value ++ [0]) fmtlen
  | right _ => value }.
Proof. rewrite length_app. simpl. lia. Qed.

(** [BAUD_MAP[value]] *)
Definition baud_code (value : pyvalue) : outcome bytes :=
  match value with
  | PyInt k =>
      match (list_to_map BAUD_MAP : gmap Z bytes) !! k with
      | Some code => Ok code
      | None => Err KeyError
      end
  | PyStr _ => Err KeyError
  end.

(** [Module.set_parameter] *)
Definition set_parameter (self : Module) (parameter_name : string)
    (value : pyvalue) : M unit :=
  if decide (parameter_name ∈ PARAMETER_WRITE_OK) then
    found <- lift (_parameter parameter_name) ;;
    let '(address, fmt) := found in
    if decide (parameter_name = "BaudrateBootloader1"%string) then
      try_except
        (code <- lift (baud_code value) ;;
         _write_eeprom self address code)
        (fun e => if decide (e = KeyError)
                  then Some (raise (RuntimeError "unsupported CAN baudrate"))
                  else None)
    else if ends_in_s fmt then
      let fmtlen := calcsize fmt in
      match value with
      | PyInt _ => raise TypeError
      | PyStr s =>
          if decide (fmtlen < length s)%nat
          then raise (RuntimeError "value too long")
          else
            payload <- lift (encode_ascii (pad_nul s fmtlen)) ;;
            _write_eeprom self address payload
      end
    else raise (RuntimeError "writing parameter not supported")
  else raise (RuntimeError "parameter not writable").

(** ** Interface.scan *)

Record scan_entry := { status : string; reason : string; sw_ver : Z }.

Lemma before_deadline_ticks b b' :
  before_deadline b = (Ok true, b') ->
  rx b' = rx b /\ (clock b' < clock b)%nat.
Proof.
  unfold before_deadline. destruct (clock b) eqn:E; intros H;
    inversion H; subst; simpl. split; [reflexivity | lia].
Qed.

(** [self.send(MSG_ping())] *)
Definition send_ping : M unit :=
  message <- lift MSG_ping ;;
  send message.

Lemma send_ping_quiet b r b' :
  send_ping b = (r, b') -> rx b' = rx b /\ clock b' = clock b.
Proof. intros H; inversion H; subst; simpl. auto. Qed.

(** The [while True] loop of [Interface.scan]. *)
Equations? scan_loop (modules : gmap Z scan_entry) (b : Bus)
    : outcome (gmap Z scan_entry) * Bus
    by wf (length (rx b) + clock b)%nat lt :=
scan_loop modules b with inspect (recv 50 b) := {
  | exist _ (Ok (Some rsp), b1) _ =>
      match MSG_ack rsp with
      | Ok a =>
          scan_loop (<[ack_module_id a :=
                        {| status := ack_status a; reason := ack_reason a;
                           sw_ver := ack_sw_version a |}]> modules) b1
      | Err e =>
          if is_MessageError e then (Err (MessageError ScanTraffic), b1)
          else (Err e, b1)
      end
  | exist _ (Ok None, b1) _ with inspect (before_deadline b1) := {
      | exist _ (Ok true, b2) _ with inspect (send_ping b2) := {
          | exist _ (Ok _, b3) _ => scan_loop modules b3
          | exist _ (Err e, b3) _ => (Err e, b3) }
      | exist _ (Ok false, b2) _ => (Ok modules, b2)
      | exist _ (Err e, b2) _ => (Err e, b2) }
  | exist _ (Err e, b1) _ => (Err e, b1) }.
Proof.
  - match goal with H : recv _ _ = _ |- _ =>
      pose proof (recv_shrinks _ _ _ _ H); apply recv_quiet in H end.
    lia.
  - repeat match goal with
    | H : recv _ _ = _ |- _ => apply recv_quiet in H as [? ?]
    | H : before_deadline _ = _ |- _ =>
        apply before_deadline_ticks in H as [? ?]
    | H : send_ping _ = _ |- _ => apply send_ping_quiet in H as [? ?]
    | H : rx _ = rx _ |- _ => rewrite H in *; clear H
    end.
    lia.
Qed.

(** [Interface.scan] *)
Definition scan : M (gmap Z scan_entry) :=
  send_ping ;;
  scan_loop ∅.

(** ** Interface: draining and detection *)

(** The loop of [Interface.drain] with [count] receptions left. *)
Fixpoint drain_loop (count : nat) : M unit :=
  match count with
  | O => ret tt
  | S count' =>
      msg <- recv 250 ;;
      match msg with
      | None => ret tt
      | Some _ => drain_loop count'
      end
  end.

(** [Interface.drain] *)
Definition drain : M unit := drain_loop 100.








(** ** mrs_flasher.py: choosing the S-record reader *)

#[global] Instance pvalue_eq_dec : EqDecision pvalue.
Proof. solve_decision. Defined.

Section flasher.

(** The module [mrs_srecord] is not among the sources.  What its two
    readers make of the file to upload is taken as given: the records
    that [upload_records] will yield, or the exception the reader raises.
    The S32K reader is also told the MCU type. *)
Variable HCS08_Srecords : outcome (list bytes).
Variable S32K_Srecords : Z -> outcome (list bytes).

(** [do_upload].  [int(mcu_type, 0)] is 6 for ['0x6'] and 8 for ['0x8'].
    The text of the [RuntimeError] ends with the type that was read; the
    exception carries the fixed part of the text. *)
Definition do_upload (module : Module) : M unit :=
  mcu_type <- parameter module "MCUType" ;;
  srecords <-
    (if decide (mcu_type = PStr (pystr_of_string "0x1")) then
       lift HCS08_Srecords
     else if decide (mcu_type = PStr (pystr_of_string "0x6")) then
       lift (S32K_Srecords 6)
     else if decide (mcu_type = PStr (pystr_of_string "0x8")) then
       lift (S32K_Srecords 8)
     else raise (RuntimeError "Unsupported module MCU")) ;;
  upload module srecords.

End flasher.

(** * Definitions used to state the properties *)

(** The bus after one more frame was sent and the script moved on. *)
Definition exchanged (b : Bus) (message : frame) (rest : list (option frame)) : Bus :=
  {| tx := tx b ++ [message]; rx := rest; clock := clock b |}.

(** The read commands in closed form: command [i] asks for the bytes from
    [A + 8 i], eight of them or what is left of [N]. *)
Definition read_commands (A N : Z) : list (Z * Z) :=
  map (fun i => (A + 8 * Z.of_nat i, Z.min 8 (N - 8 * Z.of_nat i)))
      (seq 0 (Z.to_nat ((N + 7) / 8))).

(** The sum of the counts of a list of (address, count) commands. *)
Definition sum_counts (cmds : list (Z * Z)) : Z :=
  fold_right Z.add 0 (map snd cmds).

(** Sending the fragments of a plan one after the other, each answered
    by the message class the plan names for it. *)
Fixpoint run_plan (plan : list (bytes * rx_class)) : M unit :=
  match plan with
  | [] => ret tt
  | (fragment, c) :: rest =>
      rsp <- _cmd (MSG_srecord fragment) None ;;
      expect c rsp "unexpected response to S-record" ;;
      run_plan rest
  end.

(** [n] pieces of eight bytes from the front of [srec]. *)
Fixpoint pieces (n : nat) (srec : bytes) : list bytes :=
  match n with
  | O => []
  | S n' => firstn 8 srec :: pieces n' (skipn 8 srec)
  end.

(** How often the middle loop runs on [L] bytes. *)
Definition middle_count (L : nat) : nat := ((L - 1) / 8)%nat.

(** The fragments of a record with the reply each one waits for,
    following the specification: a start fragment when the record has
    more than 8 bytes, then middle fragments of 8 bytes while more than 8
    are left, then the end fragment. *)
Definition record_plan (srec : bytes) : list (bytes * rx_class) :=
  if decide (8 < length srec)%nat then
    let n := middle_count (length srec - 8) in
    (firstn 8 srec, srec_start_ok)
      :: map (fun m => (m, srec_cont_ok)) (pieces n (skipn 8 srec))
      ++ [(skipn (8 * n) (skipn 8 srec), srec_end_ok)]
  else [(srec, srec_end_ok)].

(** The module's reply [r] is what class [c] stands for. *)
Definition accepts (c : rx_class) (r : frame) : Prop :=
  exists vs, receive c r = Ok vs.

(** The number of bytes of the UTF-8 encoding of a code point. *)
Definition utf8_width (c : Z) : nat :=
  if c <? 0x80 then 1%nat else if c <? 0x800 then 2%nat
  else if c <? 0x10000 then 3%nat else 4%nat.

(** The number of bytes of the UTF-8 encoding of a string. *)
Definition utf8_len (s : pystr) : nat :=
  fold_right (fun c acc => (utf8_width c + acc)%nat) O s.

(** The string parameters that may be written, with offset and width. *)
Definition writable_strings : list (string * Z * nat) :=
  [("SoftwareVersion"%string, 107, 20%nat); ("ModuleName"%string, 127, 30%nat)].

(** The string-encoded parameters, with offset and width. *)
Definition string_parameters : list (string * Z * nat) :=
  [("PartNumber"%string, 8, 12%nat); ("DrawingNumber"%string, 20, 12%nat);
   ("Name"%string, 32, 20%nat); ("OrderNumber"%string, 52, 8%nat);
   ("TestDate"%string, 60, 8%nat); ("SoftwareVersion"%string, 107, 20%nat);
   ("ModuleName"%string, 127, 30%nat)].

(** [m] only adds frames to the log of sent frames, each with [P]. *)
Definition appends {A} (P : frame -> Prop) (m : M A) : Prop :=
  forall b r b', m b = (r, b') ->
    exists new, tx b' = tx b ++ new /\ Forall P new.

(** A frame on the command id. *)
Definition is_command (f : frame) : Prop := arbitration_id f = CMD_ID.

(** No condition on the frame. *)
Definition any_frame (f : frame) : Prop := True.

(** The table entry [scan] makes of an acknowledgement. *)
Definition entry_of (a : ack_msg) : scan_entry :=
  {| status := ack_status a; reason := ack_reason a; sw_ver := ack_sw_version a |}.

(** [modules[ack.module_id] = {...}] for the acknowledgements in turn. *)
Definition record_acks (modules : gmap Z scan_entry) (acks : list ack_msg)
    : gmap Z scan_entry :=
  foldl (fun m a => <[ack_module_id a := entry_of a]> m) modules acks.

(** The frames of a script that [Interface.recv] hands on. *)
Definition delivered (script : list (option frame)) : list frame :=
  filter (fun f => arbitration_id f ∈ RECEIVE_FILTER) (omap id script).

(** What [struct.pack] makes of an argument before [struct.unpack] gives
    it back: a string is cut or NUL-padded to the width of its item. *)
Definition as_packed (f : field) (v : value) : value :=
  match f, v with
  | fs n, VBytes b => VBytes (firstn n b ++ repeat x00 (n - length b))
  | _, _ => v
  end.

(** The size of the entries of a table. *)
Definition table_size (map : list (list field * string)) : Z :=
  fold_right (fun e acc => Z.of_nat (calcsize e.1) + acc) 0 map.

(** The fragments of all memory records, in order. *)
Definition image_plan (memory_records : list bytes) : list (bytes * rx_class) :=
  concat (map record_plan memory_records).


(** * Properties *)

(** ** The codec *)

Lemma unpack_fields_length fmt payload :
  length (unpack_fields fmt payload) = length fmt.
Proof. revert payload. induction fmt; simpl; intros; [reflexivity | now rewrite IHfmt]. Qed.

Lemma filter_covers_format c : length (_filter c) = length (_format c).
Proof. destruct c; reflexivity. Qed.

(** The filter loop either passes, or stops at the first flagged field
    that differs. *)
Lemma check_filter_ok flt vals k :
  (forall i v, flt !! i = Some (true, v) -> vals !! (k + i)%nat = Some v) ->
  check_filter k flt vals = Ok tt.
Proof.
  revert k. induction flt as [|[check v] flt IH]; simpl; intros k H; [reflexivity|].
  assert (Hrest : check_filter (S k) flt vals = Ok tt).
  { apply IH. intros i v' Hi. replace (S k + i)%nat with (k + S i)%nat by lia.
    apply H. exact Hi. }
  destruct check; [|exact Hrest].
  specialize (H O v eq_refl). rewrite Nat.add_0_r in H. rewrite H.
  destruct (decide (v = v)); [exact Hrest | congruence].
Qed.

Lemma check_filter_ok_inv flt vals k :
  check_filter k flt vals = Ok tt ->
  forall i v, flt !! i = Some (true, v) -> vals !! (k + i)%nat = Some v.
Proof.
  revert k. induction flt as [|[check v] flt IH]; simpl; intros k H i v' Hi.
  - destruct i; discriminate.
  - destruct i as [|i]; simpl in Hi.
    + inversion Hi; subst. rewrite Nat.add_0_r.
      destruct (vals !! k) as [x|]; [|discriminate].
      destruct (decide (v' = x)); [congruence | discriminate].
    + replace (k + S i)%nat with (S k + i)%nat by lia.
      apply IH; [|exact Hi].
      destruct check; [|exact H].
      destruct (vals !! k) as [x|]; [|discriminate].
      destruct (decide (v = x)); [exact H | discriminate].
Qed.

Lemma check_filter_mismatch flt vals k i v x :
  (k + length flt <= length vals)%nat ->
  flt !! i = Some (true, v) -> vals !! (k + i)%nat = Some x -> x <> v ->
  exists j, (j <= i)%nat /\
    check_filter k flt vals = Err (MessageError (WrongField (k + j))).
Proof.
  revert k i. induction flt as [|[check w] flt IH]; simpl; intros k i Hlen Hi Hx Hne.
  - destruct i; discriminate.
  - assert (Hk : is_Some (vals !! k)) by (apply lookup_lt_is_Some; lia).
    destruct Hk as [y Hy].
    destruct i as [|i]; simpl in Hi.
    + inversion Hi; subst. rewrite Nat.add_0_r in Hx. rewrite Hx.
      destruct (decide (v = x)); [congruence|].
      exists O. split; [lia | now rewrite Nat.add_0_r].
    + assert (Hrest : exists j, (j <= i)%nat /\
          check_filter (S k) flt vals = Err (MessageError (WrongField (S k + j)))).
      { apply (IH (S k) i); [lia | exact Hi | | exact Hne].
        replace (S k + i)%nat with (k + S i)%nat by lia. exact Hx. }
      destruct Hrest as [j [Hj Hr]].
      destruct check.
      * rewrite Hy. destruct (decide (w = y)).
        -- exists (S j). split; [lia|]. rewrite Hr. do 3 f_equal. lia.
        -- exists O. split; [lia | now rewrite Nat.add_0_r].
      * exists (S j). split; [lia|]. rewrite Hr. do 3 f_equal. lia.
Qed.

Lemma check_filter_outcome flt vals k :
  (k + length flt <= length vals)%nat ->
  check_filter k flt vals = Ok tt \/
  exists j, check_filter k flt vals = Err (MessageError (WrongField j)).
Proof.
  revert k. induction flt as [|[check w] flt IH]; simpl; intros k Hlen; [now left|].
  assert (Hk : is_Some (vals !! k)) by (apply lookup_lt_is_Some; lia).
  destruct Hk as [y Hy].
  destruct check; [rewrite Hy; destruct (decide (w = y))|]; eauto; apply IH; lia.
Qed.

(** A message class raises nothing but [MessageError]. *)
Lemma receive_raises_MessageError c raw e :
  receive c raw = Err e -> is_MessageError e = true.
Proof.
  unfold receive, RXMessage, unpack, dlc.
  destruct (decide (arbitration_id raw = expected_id c)); [|intros H; inversion H; reflexivity].
  destruct (decide (length (data raw) = calcsize (_format c))); [|intros H; inversion H; reflexivity].
  simpl.
  destruct (check_filter_outcome (_filter c) (unpack_fields (_format c) (data raw)) 0) as [Hok|[j Hj]].
  { rewrite unpack_fields_length, filter_covers_format. simpl. lia. }
  - rewrite Hok. simpl.
    assert (Hl := unpack_fields_length (_format c) (data raw)).
    destruct c; simpl; try discriminate.
    destruct (unpack_fields _ _) as [|v0 [|v1 vs]]; try discriminate. simpl.
    repeat case_decide; intros Hx; inversion Hx; reflexivity.
  - rewrite Hj. simpl. intros H; inversion H; reflexivity.
Qed.

Lemma receive_Ok_inv c raw vs :
  receive c raw = Ok vs ->
  arbitration_id raw = expected_id c /\
  dlc raw = calcsize (_format c) /\
  vs = unpack_fields (_format c) (data raw) /\
  check_filter 0 (_filter c) vs = Ok tt /\
  post_init c vs = Ok tt.
Proof.
  unfold receive, RXMessage, unpack, dlc.
  destruct (decide (arbitration_id raw = expected_id c)); [|discriminate].
  destruct (decide (length (data raw) = calcsize (_format c))); [|discriminate].
  simpl.
  destruct (check_filter 0 _ _) as [[]|] eqn:Hf; [|discriminate]. simpl.
  destruct (post_init c _) as [[]|] eqn:Hp; [|discriminate]. simpl.
  intros H; inversion H; subst. auto.
Qed.

Lemma receive_Ok_intro c raw :
  arbitration_id raw = expected_id c ->
  dlc raw = calcsize (_format c) ->
  check_filter 0 (_filter c) (unpack_fields (_format c) (data raw)) = Ok tt ->
  post_init c (unpack_fields (_format c) (data raw)) = Ok tt ->
  receive c raw = Ok (unpack_fields (_format c) (data raw)).
Proof.
  unfold receive, RXMessage, unpack, dlc. intros Hid Hlen Hf Hp.
  destruct (decide (arbitration_id raw = expected_id c)); [|contradiction].
  destruct (decide (length (data raw) = calcsize (_format c))); [|contradiction].
  simpl. rewrite Hf. simpl. rewrite Hp. reflexivity.
Qed.

(** C5, as amended: constructing a message class from a frame checks the
    arbitration id first, then the payload length, then the filter-flagged
    fields in their order, and each failure is a [MessageError] for that
    check; a frame that differs from an accepted one only in fields that
    are not filter-flagged is accepted too, except that [MSG_erase_done]
    also wants its unfiltered second field to be 0 or 0xff. *)
Theorem receive_checks_in_order (c : rx_class) (raw : frame) :
  (arbitration_id raw <> expected_id c ->
     receive c raw = Err (MessageError WrongId)) /\
  (arbitration_id raw = expected_id c -> dlc raw <> calcsize (_format c) ->
     receive c raw = Err (MessageError WrongLength)) /\
  (arbitration_id raw = expected_id c -> dlc raw = calcsize (_format c) ->
     forall i v x,
       _filter c !! i = Some (true, v) ->
       unpack_fields (_format c) (data raw) !! i = Some x -> x <> v ->
       exists j, (j <= i)%nat /\
         receive c raw = Err (MessageError (WrongField j))) /\
  (forall raw' vs,
     receive c raw = Ok vs ->
     arbitration_id raw' = arbitration_id raw -> dlc raw' = dlc raw ->
     (forall i v, _filter c !! i = Some (true, v) ->
        unpack_fields (_format c) (data raw') !! i
        = unpack_fields (_format c) (data raw) !! i) ->
     (c = erase_done ->
        unpack_fields (_format c) (data raw') !! 1%nat = Some (VInt 0) \/
        unpack_fields (_format c) (data raw') !! 1%nat = Some (VInt 0xff)) ->
     receive c raw' = Ok (unpack_fields (_format c) (data raw'))).
Proof.
  repeat split.
  - intros Hid. unfold receive, RXMessage.
    destruct (decide (arbitration_id raw = expected_id c)); [contradiction|reflexivity].
  - intros Hid Hlen. unfold receive, RXMessage.
    destruct (decide (arbitration_id raw = expected_id c)); [|contradiction].
    destruct (decide (dlc raw = calcsize (_format c))); [contradiction|reflexivity].
  - intros Hid Hlen i v x Hi Hx Hne.
    destruct (check_filter_mismatch (_filter c)
                (unpack_fields (_format c) (data raw)) 0 i v x) as [j [Hj Hr]];
      try assumption.
    { rewrite unpack_fields_length, filter_covers_format. simpl. lia. }
    exists j. split; [exact Hj|].
    unfold receive, RXMessage, unpack.
    destruct (decide (arbitration_id raw = expected_id c)); [|contradiction].
    destruct (decide (dlc raw = calcsize (_format c))); [|contradiction].
    unfold dlc in *.
    destruct (decide (length (data raw) = calcsize (_format c))); [|contradiction].
    simpl. rewrite Hr. reflexivity.
  - intros raw' vs Hok Hid Hlen Hsame Herase.
    apply receive_Ok_inv in Hok as (Hid0 & Hlen0 & -> & Hf & Hp).
    apply receive_Ok_intro; try congruence.
    + apply check_filter_ok. intros i v Hi. simpl.
      rewrite (Hsame i v Hi).
      apply (check_filter_ok_inv _ _ _ Hf i v Hi).
    + destruct c; try reflexivity.
      unfold post_init.
      destruct (Herase eq_refl) as [H|H]; rewrite H; reflexivity.
Qed.

(** C5, the claim as stated fails: [00 00 05 01] differs from the accepted
    [00 00 00 01] only in the second field of [MSG_erase_done], which is
    not filter-flagged, and is refused with a [MessageError]. *)
Lemma erase_done_unfiltered_field_refused :
  receive erase_done (Message RSP_ID [x00; x00; x00; x01])
    = Ok [VInt 0; VInt 0; VInt 1] /\
  _filter erase_done !! 1%nat = Some (false, VInt 0) /\
  unpack_fields (_format erase_done) [x00; x00; x05; x01]
    = [VInt 0; VInt 5; VInt 1] /\
  receive erase_done (Message RSP_ID [x00; x00; x05; x01])
    = Err (MessageError WrongStatus).
Proof. repeat split; vm_compute; reflexivity. Qed.

(** ** Running commands on the bus *)

Lemma expected_id_in_filter c : expected_id c ∈ RECEIVE_FILTER.
Proof. destruct c; vm_compute; repeat constructor. Qed.

Lemma receive_in_filter c raw vs :
  receive c raw = Ok vs -> arbitration_id raw ∈ RECEIVE_FILTER.
Proof.
  intros H. apply receive_Ok_inv in H as (Hid & _). rewrite Hid.
  apply expected_id_in_filter.
Qed.

Lemma recv_head timeout b rsp rest :
  rx b = Some rsp :: rest -> arbitration_id rsp ∈ RECEIVE_FILTER ->
  recv timeout b = (Ok (Some rsp), {| tx := tx b; rx := rest; clock := clock b |}).
Proof.
  intros Hrx Hin. unfold recv. rewrite Hrx. simpl.
  destruct (decide (arbitration_id rsp ∈ RECEIVE_FILTER)); [reflexivity|contradiction].
Qed.

Lemma cmd_reply message b rsp rest :
  rx b = Some rsp :: rest -> arbitration_id rsp ∈ RECEIVE_FILTER ->
  _cmd message None b = (Ok rsp, exchanged b message rest).
Proof.
  intros Hrx Hin. unfold _cmd, bind, send.
  erewrite recv_head by (simpl; eauto). reflexivity.
Qed.

Lemma cmd_accepted message c b rsp rest vs :
  rx b = Some rsp :: rest -> receive c rsp = Ok vs ->
  _cmd message (Some c) b = (Ok rsp, exchanged b message rest).
Proof.
  intros Hrx Hok. unfold _cmd, bind, send.
  erewrite recv_head by (simpl; eauto using receive_in_filter).
  rewrite Hok. reflexivity.
Qed.

Lemma cmd_refused message c b rsp rest e :
  rx b = Some rsp :: rest -> arbitration_id rsp ∈ RECEIVE_FILTER ->
  receive c rsp = Err e ->
  _cmd message (Some c) b
  = (Err (ModuleError "unexpected reply type"), exchanged b message rest).
Proof.
  intros Hrx Hin Herr. unfold _cmd, bind, send.
  erewrite recv_head by (simpl; eauto).
  rewrite Herr, (receive_raises_MessageError _ _ _ Herr). reflexivity.
Qed.

Lemma MSG_selected_Ok_inv rsp sel :
  MSG_selected rsp = Ok sel -> exists vs, receive selected rsp = Ok vs.
Proof.
  unfold MSG_selected. destruct (receive selected rsp) as [vs|]; [eauto|discriminate].
Qed.

(** ** Selection *)

Lemma select_run self b message rsp rest sel :
  MSG_select (_module_id self) = Ok message ->
  rx b = Some rsp :: rest ->
  MSG_selected rsp = Ok sel ->
  _select self b
  = (if decide (module_id sel <> _module_id self)
     then Err (NameError "CanError") else Ok (sw_version sel),
     exchanged b message rest).
Proof.
  intros Hm Hrx Hsel. unfold _select, bind, lift. rewrite Hm.
  destruct (MSG_selected_Ok_inv _ _ Hsel) as [vs Hvs].
  erewrite cmd_reply by eauto using receive_in_filter.
  rewrite Hsel. destruct (decide _); reflexivity.
Qed.

(** C3: a [selected] reply that carries another module's id makes
    [_select] stop at the unbound name [CanError], so the operation that
    called it ends in a [NameError], not in a [ModuleError]; nothing is
    sent after the select command. *)
Theorem select_wrong_module_is_NameError self b message rsp rest sel :
  MSG_select (_module_id self) = Ok message ->
  rx b = Some rsp :: rest ->
  MSG_selected rsp = Ok sel ->
  module_id sel <> _module_id self ->
  _select self b
    = (Err (NameError "CanError"), exchanged b message rest) /\
  (forall address len, _read_eeprom self address len b
    = (Err (NameError "CanError"), exchanged b message rest)) /\
  (forall address payload, _write_eeprom self address payload b
    = (Err (NameError "CanError"), exchanged b message rest)) /\
  _enter_flash_mode self b
    = (Err (NameError "CanError"), exchanged b message rest) /\
  (forall records, upload self records b
    = (Err (NameError "CanError"), exchanged b message rest)).
Proof.
  intros Hm Hrx Hsel Hne.
  assert (Hs : _select self b
             = (Err (NameError "CanError"), exchanged b message rest)).
  { erewrite select_run by eauto.
    destruct (decide (module_id sel <> _module_id self)); [reflexivity|contradiction]. }
  repeat split; [exact Hs| | | |]; intros;
    unfold upload, _read_eeprom, _write_eeprom, _enter_flash_mode, bind;
    rewrite Hs; reflexivity.
Qed.

Lemma select_wrong_module_is_NameError_witness :
  _select {| _module_id := 5; _verbose := false |}
    {| tx := [];
       rx := [Some (Message RSP_ID [x21; x10; x00; x00; x00; x06; x00; x00])];
       clock := 0 |}
  = (Err (NameError "CanError"),
     {| tx := [Message CMD_ID [x20; x10; x00; x00; x00; x05]];
        rx := []; clock := 0 |}).
Proof.
  exact (proj1 (select_wrong_module_is_NameError
                  {| _module_id := 5; _verbose := false |}
                  {| tx := [];
                     rx := [Some (Message RSP_ID
                                    [x21; x10; x00; x00; x00; x06; x00; x00])];
                     clock := 0 |}
                  (Message CMD_ID [x20; x10; x00; x00; x00; x05])
                  (Message RSP_ID [x21; x10; x00; x00; x00; x06; x00; x00])
                  [] {| module_id := 6; sw_version := 0 |}
                  eq_refl eq_refl eq_refl ltac:(simpl; lia))).
Defined.

(** ** EEPROM read *)

From Stdlib Require Import ZifyNat.

(** [lia] with quotients by a constant turned into their equations. *)
Ltac div_lia := zify; Z.to_euclidean_division_equations; lia.

Lemma read_eeprom_loop_eq address len result :
  read_eeprom_loop address len result
  = if decide (len > 0) then
      let amount := if decide (len <= 8) then len else 8 in
      message <- lift (MSG_read_eeprom address amount) ;;
      rsp <- _cmd message None ;;
      if decide (arbitration_id rsp <> DATA_ID)
      then raise (ModuleError "unexpected reply to EEPROM read")
      else read_eeprom_loop (address + amount) (len - amount)
                            (result ++ data rsp)
    else ret result.
Proof.
  simp read_eeprom_loop. destruct (decide (len > 0)); reflexivity.
Qed.

Lemma read_commands_nil A N : N <= 0 -> read_commands A N = [].
Proof.
  intros H. unfold read_commands.
  replace (Z.to_nat ((N + 7) / 8)) with O by div_lia. reflexivity.
Qed.

Lemma read_commands_step A N :
  0 < N ->
  read_commands A N
  = (A, Z.min 8 N) :: read_commands (A + Z.min 8 N) (N - Z.min 8 N).
Proof.
  intros H. unfold read_commands.
  destruct (decide (N <= 8)) as [Hs|Hb].
  - replace (Z.to_nat ((N + 7) / 8)) with 1%nat by div_lia.
    replace (Z.to_nat ((N - Z.min 8 N + 7) / 8)) with O by div_lia.
    simpl. do 2 f_equal; lia.
  - replace (Z.to_nat ((N + 7) / 8))
      with (S (Z.to_nat ((N - Z.min 8 N + 7) / 8))) by div_lia.
    rewrite <- cons_seq, <- fmap_S_seq. simpl.
    f_equal; [f_equal; lia|].
    rewrite map_map. apply map_ext. intros i. f_equal; lia.
Qed.

Lemma MSG_read_eeprom_Ok address count :
  0 <= address < 65536 -> 0 <= count < 256 ->
  MSG_read_eeprom address count
  = Ok (Message CMD_ID ([x20; x03] ++ be_of_Z 2 address ++ be_of_Z 1 count)).
Proof.
  intros Ha Hc. unfold MSG_read_eeprom, TXMessage. simpl.
  unfold pack_int.
  replace ((0 <=? address) && (address <? 256 ^ Z.of_nat 2)) with true
    by (symmetry; apply andb_true_intro; split; [apply Z.leb_le | apply Z.ltb_lt]; simpl; lia).
  replace ((0 <=? count) && (count <? 256 ^ Z.of_nat 1)) with true
    by (symmetry; apply andb_true_intro; split; [apply Z.leb_le | apply Z.ltb_lt]; simpl; lia).
  reflexivity.
Qed.

Lemma bus_eta b : {| tx := tx b ++ []; rx := rx b; clock := clock b |} = b.
Proof. destruct b; simpl. now rewrite app_nil_r. Qed.

Lemma read_eeprom_loop_run replies :
  forall A N acc b rest,
    0 <= A -> A + N <= 65536 ->
    rx b = map Some replies ++ rest ->
    length replies = Z.to_nat ((N + 7) / 8) ->
    Forall (fun r => arbitration_id r = DATA_ID) replies ->
    exists cmds,
      Forall2 (fun ac f => MSG_read_eeprom ac.1 ac.2 = Ok f)
              (read_commands A N) cmds /\
      read_eeprom_loop A N acc b
      = (Ok (acc ++ concat (map data replies)),
         {| tx := tx b ++ cmds; rx := rest; clock := clock b |}).
Proof.
  induction replies as [|r replies IH]; intros A N acc b rest HA HN Hrx Hlen Hdata.
  - simpl in Hlen, Hrx. exists []. split.
    + rewrite read_commands_nil by div_lia. constructor.
    + rewrite read_eeprom_loop_eq.
      destruct (decide (N > 0)); [div_lia|].
      unfold ret. simpl. rewrite app_nil_r. subst rest. now rewrite bus_eta.
  - simpl in Hlen, Hrx. inversion Hdata as [|? ? Hr Hrs]; subst.
    assert (HNpos : 0 < N) by div_lia.
    set (amount := Z.min 8 N).
    assert (Hmsg := MSG_read_eeprom_Ok A amount ltac:(lia) ltac:(lia)).
    set (message := Message CMD_ID _) in Hmsg.
    destruct (IH (A + amount) (N - amount) (acc ++ data r)
                 (exchanged b message (map Some replies ++ rest)) rest)
      as [cmds [Hcmds Hrun]]; try (simpl; div_lia); try assumption; try reflexivity.
    exists (message :: cmds). split.
    + rewrite read_commands_step by lia. constructor; assumption.
    + rewrite read_eeprom_loop_eq.
      destruct (decide (N > 0)); [|lia]. cbv zeta.
      replace (if decide (N <= 8) then N else 8) with amount
        by (unfold amount; destruct (decide (N <= 8)); lia).
      unfold bind at 1. unfold lift. rewrite Hmsg.
      unfold bind at 1.
      erewrite cmd_reply; [|exact Hrx|rewrite Hr; vm_compute; repeat constructor].
      destruct (decide (arbitration_id r <> DATA_ID)); [contradiction|].
      rewrite Hrun. simpl. rewrite <- !app_assoc. reflexivity.
Qed.

Lemma read_commands_length A N :
  length (read_commands A N) = Z.to_nat ((N + 7) / 8).
Proof. unfold read_commands. now rewrite length_map, length_seq. Qed.

Lemma read_commands_lookup A N i a c :
  read_commands A N !! i = Some (a, c) ->
  (i < Z.to_nat ((N + 7) / 8))%nat /\
  a = A + 8 * Z.of_nat i /\ c = Z.min 8 (N - 8 * Z.of_nat i).
Proof.
  unfold read_commands. intros H.
  change map with (@fmap list _) in H.
  rewrite list_lookup_fmap in H.
  destruct (seq 0 _ !! i) as [j|] eqn:Hj; [|discriminate].
  apply lookup_seq in Hj as [-> Hlt]. simpl in H. inversion H; subst.
  auto.
Qed.

Lemma read_commands_counts A N :
  Forall (fun ac => 0 < ac.2 <= 8) (read_commands A N).
Proof.
  apply Forall_lookup_2. intros i [a c] H.
  apply read_commands_lookup in H as (Hi & -> & ->). simpl. div_lia.
Qed.

Lemma read_commands_advance A N i a c a' c' :
  read_commands A N !! i = Some (a, c) ->
  read_commands A N !! S i = Some (a', c') ->
  a' = a + c.
Proof.
  intros H H'.
  apply read_commands_lookup in H as (Hi & -> & ->).
  apply read_commands_lookup in H' as (Hi' & -> & _). div_lia.
Qed.

Lemma read_commands_sum A N : 0 <= N -> sum_counts (read_commands A N) = N.
Proof.
  intros HN. remember (Z.to_nat ((N + 7) / 8)) as k eqn:Hk.
  revert A N HN Hk. induction k as [|k IH]; intros A N HN Hk.
  - rewrite read_commands_nil by div_lia. unfold sum_counts. simpl. div_lia.
  - rewrite read_commands_step by div_lia.
    unfold sum_counts in *. simpl. rewrite IH by div_lia. lia.
Qed.

Lemma read_commands_frames (plan : list (Z * Z)) cmds :
  Forall2 (fun ac f => MSG_read_eeprom ac.1 ac.2 = Ok f) plan cmds ->
  map (fun ac => MSG_read_eeprom ac.1 ac.2) plan = map Ok cmds.
Proof. induction 1; simpl; congruence. Qed.

(** C4, as amended: for [N > 0] bytes within the 16-bit address space, a
    module that answers the select and then each read command with a DATA
    frame gets exactly [ceil (N / 8)] read commands, each for 1 to 8
    bytes, the counts adding up to [N], the first at [A] and each next one
    at the previous address plus the previous count; the value returned
    is the payloads of the replies put together, which is [N] bytes when
    each reply carries as many bytes as its command asked for. *)
Theorem read_eeprom_chunking self A N b select_message sel_rsp sel replies rest :
  0 < N -> 0 <= A -> A + N <= 65536 ->
  MSG_select (_module_id self) = Ok select_message ->
  MSG_selected sel_rsp = Ok sel -> module_id sel = _module_id self ->
  rx b = Some sel_rsp :: map Some replies ++ rest ->
  length replies = Z.to_nat ((N + 7) / 8) ->
  Forall (fun r => arbitration_id r = DATA_ID) replies ->
  exists cmds,
    Forall2 (fun ac f => MSG_read_eeprom ac.1 ac.2 = Ok f)
            (read_commands A N) cmds /\
    _read_eeprom self A N b
    = (Ok (concat (map data replies)),
       {| tx := tx b ++ select_message :: cmds; rx := rest; clock := clock b |}) /\
    Z.of_nat (length cmds) = (N + 7) / 8 /\
    Forall (fun ac => 0 < ac.2 <= 8) (read_commands A N) /\
    sum_counts (read_commands A N) = N /\
    (exists c, read_commands A N !! 0%nat = Some (A, c)) /\
    (forall i a c a' c',
       read_commands A N !! i = Some (a, c) ->
       read_commands A N !! S i = Some (a', c') -> a' = a + c) /\
    (Forall2 (fun ac r => Z.of_nat (length (data r)) = ac.2)
             (read_commands A N) replies ->
     Z.of_nat (length (concat (map data replies))) = N).
Proof.
  intros HN HA HAN Hm Hsel Hid Hrx Hlen Hdata.
  destruct (read_eeprom_loop_run replies A N []
              (exchanged b select_message (map Some replies ++ rest)) rest)
    as [cmds [Hcmds Hrun]]; try assumption; try reflexivity.
  exists cmds. split; [exact Hcmds|]. split; [|split; [|split; [|split; [|split; [|split]]]]].
  - unfold _read_eeprom, bind.
    erewrite select_run by eauto.
    destruct (decide (module_id sel <> _module_id self)); [contradiction|].
    rewrite Hrun. simpl. rewrite <- app_assoc. reflexivity.
  - rewrite <- (Forall2_length _ _ _ Hcmds), read_commands_length. div_lia.
  - apply read_commands_counts.
  - apply read_commands_sum. lia.
  - rewrite read_commands_step by lia. simpl. eauto.
  - apply read_commands_advance.
  - intros Hfull.
    transitivity (sum_counts (read_commands A N));
      [|apply read_commands_sum; lia].
    clear -Hfull. unfold sum_counts.
    induction Hfull as [|[a c] r cmds' replies' Hh Ht IH]; [reflexivity|].
    simpl in *. rewrite length_app. lia.
Qed.

Lemma read_eeprom_chunking_witness :
  exists cmds,
    cmds = [Message CMD_ID [x20; x03; x00; x04; x08];
            Message CMD_ID [x20; x03; x00; x0c; x02]] /\
    _read_eeprom {| _module_id := 5; _verbose := false |} 4 10
      {| tx := [];
         rx := [Some (Message RSP_ID [x21; x10; x00; x00; x00; x05; x00; x00]);
                Some (Message DATA_ID [x01; x02; x03; x04; x05; x06; x07; x08]);
                Some (Message DATA_ID [x09; x0a])];
         clock := 0 |}
    = (Ok [x01; x02; x03; x04; x05; x06; x07; x08; x09; x0a],
       {| tx := Message CMD_ID [x20; x10; x00; x00; x00; x05] :: cmds;
          rx := []; clock := 0 |}).
Proof.
  destruct (read_eeprom_chunking
              {| _module_id := 5; _verbose := false |} 4 10
              {| tx := [];
                 rx := [Some (Message RSP_ID [x21; x10; x00; x00; x00; x05; x00; x00]);
                        Some (Message DATA_ID [x01; x02; x03; x04; x05; x06; x07; x08]);
                        Some (Message DATA_ID [x09; x0a])];
                 clock := 0 |}
              (Message CMD_ID [x20; x10; x00; x00; x00; x05])
              (Message RSP_ID [x21; x10; x00; x00; x00; x05; x00; x00])
              {| module_id := 5; sw_version := 0 |}
              [Message DATA_ID [x01; x02; x03; x04; x05; x06; x07; x08];
               Message DATA_ID [x09; x0a]] [])
    as [cmds [Hcmds [Hrun _]]];
    [lia | lia | lia | reflexivity | reflexivity | reflexivity | reflexivity
    | reflexivity | repeat constructor |].
  exists cmds. split; [|exact Hrun].
  apply read_commands_frames in Hcmds.
  change (read_commands 4 10) with [(4, 8); (12, 2)] in Hcmds.
  destruct cmds as [|c1 [|c2 [|c3 cmds]]]; try discriminate.
  change ([Ok (Message CMD_ID [x20; x03; x00; x04; x08]);
           Ok (Message CMD_ID [x20; x03; x00; x0c; x02])]
          = [Ok c1; Ok c2]) in Hcmds.
  congruence.
Defined.

(** C4, the claim as stated fails twice: a reply shorter than the count
    asked for is taken as it is, so 4 bytes are requested and 2 returned;
    and a read that runs past address 0xffff stops with [struct.error]
    after its first command. *)
Lemma read_eeprom_short_reply :
  _read_eeprom {| _module_id := 5; _verbose := false |} 4 4
    {| tx := [];
       rx := [Some (Message RSP_ID [x21; x10; x00; x00; x00; x05; x00; x00]);
              Some (Message DATA_ID [x01; x02])];
       clock := 0 |}
  = (Ok [x01; x02],
     {| tx := [Message CMD_ID [x20; x10; x00; x00; x00; x05];
               Message CMD_ID [x20; x03; x00; x04; x04]];
        rx := []; clock := 0 |})
  /\
  _read_eeprom {| _module_id := 5; _verbose := false |} 65535 16
    {| tx := [];
       rx := [Some (Message RSP_ID [x21; x10; x00; x00; x00; x05; x00; x00]);
              Some (Message DATA_ID [x01; x02; x03; x04; x05; x06; x07; x08]);
              Some (Message DATA_ID [x01; x02; x03; x04; x05; x06; x07; x08])];
       clock := 0 |}
  = (Err StructError,
     {| tx := [Message CMD_ID [x20; x10; x00; x00; x00; x05];
               Message CMD_ID [x20; x03; xff; xff; x08]];
        rx := [Some (Message DATA_ID [x01; x02; x03; x04; x05; x06; x07; x08])];
        clock := 0 |}).
Proof. split; vm_compute; reflexivity. Qed.

(** ** Programming: the fragments of a record *)

Lemma program_middle_loop_eq srec :
  program_middle_loop srec
  = if decide (8 < length srec)%nat then
      rsp <- _cmd (MSG_srecord (firstn 8 srec)) None ;;
      expect srec_cont_ok rsp "unexpected response to S-record" ;;
      program_middle_loop (skipn 8 srec)
    else ret srec.
Proof.
  rewrite program_middle_loop_equation_1.
  destruct (decide (8 < length srec)%nat); reflexivity.
Qed.

Lemma bind_assoc {A B C} (m : M A) (f : A -> M B) (g : B -> M C) b :
  bind (bind m f) g b = bind m (fun x => bind (f x) g) b.
Proof. unfold bind. destruct (m b) as [[a|e] b']; reflexivity. Qed.

Lemma bind_ext {A B} (m : M A) (f g : A -> M B) b :
  (forall a b', f a b' = g a b') -> bind m f b = bind m g b.
Proof. intros H. unfold bind. destruct (m b) as [[a|e] b']; auto. Qed.

Lemma run_plan_app p q b :
  run_plan (p ++ q) b = bind (run_plan p) (fun _ => run_plan q) b.
Proof.
  revert b. induction p as [|[fragment c] p IH]; intros b; simpl; [reflexivity|].
  rewrite bind_assoc. apply bind_ext. intros rsp b1.
  rewrite bind_assoc. apply bind_ext. intros [] b2. apply IH.
Qed.

Lemma program_middle_loop_plan n :
  forall srec {A} (k : bytes -> M A) b,
    n = middle_count (length srec) ->
    bind (program_middle_loop srec) k b
    = bind (run_plan (map (fun m => (m, srec_cont_ok)) (pieces n srec)))
           (fun _ => k (skipn (8 * n) srec)) b.
Proof.
  unfold middle_count.
  induction n as [|n IH]; intros srec A k b Hn; rewrite program_middle_loop_eq.
  - destruct (decide (8 < length srec)%nat); [div_lia|]. reflexivity.
  - destruct (decide (8 < length srec)%nat); [|div_lia].
    simpl pieces. simpl map. simpl run_plan.
    rewrite !bind_assoc. apply bind_ext. intros rsp b1.
    rewrite !bind_assoc. apply bind_ext. intros [] b2.
    rewrite IH by (rewrite length_skipn; div_lia).
    apply bind_ext. intros [] b3.
    rewrite drop_drop. do 2 f_equal. lia.
Qed.

Lemma bind_ret_tt (m : M unit) b : bind m (fun _ => ret tt) b = m b.
Proof. unfold bind, ret. destruct (m b) as [[[]|e] b']; reflexivity. Qed.

Lemma program_record_plan self srec b :
  _verbose self = false \/ utf8_valid (firstn 2 srec) = true ->
  program_record self srec b = run_plan (record_plan srec) b.
Proof.
  intros Hv. unfold program_record, record_plan.
  assert (Ht : trace_record self srec = ret tt).
  { unfold trace_record. destruct Hv as [-> | ->]; [reflexivity|].
    destruct (_verbose self); reflexivity. }
  rewrite Ht. unfold bind at 1. unfold ret at 1.
  destruct (decide (8 < length srec)%nat) as [Hlong|Hshort].
  - cbv zeta. simpl run_plan.
    rewrite !bind_assoc. apply bind_ext. intros rsp b1.
    rewrite !bind_assoc. apply bind_ext. intros [] b2.
    unfold bind at 1. unfold ret at 1.
    rewrite (program_middle_loop_plan (middle_count (length srec - 8)))
      by (now rewrite length_skipn).
    rewrite run_plan_app. apply bind_ext. intros [] b3.
    simpl run_plan.
    rewrite firstn_all2.
    + apply bind_ext. intros rsp' b4. symmetry. apply bind_ret_tt.
    + rewrite !length_skipn. unfold middle_count. div_lia.
  - unfold bind at 1. unfold ret at 1.
    rewrite program_middle_loop_eq.
    destruct (decide (8 < length srec)%nat); [contradiction|].
    unfold bind at 1. unfold ret at 1. simpl run_plan.
    rewrite firstn_all2 by lia.
    apply bind_ext. intros rsp' b4. symmetry. apply bind_ret_tt.
Qed.

Lemma expect_accepted c r msg b : accepts c r -> expect c r msg b = (Ok tt, b).
Proof. intros [vs H]. unfold expect. now rewrite H. Qed.

Lemma expect_refused c r msg b e :
  receive c r = Err e -> expect c r msg b = (Err (ModuleError msg), b).
Proof.
  intros H. unfold expect.
  now rewrite H, (receive_raises_MessageError _ _ _ H).
Qed.

Lemma run_plan_accepted plan replies :
  Forall2 (fun p r => accepts p.2 r) plan replies ->
  forall b rest,
    rx b = map Some replies ++ rest ->
    run_plan plan b
    = (Ok tt, {| tx := tx b ++ map (fun p => MSG_srecord p.1) plan;
                 rx := rest; clock := clock b |}).
Proof.
  induction 1 as [|[fragment c] r plan replies Hr _ IH]; intros b rest Hrx.
  - simpl in *. subst rest. unfold ret. now rewrite bus_eta.
  - simpl in Hrx. simpl run_plan. unfold bind at 1.
    erewrite cmd_reply;
      [|exact Hrx|destruct Hr as [vs Hvs]; eapply receive_in_filter; exact Hvs].
    unfold bind at 1. rewrite expect_accepted by exact Hr.
    rewrite (IH _ rest) by reflexivity.
    simpl. now rewrite <- app_assoc.
Qed.

Lemma run_plan_refused k :
  forall plan replies b r rest fragment c e,
    rx b = map Some replies ++ Some r :: rest ->
    Forall2 (fun p r => accepts p.2 r) (take k plan) replies ->
    plan !! k = Some (fragment, c) ->
    arbitration_id r ∈ RECEIVE_FILTER ->
    receive c r = Err e ->
    run_plan plan b
    = (Err (ModuleError "unexpected response to S-record"),
       {| tx := tx b ++ map (fun p => MSG_srecord p.1) (take (S k) plan);
          rx := rest; clock := clock b |}).
Proof.
  induction k as [|k IH]; intros plan replies b r rest fragment c e Hrx Hacc Hk Hin Herr.
  - destruct plan as [|[f0 c0] plan]; [discriminate|].
    simpl in Hk. inversion Hk; subst. simpl in Hacc. inversion Hacc; subst.
    simpl in Hrx. simpl run_plan. unfold bind at 1.
    erewrite cmd_reply by eauto.
    unfold bind at 1. erewrite expect_refused by eauto. reflexivity.
  - destruct plan as [|[f0 c0] plan]; [discriminate|].
    simpl in Hk. simpl in Hacc.
    inversion Hacc as [|? r0 ? replies' Hr0 Hrest]; subst.
    simpl in Hrx. simpl run_plan. unfold bind at 1.
    erewrite cmd_reply;
      [|exact Hrx|destruct Hr0 as [vs Hvs]; eapply receive_in_filter; exact Hvs].
    unfold bind at 1. rewrite expect_accepted by exact Hr0.
    erewrite (IH plan replies') by eauto.
    simpl. now rewrite <- app_assoc.
Qed.

Lemma pieces_concat n srec :
  concat (pieces n srec) ++ skipn (8 * n) srec = srec.
Proof.
  revert srec. induction n as [|n IH]; intros srec; [reflexivity|].
  simpl pieces. simpl concat.
  replace (8 * S n)%nat with (8 + 8 * n)%nat by lia.
  rewrite <- drop_drop, <- app_assoc, IH. apply take_drop.
Qed.

Lemma pieces_length n srec : length (pieces n srec) = n.
Proof. revert srec. induction n; intros; simpl; [reflexivity | now rewrite IHn]. Qed.

Lemma pieces_full n srec :
  (8 * n <= length srec)%nat -> Forall (fun m => length m = 8%nat) (pieces n srec).
Proof.
  revert srec. induction n as [|n IH]; intros srec H; simpl; constructor.
  - rewrite length_take. lia.
  - apply IH. rewrite length_skipn. lia.
Qed.

Lemma record_plan_partition srec : concat (map fst (record_plan srec)) = srec.
Proof.
  unfold record_plan. destruct (decide (8 < length srec)%nat); cbv zeta.
  - simpl. rewrite map_app, map_map. simpl. rewrite map_id, concat_app. simpl.
    rewrite app_nil_r, pieces_concat. apply take_drop.
  - simpl. apply app_nil_r.
Qed.

(** C1: the frames [_program] sends for a memory record of [L] bytes are
    those of [record_plan]: one frame waiting for [srec_end_ok] when
    [L <= 8]; a start fragment of 8 bytes waiting for [srec_start_ok] and
    an end fragment of [L - 8] bytes waiting for [srec_end_ok] when
    [8 < L <= 16]; a start fragment, [ceil ((L - 8) / 8) - 1] middle
    fragments of 8 bytes each waiting for [srec_cont_ok], and an end
    fragment when [L > 16].  The fragments are the record's bytes in
    order.  When every reply is the one waited for, exactly these frames
    are sent; a reply that is not the one waited for stops the record with
    a [ModuleError] right after that fragment. *)
Theorem program_record_fragments self srec :
  _verbose self = false \/ utf8_valid (firstn 2 srec) = true ->
  let L := length srec in
  let plan := record_plan srec in
  concat (map fst plan) = srec /\
  ((L <= 8)%nat -> plan = [(srec, srec_end_ok)]) /\
  ((8 < L <= 16)%nat ->
     plan = [(firstn 8 srec, srec_start_ok); (skipn 8 srec, srec_end_ok)] /\
     length (firstn 8 srec) = 8%nat /\ length (skipn 8 srec) = (L - 8)%nat) /\
  ((16 < L)%nat ->
     exists middles last_fragment,
       plan = (firstn 8 srec, srec_start_ok)
              :: map (fun m => (m, srec_cont_ok)) middles
              ++ [(last_fragment, srec_end_ok)] /\
       Z.of_nat (length middles) = (Z.of_nat L - 8 + 7) / 8 - 1 /\
       Forall (fun m => length m = 8%nat) middles /\
       (1 <= length last_fragment <= 8)%nat) /\
  (forall b replies rest,
     rx b = map Some replies ++ rest ->
     Forall2 (fun p r => accepts p.2 r) plan replies ->
     program_record self srec b
     = (Ok tt, {| tx := tx b ++ map (fun p => MSG_srecord p.1) plan;
                  rx := rest; clock := clock b |})) /\
  (forall b k replies r rest fragment c e,
     rx b = map Some replies ++ Some r :: rest ->
     Forall2 (fun p r => accepts p.2 r) (take k plan) replies ->
     plan !! k = Some (fragment, c) ->
     arbitration_id r ∈ RECEIVE_FILTER ->
     receive c r = Err e ->
     program_record self srec b
     = (Err (ModuleError "unexpected response to S-record"),
        {| tx := tx b ++ map (fun p => MSG_srecord p.1) (take (S k) plan);
           rx := rest; clock := clock b |})).
Proof.
  intros Hv L plan. subst L plan.
  split; [apply record_plan_partition|].
  split; [|split; [|split; [|split]]].
  - intros HL. unfold record_plan.
    destruct (decide (8 < length srec)%nat); [lia|reflexivity].
  - intros HL. unfold record_plan.
    destruct (decide (8 < length srec)%nat); [|lia]. cbv zeta.
    replace (middle_count (length srec - 8)) with O
      by (unfold middle_count; div_lia).
    simpl. rewrite length_take, length_skipn. repeat split; lia.
  - intros HL. unfold record_plan.
    destruct (decide (8 < length srec)%nat); [|lia]. cbv zeta.
    eexists _, _. split; [reflexivity|].
    rewrite pieces_length. unfold middle_count.
    split; [div_lia|]. split.
    + apply pieces_full. rewrite length_skipn. div_lia.
    + rewrite !length_skipn. div_lia.
  - intros b replies rest Hrx Hacc.
    rewrite program_record_plan by assumption.
    now apply (run_plan_accepted _ replies).
  - intros b k replies r rest fragment c e Hrx Hacc Hk Hin Herr.
    rewrite program_record_plan by assumption.
    apply (run_plan_refused k _ replies b r rest fragment c e); assumption.
Qed.

Lemma program_record_fragments_witness :
  program_record {| _module_id := 5; _verbose := false |}
    [x53; x31; x01; x02; x03; x04; x05; x06; x07; x08; x09; x0a; x0b; x0c;
     x0d; x0e; x0f; x10]
    {| tx := [];
       rx := [Some (Message RSP_ID [x00; x01; x01; x01; x01]);
              Some (Message RSP_ID [x00; x01]);
              Some (Message RSP_ID [x00; x00; x01])];
       clock := 0 |}
  = (Ok tt,
     {| tx := [Message SREC_ID [x53; x31; x01; x02; x03; x04; x05; x06];
               Message SREC_ID [x07; x08; x09; x0a; x0b; x0c; x0d; x0e];
               Message SREC_ID [x0f; x10]];
        rx := []; clock := 0 |}).
Proof.
  destruct (program_record_fragments {| _module_id := 5; _verbose := false |}
              [x53; x31; x01; x02; x03; x04; x05; x06; x07; x08; x09; x0a;
               x0b; x0c; x0d; x0e; x0f; x10] (or_introl eq_refl))
    as (_ & _ & _ & _ & Hrun & _).
  apply (Hrun {| tx := [];
                 rx := [Some (Message RSP_ID [x00; x01; x01; x01; x01]);
                        Some (Message RSP_ID [x00; x01]);
                        Some (Message RSP_ID [x00; x00; x01])];
                 clock := 0 |}
              [Message RSP_ID [x00; x01; x01; x01; x01];
               Message RSP_ID [x00; x01];
               Message RSP_ID [x00; x00; x01]] []).
  - reflexivity.
  - repeat constructor; eexists; vm_compute; reflexivity.
Defined.

(** ** EEPROM write *)

Lemma write_eeprom_loop_eq address payload :
  write_eeprom_loop address payload
  = if decide (0 < length payload)%nat then
      reraise_ModuleError
        (message <- lift (MSG_write_eeprom_data address (firstn 6 payload)) ;;
         _cmd message (Some eeprom_write_ok))
        "could not write EEPROM data" ;;
      write_eeprom_loop address (skipn 6 payload)
    else ret tt.
Proof.
  rewrite write_eeprom_loop_equation_1.
  destruct (decide (0 < length payload)%nat); reflexivity.
Qed.

(** No arguments make [MSG_write_eeprom()] succeed: its format has four
    items and it packs two. *)
Lemma MSG_write_eeprom_raises : MSG_write_eeprom = Err StructError.
Proof. reflexivity. Qed.

(** After a good selection [_write_eeprom] stops at building the unlock
    command: the select command is all that was sent. *)
Lemma write_eeprom_stops self address payload b message rsp rest sel :
  MSG_select (_module_id self) = Ok message ->
  rx b = Some rsp :: rest ->
  MSG_selected rsp = Ok sel ->
  module_id sel = _module_id self ->
  _write_eeprom self address payload b
  = (Err StructError, exchanged b message rest).
Proof.
  intros Hm Hrx Hsel Hid. unfold _write_eeprom. unfold bind at 1.
  erewrite select_run by eauto.
  destruct (decide (module_id sel <> _module_id self)); [contradiction|].
  reflexivity.
Qed.

(** C2: with every reply as the module should give it, writing 7 bytes
    at address 0x10 sends the select command and nothing else, because
    building the unlock command raises [struct.error]; no chunk is sent and
    [close_eeprom] is not sent.  Run on its own, the chunk loop puts the
    same address, 0x0010, in both of its frames: the second chunk is not
    addressed at 0x0016. *)
Theorem write_eeprom_sends_no_chunk :
  _write_eeprom {| _module_id := 5; _verbose := false |} 0x10
    [x01; x02; x03; x04; x05; x06; x07]
    {| tx := [];
       rx := [Some (Message RSP_ID [x21; x10; x00; x00; x00; x05; x00; x00]);
              Some (Message RSP_ID [x21; x11; x01; x00; x00]);
              Some (Message RSP_ID [x20; xe8; x00; x00; x00]);
              Some (Message RSP_ID [x20; xe8; x00; x00; x00]);
              Some (Message RSP_ID [x20; xf0; x02; x00; x00])];
       clock := 0 |}
  = (Err StructError,
     {| tx := [Message CMD_ID [x20; x10; x00; x00; x00; x05]];
        rx := [Some (Message RSP_ID [x21; x11; x01; x00; x00]);
               Some (Message RSP_ID [x20; xe8; x00; x00; x00]);
               Some (Message RSP_ID [x20; xe8; x00; x00; x00]);
               Some (Message RSP_ID [x20; xf0; x02; x00; x00])];
        clock := 0 |})
  /\
  write_eeprom_loop 0x10 [x01; x02; x03; x04; x05; x06; x07]
    {| tx := [];
       rx := [Some (Message RSP_ID [x20; xe8; x00; x00; x00]);
              Some (Message RSP_ID [x20; xe8; x00; x00; x00])];
       clock := 0 |}
  = (Ok tt,
     {| tx := [Message EEPROM_ID [x00; x10; x01; x02; x03; x04; x05; x06];
               Message EEPROM_ID [x00; x10; x07]];
        rx := []; clock := 0 |}).
Proof. split; vm_compute; reflexivity. Qed.

(** ** Setting parameters *)

Lemma baud_code_known k :
  k ∈ [1000; 800; 500; 250; 125; 100] ->
  baud_code (PyInt k)
  = Ok (if decide (k = 1000) then [xfe; x01]
        else if decide (k = 800) then [xfd; x02]
        else if decide (k = 500) then [xfc; x03]
        else if decide (k = 250) then [xfb; x04]
        else if decide (k = 125) then [xfa; x05]
        else [xf6; x09]).
Proof.
  intros H. repeat (apply elem_of_cons in H as [->|H]; [reflexivity|]).
  inversion H.
Qed.

Lemma baud_code_unknown k :
  k ∉ [1000; 800; 500; 250; 125; 100] -> baud_code (PyInt k) = Err KeyError.
Proof.
  intros H. unfold baud_code.
  rewrite (not_elem_of_list_to_map_1 (M := gmap Z)); [reflexivity|exact H].
Qed.

Lemma set_parameter_baudrate self value :
  set_parameter self "BaudrateBootloader1" value
  = try_except
      (code <- lift (baud_code value) ;; _write_eeprom self 91 code)
      (fun e => if decide (e = KeyError)
                then Some (raise (RuntimeError "unsupported CAN baudrate"))
                else None).
Proof. reflexivity. Qed.

(** C6: for a rate of the table the two-byte code is looked up, but it is
    not written: after the select command the write stops with
    [struct.error] at building the unlock command, and no EEPROM frame is
    sent.  For any other rate [set_parameter] raises [RuntimeError] and
    the bus is untouched. *)
Theorem set_baudrate_writes_nothing self k b message rsp rest sel :
  MSG_select (_module_id self) = Ok message ->
  rx b = Some rsp :: rest ->
  MSG_selected rsp = Ok sel ->
  module_id sel = _module_id self ->
  (k ∈ [1000; 800; 500; 250; 125; 100] ->
   set_parameter self "BaudrateBootloader1" (PyInt k) b
   = (Err StructError, exchanged b message rest)) /\
  (k ∉ [1000; 800; 500; 250; 125; 100] ->
   set_parameter self "BaudrateBootloader1" (PyInt k) b
   = (Err (RuntimeError "unsupported CAN baudrate"), b)).
Proof.
  intros Hm Hrx Hsel Hid. rewrite set_parameter_baudrate. split; intros Hk.
  - unfold try_except, bind, lift. rewrite (baud_code_known k Hk).
    erewrite write_eeprom_stops by eauto. reflexivity.
  - unfold try_except, bind, lift. rewrite (baud_code_unknown k Hk).
    reflexivity.
Qed.

Lemma set_baudrate_writes_nothing_witness :
  set_parameter {| _module_id := 5; _verbose := false |}
    "BaudrateBootloader1" (PyInt 500)
    {| tx := [];
       rx := [Some (Message RSP_ID [x21; x10; x00; x00; x00; x05; x00; x00]);
              Some (Message RSP_ID [x21; x11; x01; x00; x00]);
              Some (Message RSP_ID [x20; xe8; x00; x00; x00]);
              Some (Message RSP_ID [x20; xf0; x02; x00; x00])];
       clock := 0 |}
  = (Err StructError,
     {| tx := [Message CMD_ID [x20; x10; x00; x00; x00; x05]];
        rx := [Some (Message RSP_ID [x21; x11; x01; x00; x00]);
               Some (Message RSP_ID [x20; xe8; x00; x00; x00]);
               Some (Message RSP_ID [x20; xf0; x02; x00; x00])];
        clock := 0 |}).
Proof.
  apply (proj1 (set_baudrate_writes_nothing
                  {| _module_id := 5; _verbose := false |} 500
                  {| tx := [];
                     rx := [Some (Message RSP_ID [x21; x10; x00; x00; x00; x05; x00; x00]);
                            Some (Message RSP_ID [x21; x11; x01; x00; x00]);
                            Some (Message RSP_ID [x20; xe8; x00; x00; x00]);
                            Some (Message RSP_ID [x20; xf0; x02; x00; x00])];
                     clock := 0 |}
                  (Message CMD_ID [x20; x10; x00; x00; x00; x05])
                  (Message RSP_ID [x21; x10; x00; x00; x00; x05; x00; x00])
                  _ {| module_id := 5; sw_version := 0 |}
                  eq_refl eq_refl eq_refl eq_refl)).
  repeat constructor.
Defined.

(** *** String parameters *)

Lemma pad_nul_eq value fmtlen :
  pad_nul value fmtlen = value ++ repeat 0 (fmtlen - length value).
Proof.
  remember (fmtlen - length value)%nat as k eqn:Hk.
  revert value Hk. induction k as [|k IH]; intros value Hk;
    rewrite pad_nul_equation_1;
    destruct (decide (length value < fmtlen)%nat) as [Hlt|Hge]; try lia.
  - simpl. now rewrite app_nil_r.
  - rewrite pad_nul_clause_1_equation_1.
    rewrite IH by (rewrite length_app; simpl; lia).
    rewrite <- app_assoc. reflexivity.
Qed.

Lemma utf8_len_ge s : (length s <= utf8_len s)%nat.
Proof.
  induction s as [|c s IH]; simpl; [lia|]. unfold utf8_width.
  repeat match goal with |- context [if ?x then _ else _] => destruct x end; lia.
Qed.

Lemma utf8_len_ascii s :
  forallb is_ascii s = true -> utf8_len s = length s.
Proof.
  induction s as [|c s IH]; simpl; [reflexivity|].
  intros H. apply andb_prop in H as [Hc Hs]. rewrite (IH Hs).
  unfold is_ascii in Hc. apply andb_prop in Hc as [_ Hc].
  apply Z.ltb_lt in Hc. unfold utf8_width.
  destruct (c <? 0x80) eqn:E; [reflexivity|]. apply Z.ltb_ge in E. lia.
Qed.

Lemma encode_ascii_padded s k :
  encode_ascii (s ++ repeat 0 k)
  = if forallb is_ascii s
    then Ok (map byte_of_Z s ++ repeat x00 k) else Err UnicodeEncodeError.
Proof.
  unfold encode_ascii.
  rewrite forallb_app.
  replace (forallb is_ascii (repeat 0 k)) with true.
  - rewrite andb_true_r, map_app.
    replace (map byte_of_Z (repeat 0 k)) with (repeat x00 k); [reflexivity|].
    induction k; simpl; [reflexivity | now f_equal].
  - induction k; simpl; [reflexivity | assumption].
Qed.

Lemma set_parameter_string self name offset width v :
  (name, offset, width) ∈ writable_strings ->
  set_parameter self name (PyStr v)
  = if decide (width < length v)%nat
    then raise (RuntimeError "value too long")
    else
      payload <- lift (encode_ascii (pad_nul v width)) ;;
      _write_eeprom self offset payload.
Proof.
  intros H. unfold writable_strings in H.
  apply elem_of_cons in H as [H|H]; [inversion H; subst; reflexivity|].
  apply elem_of_cons in H as [H|H]; [inversion H; subst; reflexivity|].
  inversion H.
Qed.

(** C8, as amended: for SoftwareVersion (width 20) and ModuleName (width
    30), [set_parameter] raises before anything is sent when the value has
    more characters than the field is wide or holds a character that is
    not ASCII, which covers every value whose UTF-8 length exceeds the
    width; for an ASCII value that fits, what is handed to the EEPROM
    write, at the field's offset, is the value's bytes followed by NUL
    bytes up to exactly the field width. *)
Theorem set_string_parameter self name offset width v b :
  (name, offset, width) ∈ writable_strings ->
  ((width < length v)%nat ->
   set_parameter self name (PyStr v) b
   = (Err (RuntimeError "value too long"), b)) /\
  ((length v <= width)%nat -> forallb is_ascii v = false ->
   set_parameter self name (PyStr v) b = (Err UnicodeEncodeError, b)) /\
  ((width < utf8_len v)%nat ->
   exists e, set_parameter self name (PyStr v) b = (Err e, b)) /\
  ((length v <= width)%nat -> forallb is_ascii v = true ->
   set_parameter self name (PyStr v) b
   = _write_eeprom self offset
       (map byte_of_Z v ++ repeat x00 (width - length v)) b /\
   length (map byte_of_Z v ++ repeat x00 (width - length v)) = width).
Proof.
  intros Hn. rewrite (set_parameter_string self name offset width v Hn).
  assert (Hlong : (width < length v)%nat ->
            (if decide (width < length v)%nat
             then raise (RuntimeError "value too long")
             else payload <- lift (encode_ascii (pad_nul v width)) ;;
                  _write_eeprom self offset payload) b
            = (Err (RuntimeError "value too long"), b)).
  { intros H. destruct (decide (width < length v)%nat); [reflexivity|lia]. }
  assert (Hbad : (length v <= width)%nat -> forallb is_ascii v = false ->
            (if decide (width < length v)%nat
             then raise (RuntimeError "value too long")
             else payload <- lift (encode_ascii (pad_nul v width)) ;;
                  _write_eeprom self offset payload) b
            = (Err UnicodeEncodeError, b)).
  { intros H Ha. destruct (decide (width < length v)%nat); [lia|].
    unfold bind, lift. rewrite pad_nul_eq, encode_ascii_padded, Ha. reflexivity. }
  split; [exact Hlong|]. split; [exact Hbad|]. split.
  - intros Hu. destruct (decide (width < length v)%nat) as [Hl|Hl].
    + eexists. apply Hlong. exact Hl.
    + destruct (forallb is_ascii v) eqn:Ha.
      * apply utf8_len_ascii in Ha. lia.
      * eexists. apply Hbad; [lia|reflexivity].
  - intros Hl Ha. split.
    + destruct (decide (width < length v)%nat); [lia|].
      unfold bind, lift. rewrite pad_nul_eq, encode_ascii_padded, Ha. reflexivity.
    + rewrite length_app, length_map, repeat_length. lia.
Qed.

Lemma set_string_parameter_witness :
  set_parameter {| _module_id := 5; _verbose := false |} "ModuleName"
    (PyStr [88]) {| tx := []; rx := []; clock := 0 |}
  = _write_eeprom {| _module_id := 5; _verbose := false |} 127
      (x58 :: repeat x00 29) {| tx := []; rx := []; clock := 0 |}.
Proof.
  destruct (set_string_parameter {| _module_id := 5; _verbose := false |}
              "ModuleName" 127 30 [88] {| tx := []; rx := []; clock := 0 |})
    as (_ & _ & _ & Hfit).
  - repeat constructor.
  - exact (proj1 (Hfit ltac:(simpl; lia) eq_refl)).
Defined.

(** C8, the claim as stated fails: the one-character value U+00E9 has a
    UTF-8 length of 2, well within the 20 bytes of SoftwareVersion, and
    [set_parameter] raises [UnicodeEncodeError] instead of writing its two
    bytes and 18 NULs. *)
Lemma set_parameter_non_ascii_raises :
  utf8_len [0xe9] = 2%nat /\
  set_parameter {| _module_id := 5; _verbose := false |} "SoftwareVersion"
    (PyStr [0xe9])
    {| tx := [];
       rx := [Some (Message RSP_ID [x21; x10; x00; x00; x00; x05; x00; x00])];
       clock := 0 |}
  = (Err UnicodeEncodeError,
     {| tx := [];
        rx := [Some (Message RSP_ID [x21; x10; x00; x00; x00; x05; x00; x00])];
        clock := 0 |}).
Proof. split; vm_compute; reflexivity. Qed.

(** ** Reading parameters *)

(** These are the entries of [PARAMETER_MAP] whose format ends in [s]. *)
Lemma string_parameters_complete :
  map (fun p => p.1.1)  string_parameters
  = map snd (filter (fun e => ends_in_s e.1 = true) PARAMETER_MAP).
Proof. vm_compute. reflexivity. Qed.

Lemma string_parameter_lookup name offset width :
  (name, offset, width) ∈ string_parameters ->
  _parameter name = Ok (offset, [fs width]) /\
  0 <= offset /\ offset + Z.of_nat width <= 65536.
Proof.
  intros H. unfold string_parameters in H.
  repeat (apply elem_of_cons in H as [H|H];
          [inversion H; subst; split; [reflexivity | lia]|]).
  inversion H.
Qed.

Lemma read_eeprom_run self A N b select_message sel_rsp sel replies rest :
  0 <= A -> A + N <= 65536 ->
  MSG_select (_module_id self) = Ok select_message ->
  MSG_selected sel_rsp = Ok sel -> module_id sel = _module_id self ->
  rx b = Some sel_rsp :: map Some replies ++ rest ->
  length replies = Z.to_nat ((N + 7) / 8) ->
  Forall (fun r => arbitration_id r = DATA_ID) replies ->
  exists cmds,
    Forall2 (fun ac f => MSG_read_eeprom ac.1 ac.2 = Ok f)
            (read_commands A N) cmds /\
    _read_eeprom self A N b
    = (Ok (concat (map data replies)),
       {| tx := tx b ++ select_message :: cmds; rx := rest; clock := clock b |}).
Proof.
  intros HA HAN Hm Hsel Hid Hrx Hlen Hdata.
  destruct (read_eeprom_loop_run replies A N []
              (exchanged b select_message (map Some replies ++ rest)) rest)
    as [cmds [Hcmds Hrun]]; try assumption; try reflexivity.
  exists cmds. split; [exact Hcmds|].
  unfold _read_eeprom, bind.
  erewrite select_run by eauto.
  destruct (decide (module_id sel <> _module_id self)); [contradiction|].
  rewrite Hrun. simpl. rewrite <- app_assoc. reflexivity.
Qed.

(** C7, as amended: for every string-encoded parameter, [parameter]
    returns the bytes read from the parameter's EEPROM range decoded as
    ASCII, one character per byte: NUL bytes, trailing ones too, stay in
    the string. *)
Theorem parameter_string_keeps_all_bytes self name offset width b
    select_message sel_rsp sel replies rest :
  (name, offset, width) ∈ string_parameters ->
  MSG_select (_module_id self) = Ok select_message ->
  MSG_selected sel_rsp = Ok sel -> module_id sel = _module_id self ->
  rx b = Some sel_rsp :: map Some replies ++ rest ->
  length replies = Z.to_nat ((Z.of_nat width + 7) / 8) ->
  Forall (fun r => arbitration_id r = DATA_ID) replies ->
  length (concat (map data replies)) = width ->
  forallb (fun x => Z_of_byte x <? 128) (concat (map data replies)) = true ->
  exists cmds,
    Forall2 (fun ac f => MSG_read_eeprom ac.1 ac.2 = Ok f)
            (read_commands offset (Z.of_nat width)) cmds /\
    parameter self name b
    = (Ok (PStr (map Z_of_byte (concat (map data replies)))),
       {| tx := tx b ++ select_message :: cmds; rx := rest; clock := clock b |}) /\
    length (map Z_of_byte (concat (map data replies))) = width.
Proof.
  intros Hn Hm Hsel Hid Hrx Hlen Hdata Hw Hascii.
  destruct (string_parameter_lookup _ _ _ Hn) as (Hp & Ho & Hend).
  destruct (read_eeprom_run self offset (Z.of_nat width) b select_message
              sel_rsp sel replies rest) as [cmds [Hcmds Hrun]]; try assumption.
  exists cmds. split; [exact Hcmds|]. split; [|now rewrite length_map].
  unfold parameter. unfold bind at 1. unfold lift at 1. rewrite Hp.
  replace (calcsize [fs width]) with width by (simpl; lia).
  unfold bind at 1. rewrite Hrun.
  unfold bind at 1. unfold lift at 1. unfold unpack.
  replace (calcsize [fs width]) with width by (simpl; lia).
  destruct (decide (length (concat (map data replies)) = width)); [|contradiction].
  change (ends_in_s [fs width]) with true. cbv iota.
  change (unpack_fields [fs width] (concat (map data replies)))
    with [VBytes (firstn width (concat (map data replies)))].
  rewrite firstn_all2 by lia.
  unfold bind, lift, decode_ascii. rewrite Hascii. reflexivity.
Qed.

Lemma parameter_string_keeps_all_bytes_witness :
  exists cmds,
    parameter {| _module_id := 5; _verbose := false |} "OrderNumber"
      {| tx := [];
         rx := [Some (Message RSP_ID [x21; x10; x00; x00; x00; x05; x00; x00]);
                Some (Message DATA_ID [x41; x42; x00; x00; x00; x00; x00; x00])];
         clock := 0 |}
    = (Ok (PStr [65; 66; 0; 0; 0; 0; 0; 0]),
       {| tx := Message CMD_ID [x20; x10; x00; x00; x00; x05] :: cmds;
          rx := []; clock := 0 |}).
Proof.
  destruct (parameter_string_keeps_all_bytes
              {| _module_id := 5; _verbose := false |} "OrderNumber" 52 8
              {| tx := [];
                 rx := [Some (Message RSP_ID [x21; x10; x00; x00; x00; x05; x00; x00]);
                        Some (Message DATA_ID [x41; x42; x00; x00; x00; x00; x00; x00])];
                 clock := 0 |}
              (Message CMD_ID [x20; x10; x00; x00; x00; x05])
              (Message RSP_ID [x21; x10; x00; x00; x00; x05; x00; x00])
              {| module_id := 5; sw_version := 0 |}
              [Message DATA_ID [x41; x42; x00; x00; x00; x00; x00; x00]] [])
    as [cmds [_ [Hrun _]]];
    [repeat constructor | reflexivity | reflexivity | reflexivity | reflexivity
    | reflexivity | repeat constructor | reflexivity | reflexivity |].
  exists cmds. exact Hrun.
Defined.

(** C7, the claim as stated fails: with ["X"] and 29 NUL bytes in the
    EEPROM range of ModuleName, [parameter] returns all 30 characters,
    not the one-character string ["X"]. *)
Lemma parameter_keeps_trailing_nul :
  parameter {| _module_id := 5; _verbose := false |} "ModuleName"
    {| tx := [];
       rx := [Some (Message RSP_ID [x21; x10; x00; x00; x00; x05; x00; x00]);
              Some (Message DATA_ID [x58; x00; x00; x00; x00; x00; x00; x00]);
              Some (Message DATA_ID [x00; x00; x00; x00; x00; x00; x00; x00]);
              Some (Message DATA_ID [x00; x00; x00; x00; x00; x00; x00; x00]);
              Some (Message DATA_ID [x00; x00; x00; x00; x00; x00])];
       clock := 0 |}
  = (Ok (PStr (88 :: repeat 0 29)),
     {| tx := [Message CMD_ID [x20; x10; x00; x00; x00; x05];
               Message CMD_ID [x20; x03; x00; x7f; x08];
               Message CMD_ID [x20; x03; x00; x87; x08];
               Message CMD_ID [x20; x03; x00; x8f; x08];
               Message CMD_ID [x20; x03; x00; x97; x06]];
        rx := []; clock := 0 |})
  /\ PStr (88 :: repeat 0 29) <> PStr [88].
Proof. split; [vm_compute; reflexivity | discriminate]. Qed.

(** ** Upload: erase before programming *)

Lemma erase_loop_eq b :
  erase_loop b
  = match recv 2000 b with
    | (Ok (Some rsp), b') =>
        match receive erase_done rsp with
        | Ok _ => (Ok tt, b')
        | Err e =>
            if is_MessageError e then
              match MSG_progress rsp with
              | Ok _ => erase_loop b'
              | Err e' =>
                  if is_MessageError e'
                  then (Err (ModuleError "got unexpected message instead of erase progress / completion"), b')
                  else (Err e', b')
              end
            else (Err e, b')
        end
    | (Ok None, b') =>
        (Err (ModuleError "timed out waiting for module progress message"), b')
    | (Err e, b') => (Err e, b')
    end.
Proof.
  rewrite erase_loop_equation_1.
  destruct (inspect (recv 2000 b)) as [y Hy].
  etransitivity; [|rewrite Hy; reflexivity].
  destruct y as [[[rsp|]|e] b']; reflexivity.
Qed.

Lemma wait_for_boot_loop_eq self timeout b :
  wait_for_boot_loop self timeout b
  = match recv timeout b with
    | (Ok (Some rsp), b') =>
        match MSG_ack rsp with
        | Ok boot_message =>
            if decide (ack_module_id boot_message <> _module_id self)
            then wait_for_boot_loop self timeout b'
            else if decide (ack_reason boot_message <> "reboot"%string)
            then wait_for_boot_loop self timeout b'
            else (Ok tt, b')
        | Err e =>
            if is_MessageError e then wait_for_boot_loop self timeout b'
            else (Err e, b')
        end
    | (Ok None, b') =>
        (Err (ModuleError "timed out waiting for module reboot message"), b')
    | (Err e, b') => (Err e, b')
    end.
Proof.
  rewrite wait_for_boot_loop_equation_1.
  destruct (inspect (recv timeout b)) as [y Hy].
  etransitivity; [|rewrite Hy; reflexivity].
  destruct y as [[[rsp|]|e] b']; reflexivity.
Qed.

Lemma appends_quiet {A} (P : frame -> Prop) (m : M A) :
  (forall b r b', m b = (r, b') -> tx b' = tx b) -> appends P m.
Proof.
  intros H b r b' Hm. exists []. rewrite app_nil_r. eauto.
Qed.

Lemma appends_ret {A} P (a : A) : appends P (ret a).
Proof. apply appends_quiet. intros b r b' H; inversion H; reflexivity. Qed.

Lemma appends_raise {A} P e : appends P (@raise A e).
Proof. apply appends_quiet. intros b r b' H; inversion H; reflexivity. Qed.

Lemma appends_lift {A} P (x : outcome A) : appends P (lift x).
Proof. apply appends_quiet. intros b r b' H; inversion H; reflexivity. Qed.

Lemma appends_bind {A B} P (m : M A) (k : A -> M B) :
  appends P m -> (forall a, appends P (k a)) -> appends P (bind m k).
Proof.
  intros Hm Hk b r b' H. unfold bind in H.
  destruct (m b) as [[a|e] b1] eqn:E.
  - destruct (Hm _ _ _ E) as [n1 [H1 F1]].
    destruct (Hk a _ _ _ H) as [n2 [H2 F2]].
    exists (n1 ++ n2). rewrite H2, H1, app_assoc. split; [reflexivity|].
    apply Forall_app; auto.
  - inversion H; subst. eauto.
Qed.

Lemma appends_try_except {A} P (m : M A) h :
  appends P m -> (forall e handler, h e = Some handler -> appends P handler) ->
  appends P (try_except m h).
Proof.
  intros Hm Hh b r b' H. unfold try_except in H.
  destruct (m b) as [[a|e] b1] eqn:E.
  - inversion H; subst. eauto.
  - destruct (Hm _ _ _ E) as [n1 [H1 F1]].
    destruct (h e) as [handler|] eqn:Eh.
    + destruct (Hh _ _ Eh _ _ _ H) as [n2 [H2 F2]].
      exists (n1 ++ n2). rewrite H2, H1, app_assoc. split; [reflexivity|].
      apply Forall_app; auto.
    + inversion H; subst. eauto.
Qed.

Lemma appends_send (P : frame -> Prop) message : P message -> appends P (send message).
Proof.
  intros HP b r b' H. inversion H; subst. simpl. exists [message]. auto.
Qed.

Lemma recv_tx timeout b r b' : recv timeout b = (r, b') -> tx b' = tx b.
Proof.
  unfold recv. destruct (recv_filtered (rx b)). intros H; inversion H; reflexivity.
Qed.

Lemma appends_recv P timeout : appends P (recv timeout).
Proof. apply appends_quiet. apply recv_tx. Qed.

Lemma appends_cmd (P : frame -> Prop) message c :
  P message -> appends P (_cmd message c).
Proof.
  intros HP. unfold _cmd.
  apply appends_bind; [now apply appends_send|intros _].
  apply appends_bind; [apply appends_recv|intros [rsp|]]; [|apply appends_raise].
  destruct c as [c|]; [|apply appends_ret].
  destruct (receive c rsp); [apply appends_ret|].
  destruct (is_MessageError e); apply appends_raise.
Qed.

Lemma appends_expect P c rsp msg : appends P (expect c rsp msg).
Proof.
  unfold expect. destruct (receive c rsp); [apply appends_ret|].
  destruct (is_MessageError e); apply appends_raise.
Qed.

Lemma TXMessage_id fmt id args f :
  TXMessage fmt id args = Ok f -> arbitration_id f = id.
Proof.
  unfold TXMessage. destruct (pack fmt args); simpl; [|discriminate].
  intros H; inversion H; reflexivity.
Qed.

(** Building a command and sending it with [_cmd]. *)
Lemma appends_command fmt args c :
  appends is_command (message <- lift (TXMessage fmt CMD_ID args) ;; _cmd message c).
Proof.
  intros b r b' H. unfold bind at 1, lift in H.
  destruct (TXMessage fmt CMD_ID args) as [f|e] eqn:E.
  - apply (appends_cmd is_command f c (TXMessage_id _ _ _ _ E) _ _ _ H).
  - inversion H; subst. exists []. rewrite app_nil_r. auto.
Qed.

Lemma appends_select self : appends is_command (_select self).
Proof.
  unfold _select. intros b r b' H.
  rewrite <- bind_assoc in H. revert b r b' H.
  apply appends_bind; [apply appends_command|intros rsp].
  apply appends_bind; [apply appends_lift|intros sel].
  destruct (decide _); [apply appends_raise|apply appends_ret].
Qed.

Lemma wait_for_boot_loop_tx self timeout b r b' :
  wait_for_boot_loop self timeout b = (r, b') -> tx b' = tx b.
Proof.
  remember (length (rx b)) as n eqn:Hn. revert b Hn r b'.
  induction n as [n IH] using lt_wf_ind. intros b Hn r b'.
  rewrite wait_for_boot_loop_eq.
  destruct (recv timeout b) as [[[rsp|]|e] b1] eqn:E;
    try (intros H; inversion H; subst; eapply recv_tx; eauto; fail).
  assert (Hrec : forall r b', wait_for_boot_loop self timeout b1 = (r, b') ->
                   tx b' = tx b).
  { intros r0 b0 H0. rewrite <- (recv_tx _ _ _ _ E).
    eapply (IH (length (rx b1))); eauto.
    subst n. eapply recv_shrinks; eauto. }
  assert (Hstop : forall x : outcome unit, (x, b1) = (r, b') -> tx b' = tx b).
  { intros x H; inversion H; subst. eapply recv_tx; eauto. }
  destruct (MSG_ack rsp) as [boot|e].
  - repeat case_decide; eauto.
  - destruct (is_MessageError e); eauto.
Qed.

Lemma appends_enter_flash_mode self : appends is_command (_enter_flash_mode self).
Proof.
  unfold _enter_flash_mode.
  apply appends_bind; [apply appends_select|intros _].
  intros b r b' H. rewrite <- bind_assoc in H. revert b r b' H.
  apply appends_bind; [apply appends_command|intros rsp].
  apply appends_bind.
  - apply appends_try_except.
    + apply appends_bind; [apply appends_lift|intros _].
      apply appends_bind;
        [apply appends_quiet; apply wait_for_boot_loop_tx|intros _].
      apply appends_bind; [apply appends_select|intros _].
      apply appends_command.
    + intros e handler He. destruct (is_MessageError e); inversion He.
      apply appends_ret.
  - intros rsp'. apply appends_bind; [apply appends_lift|intros _].
    apply appends_ret.
Qed.

(** [erase_loop] sends nothing, and returns only on an [erase_done]
    message that the bus delivered. *)
Lemma erase_loop_done b r b' :
  erase_loop b = (r, b') ->
  tx b' = tx b /\
  (r = Ok tt -> exists rsp, accepts erase_done rsp /\ Some rsp ∈ rx b).
Proof.
  remember (length (rx b)) as n eqn:Hn. revert b Hn r b'.
  induction n as [n IH] using lt_wf_ind. intros b Hn r b'.
  rewrite erase_loop_eq.
  destruct (recv 2000 b) as [[[rsp|]|e] b1] eqn:E;
    try (intros H; inversion H; subst; split;
         [eapply recv_tx; eauto | discriminate]; fail).
  assert (Htx : tx b1 = tx b) by (eapply recv_tx; eauto).
  assert (Hin : Some rsp ∈ rx b /\ forall x, x ∈ rx b1 -> x ∈ rx b).
  { clear -E. unfold recv in E.
    destruct (recv_filtered (rx b)) as [m rest] eqn:F.
    inversion E; subst; clear E. simpl.
    revert F. generalize (rx b) as script.
    induction script as [|[f|] script IHs]; simpl; intros F; try discriminate.
    destruct (decide (arbitration_id f ∈ RECEIVE_FILTER)).
    - inversion F; subst. split; [left|]. intros x Hx. now right.
    - destruct (IHs F) as [H1 H2]. split; [now right|].
      intros x Hx. right. auto. }
  destruct Hin as [Hrsp Hsub].
  destruct (receive erase_done rsp) as [vs|e] eqn:Ed.
  - intros H; inversion H; subst. split; [exact Htx|].
    intros _. exists rsp. split; [now exists vs|exact Hrsp].
  - destruct (is_MessageError e);
      [|intros H; inversion H; subst; split; [exact Htx|discriminate]].
    destruct (MSG_progress rsp) as [p|e'].
    + intros H. destruct (IH (length (rx b1))
                            ltac:(subst n; eapply recv_shrinks; eauto)
                            b1 eq_refl r b' H) as [H1 H2].
      split; [congruence|]. intros Hr. destruct (H2 Hr) as [d [Hd Hrx]].
      exists d. auto.
    + destruct (is_MessageError e');
        intros H; inversion H; subst; split; try exact Htx; discriminate.
Qed.

Lemma erase_run b r b' :
  _erase b = (r, b') ->
  tx b' = tx b ++ [Message CMD_ID [x02; x02]] /\
  (r = Ok tt -> exists rsp, accepts erase_done rsp /\ Some rsp ∈ rx b).
Proof.
  unfold _erase, bind, lift, send. simpl. intros H.
  apply erase_loop_done in H as [H1 H2]. simpl in *. auto.
Qed.

Lemma appends_middle_loop srec : appends any_frame (program_middle_loop srec).
Proof.
  remember (length srec) as n eqn:Hn. revert srec Hn.
  induction n as [n IH] using lt_wf_ind. intros srec Hn.
  rewrite program_middle_loop_eq.
  destruct (decide (8 < length srec)%nat); [|apply appends_ret].
  apply appends_bind; [apply appends_cmd; exact I|intros rsp].
  apply appends_bind; [apply appends_expect|intros _].
  apply (IH (length (skipn 8 srec))); [|reflexivity].
  rewrite length_skipn. lia.
Qed.

Lemma appends_program_record self srec :
  appends any_frame (program_record self srec).
Proof.
  unfold program_record.
  apply appends_bind.
  { unfold trace_record. destruct (_verbose self); [|apply appends_ret].
    destruct (utf8_valid _); [apply appends_ret|apply appends_raise]. }
  intros _. apply appends_bind.
  { destruct (decide _); [|apply appends_ret].
    apply appends_bind; [apply appends_cmd; exact I|intros rsp].
    apply appends_bind; [apply appends_expect|intros _]. apply appends_ret. }
  intros s. apply appends_bind; [apply appends_middle_loop|intros s'].
  apply appends_bind; [apply appends_cmd; exact I|intros rsp].
  apply appends_expect.
Qed.

Lemma appends_program self records : appends any_frame (_program self records).
Proof.
  unfold _program. cbv zeta.
  apply appends_bind; [apply appends_lift|intros terminal].
  apply appends_bind.
  { induction (removelast records) as [|srec l IH]; simpl; [apply appends_ret|].
    apply appends_bind; [apply appends_program_record|intros _; exact IH]. }
  intros _. apply appends_bind; [apply appends_cmd; exact I|intros rsp].
  apply appends_expect.
Qed.

Lemma prefix_of_commands (cmds later pre post : list frame) f :
  pre ++ f :: post = cmds ++ later ->
  Forall is_command cmds -> arbitration_id f = SREC_ID ->
  exists rest, pre = cmds ++ rest.
Proof.
  revert pre. induction cmds as [|c cmds IH]; intros pre Heq Hc Hf; [eauto|].
  inversion Hc as [|? ? Hc1 Hc2]; subst.
  destruct pre as [|p pre]; simpl in Heq; inversion Heq; subst.
  - unfold is_command in Hc1. rewrite Hf in Hc1. discriminate.
  - destruct (IH pre) as [rest ->]; auto. eauto.
Qed.

(** C9: [upload] is flash-mode entry, then the erase, then programming:
    when it returns normally all three ran in this order, each from the
    bus state the one before left.  And whatever the outcome, a frame with
    the S-record id among the frames it sent means that flash-mode entry
    had returned and the erase had completed on an [erase_done] message:
    every frame [upload] sent up to the end of the erase is a command,
    the erase command among them, and they all come before the S-record
    frame. *)
Theorem upload_erases_before_programming self records b r b' :
  upload self records b = (r, b') ->
  (r = Ok tt ->
   exists b1 b2,
     _enter_flash_mode self b = (Ok tt, b1) /\
     _erase b1 = (Ok tt, b2) /\
     _program self records b2 = (Ok tt, b')) /\
  (forall pre f post,
     tx b' = tx b ++ pre ++ f :: post ->
     arbitration_id f = SREC_ID ->
     exists b1 b2 cmds later done,
       _enter_flash_mode self b = (Ok tt, b1) /\
       _erase b1 = (Ok tt, b2) /\
       _program self records b2 = (r, b') /\
       accepts erase_done done /\ Some done ∈ rx b1 /\
       tx b2 = tx b ++ cmds /\
       Forall (fun c => arbitration_id c = CMD_ID) cmds /\
       Message CMD_ID [x02; x02] ∈ cmds /\
       pre = cmds ++ later).
Proof.
  unfold upload. intros H. unfold bind at 1 in H.
  destruct (_enter_flash_mode self b) as [[[]|e] b1] eqn:He.
  - unfold bind at 1 in H.
    destruct (appends_enter_flash_mode self _ _ _ He) as [n1 [Ht1 Hc1]].
    destruct (_erase b1) as [[[]|e] b2] eqn:Hr.
    + destruct (erase_run _ _ _ Hr) as [Ht2 Hdone].
      destruct (Hdone eq_refl) as [done [Hacc Hin]].
      split; [intros ->; eauto|].
      intros pre f post Htx Hf.
      destruct (appends_program self records _ _ _ H) as [n3 [Ht3 _]].
      assert (Hcmds : Forall is_command (n1 ++ [Message CMD_ID [x02; x02]])).
      { apply Forall_app. split; [exact Hc1|]. repeat constructor. }
      rewrite Ht3, Ht2, Ht1, <- !app_assoc in Htx.
      apply app_inv_head in Htx. rewrite app_assoc in Htx. symmetry in Htx.
      destruct (prefix_of_commands _ _ _ _ _ Htx Hcmds Hf) as [later ->].
      exists b1, b2, (n1 ++ [Message CMD_ID [x02; x02]]), later, done.
      repeat split; try assumption; try reflexivity.
      * rewrite Ht2, Ht1, <- app_assoc. reflexivity.
      * apply elem_of_app. right. left.
    + inversion H; subst. split; [discriminate|].
      intros pre f post Htx Hf. exfalso.
      destruct (erase_run _ _ _ Hr) as [Ht2 _].
      rewrite Ht2, Ht1, <- !app_assoc in Htx. apply app_inv_head in Htx.
      assert (Hall : Forall is_command (n1 ++ [Message CMD_ID [x02; x02]])).
      { apply Forall_app. split; [exact Hc1|]. repeat constructor. }
      rewrite Htx in Hall. apply Forall_app in Hall as [_ Hall].
      inversion Hall as [|? ? Hc _]; subst.
      unfold is_command in Hc. rewrite Hf in Hc. discriminate.
  - inversion H; subst. split; [discriminate|].
    intros pre f post Htx Hf. exfalso.
    destruct (appends_enter_flash_mode self _ _ _ He) as [n1 [Ht1 Hc1]].
    rewrite Ht1 in Htx. apply app_inv_head in Htx.
    rewrite Htx in Hc1. apply Forall_app in Hc1 as [_ Hall].
    inversion Hall as [|? ? Hc _]; subst.
    unfold is_command in Hc. rewrite Hf in Hc. discriminate.
Qed.


Lemma upload_erases_before_programming_witness :
  exists b1 b2,
    _enter_flash_mode {| _module_id := 5; _verbose := true |}
      {| tx := [];
         rx := [Some (Message RSP_ID [x21; x10; x00; x00; x00; x05; x00; x00]);
                Some (Message RSP_ID [x21; x00; x00; x00; x00; x05; x00; x00]);
                Some (Message RSP_ID [x00; x00; x02; x00]);
                Some (Message RSP_ID [x00; x00; x00; x01]);
                Some (Message RSP_ID [x00; x01; x01; x01; x01]);
                Some (Message RSP_ID [x00; x00; x01]);
                Some (Message RSP_ID [x00; x12; x34])];
         clock := 0 |} = (Ok tt, b1) /\
    _erase b1 = (Ok tt, b2) /\
    _program {| _module_id := 5; _verbose := true |}
      [[x53; x31; x01; x02; x03; x04; x05; x06; x07; x08]; [x53; x39]] b2
    = (Ok tt,
       {| tx := [Message CMD_ID [x20; x10; x00; x00; x00; x05];
                 Message CMD_ID [x20; x00];
                 Message CMD_ID [x02; x02];
                 Message SREC_ID [x53; x31; x01; x02; x03; x04; x05; x06];
                 Message SREC_ID [x07; x08];
                 Message SREC_ID [x53; x39]];
          rx := []; clock := 0 |}).
Proof.
  assert (Hrun :
    upload {| _module_id := 5; _verbose := true |}
      [[x53; x31; x01; x02; x03; x04; x05; x06; x07; x08]; [x53; x39]]
      {| tx := [];
         rx := [Some (Message RSP_ID [x21; x10; x00; x00; x00; x05; x00; x00]);
                Some (Message RSP_ID [x21; x00; x00; x00; x00; x05; x00; x00]);
                Some (Message RSP_ID [x00; x00; x02; x00]);
                Some (Message RSP_ID [x00; x00; x00; x01]);
                Some (Message RSP_ID [x00; x01; x01; x01; x01]);
                Some (Message RSP_ID [x00; x00; x01]);
                Some (Message RSP_ID [x00; x12; x34])];
         clock := 0 |}
    = (Ok tt,
       {| tx := [Message CMD_ID [x20; x10; x00; x00; x00; x05];
                 Message CMD_ID [x20; x00];
                 Message CMD_ID [x02; x02];
                 Message SREC_ID [x53; x31; x01; x02; x03; x04; x05; x06];
                 Message SREC_ID [x07; x08];
                 Message SREC_ID [x53; x39]];
          rx := []; clock := 0 |})) by (vm_compute; reflexivity).
  exact (proj1 (upload_erases_before_programming _ _ _ _ _ Hrun) eq_refl).
Defined.

(** ** Scan: the last acknowledgement of a module wins *)

Lemma scan_loop_eq modules b :
  scan_loop modules b
  = match recv 50 b with
    | (Ok (Some rsp), b1) =>
        match MSG_ack rsp with
        | Ok a =>
            scan_loop (<[ack_module_id a :=
                          {| status := ack_status a; reason := ack_reason a;
                             sw_ver := ack_sw_version a |}]> modules) b1
        | Err e =>
            if is_MessageError e then (Err (MessageError ScanTraffic), b1)
            else (Err e, b1)
        end
    | (Ok None, b1) =>
        match before_deadline b1 with
        | (Ok true, b2) =>
            match send_ping b2 with
            | (Ok _, b3) => scan_loop modules b3
            | (Err e, b3) => (Err e, b3)
            end
        | (Ok false, b2) => (Ok modules, b2)
        | (Err e, b2) => (Err e, b2)
        end
    | (Err e, b1) => (Err e, b1)
    end.
Proof.
  rewrite scan_loop_equation_1.
  destruct (inspect (recv 50 b)) as [y Hy].
  etransitivity; [|rewrite Hy; reflexivity].
  destruct y as [[[rsp|]|e] b1]; try reflexivity.
  simp scan_loop.
  destruct (inspect (before_deadline b1)) as [z Hz].
  etransitivity; [|rewrite Hz; reflexivity].
  destruct z as [[[|]|e] b2]; reflexivity.
Qed.

Lemma delivered_app s1 s2 : delivered (s1 ++ s2) = delivered s1 ++ delivered s2.
Proof. unfold delivered. now rewrite omap_app, filter_app. Qed.

Lemma recv_filtered_split script r rest :
  recv_filtered script = (r, rest) ->
  exists consumed,
    script = consumed ++ rest /\
    delivered consumed = match r with Some f => [f] | None => [] end.
Proof.
  revert r rest. induction script as [|[f|] script IH]; simpl; intros r rest H.
  - inversion H; subst. exists []. auto.
  - destruct (decide (arbitration_id f ∈ RECEIVE_FILTER)) as [Hin|Hout].
    + inversion H; subst. exists [Some f]. split; [reflexivity|].
      unfold delivered. simpl. rewrite filter_cons_True by exact Hin. reflexivity.
    + destruct (IH _ _ H) as [consumed [-> Hd]].
      exists (Some f :: consumed). split; [reflexivity|].
      unfold delivered in *. simpl. rewrite filter_cons_False by exact Hout.
      exact Hd.
  - inversion H; subst. exists [None]. auto.
Qed.

Lemma recv_split timeout b r b' :
  recv timeout b = (r, b') ->
  exists consumed msg,
    r = Ok msg /\ rx b = consumed ++ rx b' /\
    delivered consumed = match msg with Some f => [f] | None => [] end.
Proof.
  unfold recv. destruct (recv_filtered (rx b)) as [msg rest] eqn:E.
  intros H; inversion H; subst; simpl.
  destruct (recv_filtered_split _ _ _ E) as [consumed [H1 H2]]. eauto.
Qed.

Lemma scan_loop_table n :
  forall modules b table b',
    n = (length (rx b) + clock b)%nat ->
    scan_loop modules b = (Ok table, b') ->
    exists consumed acks,
      rx b = consumed ++ rx b' /\
      Forall2 (fun f a => MSG_ack f = Ok a) (delivered consumed) acks /\
      table = record_acks modules acks.
Proof.
  induction n as [n IH] using lt_wf_ind. intros modules b table b' Hn.
  rewrite scan_loop_eq.
  destruct (recv 50 b) as [[[rsp|]|e] b1] eqn:E; [| |discriminate].
  - destruct (recv_split _ _ _ _ E) as (c0 & msg & Hmsg & Hrx & Hd).
    inversion Hmsg; subst msg.
    destruct (MSG_ack rsp) as [a|e] eqn:Ea;
      [|destruct (is_MessageError e); discriminate].
    intros H.
    pose proof (recv_shrinks _ _ _ _ E) as Hs.
    destruct (recv_quiet _ _ _ _ E) as [_ Hc].
    destruct (IH (length (rx b1) + clock b1)%nat ltac:(lia) _ b1 table b'
                 eq_refl H) as (c1 & acks & Hrx1 & Hacks & Ht).
    exists (c0 ++ c1), (a :: acks).
    split; [rewrite Hrx, Hrx1, app_assoc; reflexivity|].
    split; [rewrite delivered_app, Hd; constructor; assumption|].
    exact Ht.
  - destruct (recv_split _ _ _ _ E) as (c0 & msg & Hmsg & Hrx & Hd).
    inversion Hmsg; subst msg.
    destruct (recv_quiet _ _ _ _ E) as [Hl Hc].
    destruct (before_deadline b1) as [[[|]|e] b2] eqn:Eb; [| |discriminate].
    + destruct (before_deadline_ticks _ _ Eb) as [Hr2 Ht2].
      destruct (send_ping b2) as [[[]|e] b3] eqn:Es; [|discriminate].
      destruct (send_ping_quiet _ _ _ Es) as [Hr3 Hc3].
      intros H.
      destruct (IH (length (rx b3) + clock b3)%nat
                   ltac:(rewrite Hr3, Hc3, Hr2; lia) _ b3 table b' eq_refl H)
        as (c1 & acks & Hrx1 & Hacks & Ht).
      exists (c0 ++ c1), acks.
      split; [rewrite Hrx, <- Hr2, <- Hr3, Hrx1, app_assoc; reflexivity|].
      split; [rewrite delivered_app, Hd; exact Hacks|exact Ht].
    + intros H. inversion H; subst.
      unfold before_deadline in Eb.
      destruct (clock b1); inversion Eb; subst.
      exists c0, []. split; [exact Hrx|].
      split; [rewrite Hd; constructor|reflexivity].
Qed.

Lemma record_acks_keeps modules later id :
  Forall (fun a' => ack_module_id a' <> id) later ->
  record_acks modules later !! id = modules !! id.
Proof.
  revert modules. induction later as [|a later IH]; intros modules H; [reflexivity|].
  inversion H; subst. simpl. rewrite IH by assumption.
  now apply lookup_insert_ne.
Qed.

Lemma single_entry (l : list (Z * scan_entry)) k v :
  NoDup l.*1 -> (k, v) ∈ l -> filter (fun kv => kv.1 = k) l = [(k, v)].
Proof.
  induction l as [|[k' v'] l IH]; intros Hnd Hin; [inversion Hin|].
  simpl in Hnd. apply NoDup_cons in Hnd as [Hk Hnd].
  assert (Hnone : forall k0, k0 ∉ l.*1 -> filter (fun kv : Z * scan_entry => kv.1 = k0) l = []).
  { clear. intros k0. induction l as [|[k1 v1] l IHl]; intros H; [reflexivity|].
    simpl in H. apply not_elem_of_cons in H as [H1 H2].
    rewrite filter_cons_False by (simpl; congruence). auto. }
  apply elem_of_cons in Hin as [Heq|Hin].
  - inversion Heq; subst. rewrite filter_cons_True by reflexivity.
    now rewrite Hnone.
  - assert (k' <> k).
    { intros ->. apply Hk. apply list_elem_of_fmap. exists (k, v). auto. }
    rewrite filter_cons_False by (simpl; assumption). auto.
Qed.

(** C10: the table [scan] returns is built from the acknowledgements in
    the order the bus delivered them, and for an id that several of them
    carry it holds one entry, whose status, reason and sw_ver are those of
    the last acknowledgement with that id. *)
Theorem scan_last_ack_wins b table b' :
  scan b = (Ok table, b') ->
  exists consumed acks,
    rx b = consumed ++ rx b' /\
    Forall2 (fun f a => MSG_ack f = Ok a) (delivered consumed) acks /\
    forall earlier a later,
      acks = earlier ++ a :: later ->
      Forall (fun a' => ack_module_id a' <> ack_module_id a) later ->
      table !! ack_module_id a = Some (entry_of a) /\
      filter (fun kv => kv.1 = ack_module_id a) (map_to_list table)
      = [(ack_module_id a, entry_of a)].
Proof.
  unfold scan. intros H. unfold bind at 1 in H.
  destruct (send_ping b) as [[[]|e] b0] eqn:Es; [|discriminate].
  destruct (send_ping_quiet _ _ _ Es) as [Hr0 _].
  destruct (scan_loop_table _ _ _ _ _ eq_refl H) as (consumed & acks & Hrx & Hacks & ->).
  exists consumed, acks.
  split; [rewrite <- Hr0; exact Hrx|]. split; [exact Hacks|].
  intros earlier a later -> Hlater.
  assert (Hlook : record_acks ∅ (earlier ++ a :: later) !! ack_module_id a
                  = Some (entry_of a)).
  { unfold record_acks. rewrite foldl_app. simpl.
    fold (record_acks (<[ack_module_id a:=entry_of a]>
                         (foldl (fun m a0 => <[ack_module_id a0:=entry_of a0]> m) ∅ earlier))
                      later).
    rewrite record_acks_keeps by exact Hlater.
    apply lookup_insert_eq. }
  split; [exact Hlook|].
  apply single_entry.
  - apply NoDup_fst_map_to_list.
  - now apply elem_of_map_to_list.
Qed.

Lemma scan_last_ack_wins_witness :
  exists consumed acks,
    [Some (Message ACK_ID [x00; x00; x00; x00; x05; x04; x00; x07]);
     None;
     Some (Message ACK_ID [x01; x00; x00; x00; x05; x00; x00; x09])]
    = consumed ++ [] /\
    Forall2 (fun f a => MSG_ack f = Ok a) (delivered consumed) acks /\
    forall earlier a later,
      acks = earlier ++ a :: later ->
      Forall (fun a' => ack_module_id a' <> ack_module_id a) later ->
      (<[5 := {| status := "OK"; reason := "reset"; sw_ver := 9 |}]> ∅
         : gmap Z scan_entry) !! ack_module_id a = Some (entry_of a) /\
      filter (fun kv => kv.1 = ack_module_id a)
        (map_to_list (<[5 := {| status := "OK"; reason := "reset"; sw_ver := 9 |}]> ∅
                        : gmap Z scan_entry))
      = [(ack_module_id a, entry_of a)].
Proof.
  assert (Hrun :
    scan {| tx := [];
            rx := [Some (Message ACK_ID [x00; x00; x00; x00; x05; x04; x00; x07]);
                   None;
                   Some (Message ACK_ID [x01; x00; x00; x00; x05; x00; x00; x09])];
            clock := 1 |}
    = (Ok (<[5 := {| status := "OK"; reason := "reset"; sw_ver := 9 |}]> ∅),
       {| tx := [Message CMD_ID [x00; x00]; Message CMD_ID [x00; x00]];
          rx := []; clock := 0 |})) by (vm_compute; reflexivity).
  exact (scan_last_ack_wins _ _ _ Hrun).
Defined.

(** * Further properties *)

(** ** Bytes and the [struct] codec *)

Lemma Z_of_byte_range b : 0 <= Z_of_byte b < 256.
Proof.
  unfold Z_of_byte. pose proof (Byte.to_N_bounded b). lia.
Qed.

Lemma Z_of_byte_of_Z z : Z_of_byte (byte_of_Z z) = z mod 256.
Proof.
  unfold Z_of_byte, byte_of_Z.
  assert (Hr : 0 <= z mod 256 < 256) by (apply Z.mod_pos_bound; lia).
  destruct (Byte.of_N (Z.to_N (z mod 256))) as [b|] eqn:E.
  - apply Byte.to_of_N in E. rewrite E. lia.
  - apply Byte.of_N_None_iff in E. lia.
Qed.

Lemma byte_of_Z_of_byte b : byte_of_Z (Z_of_byte b) = b.
Proof.
  unfold byte_of_Z, Z_of_byte.
  pose proof (Byte.to_N_bounded b) as Hb.
  rewrite Z.mod_small by lia. rewrite N2Z.id, Byte.of_to_N. reflexivity.
Qed.

Lemma be_to_Z_acc l acc :
  fold_left (fun a b => a * 256 + Z_of_byte b) l acc
  = acc * 256 ^ Z.of_nat (length l) + be_to_Z l.
Proof.
  unfold be_to_Z. revert acc. induction l as [|b l IH]; intros acc; simpl fold_left.
  - simpl. lia.
  - rewrite IH, (IH (0 * 256 + Z_of_byte b)).
    change (length (b :: l)) with (S (length l)).
    rewrite Nat2Z.inj_succ, Z.pow_succ_r by lia. lia.
Qed.

Lemma be_to_Z_cons b l :
  be_to_Z (b :: l) = Z_of_byte b * 256 ^ Z.of_nat (length l) + be_to_Z l.
Proof.
  unfold be_to_Z at 1. simpl fold_left. rewrite be_to_Z_acc. lia.
Qed.

(** The value of [n] bytes lies below [256 ^ n]. *)
Lemma be_to_Z_range l : 0 <= be_to_Z l < 256 ^ Z.of_nat (length l).
Proof.
  induction l as [|b l IH]; [simpl; unfold be_to_Z; simpl; lia|].
  rewrite be_to_Z_cons.
  change (length (b :: l)) with (S (length l)).
  rewrite Nat2Z.inj_succ, Z.pow_succ_r by lia.
  pose proof (Z_of_byte_range b). nia.
Qed.

Lemma length_be_of_Z n z : length (be_of_Z n z) = n.
Proof. induction n; simpl; [reflexivity | now rewrite IHn]. Qed.

Lemma be_to_Z_of_Z n z : be_to_Z (be_of_Z n z) = z mod 256 ^ Z.of_nat n.
Proof.
  induction n as [|n IH].
  - simpl. unfold be_to_Z. simpl. now rewrite Z.mod_1_r.
  - simpl be_of_Z. rewrite be_to_Z_cons, IH, length_be_of_Z, Z_of_byte_of_Z.
    rewrite Nat2Z.inj_succ, Z.pow_succ_r by lia.
    rewrite (Z.mul_comm 256), Z.rem_mul_r by lia. lia.
Qed.

Lemma be_of_Z_high c v n k :
  (n <= k)%nat -> be_of_Z n (c * 256 ^ Z.of_nat k + v) = be_of_Z n v.
Proof.
  revert k. induction n as [|n IHn]; intros k Hk; [reflexivity|].
  simpl. rewrite IHn by lia. f_equal.
  replace (Z.of_nat k) with (Z.of_nat (k - n) + Z.of_nat n) by lia.
  rewrite Z.pow_add_r, Z.mul_assoc by lia.
  rewrite Z.div_add_l by (apply Z.pow_nonzero; lia).
  unfold byte_of_Z.
  replace (Z.of_nat (k - n)) with (Z.succ (Z.of_nat (k - S n))) by lia.
  rewrite Z.pow_succ_r by lia.
  replace (c * (256 * 256 ^ Z.of_nat (k - S n)) + v / 256 ^ Z.of_nat n)
    with (v / 256 ^ Z.of_nat n + (c * 256 ^ Z.of_nat (k - S n)) * 256) by lia.
  rewrite Z.mod_add by lia. reflexivity.
Qed.

Lemma be_of_Z_to_Z l : be_of_Z (length l) (be_to_Z l) = l.
Proof.
  induction l as [|b l IH]; [reflexivity|].
  simpl be_of_Z. rewrite be_to_Z_cons.
  pose proof (be_to_Z_range l) as Hr. pose proof (Z_of_byte_range b) as Hb.
  assert (Hp : 0 < 256 ^ Z.of_nat (length l)) by (apply Z.pow_pos_nonneg; lia).
  f_equal.
  - rewrite Z.div_add_l by lia. rewrite Z.div_small by lia.
    rewrite Z.add_0_r. apply byte_of_Z_of_byte.
  - rewrite be_of_Z_high by lia. exact IH.
Qed.

Lemma pack_field_unpack f v b :
  pack_field f v = Ok b ->
  length b = size f /\ unpack_field f b = as_packed f v.
Proof.
  assert (Hint : forall n, pack_int n v = Ok b ->
            length b = n /\ VInt (be_to_Z b) = v).
  { intros n. unfold pack_int. destruct v as [z|]; [|discriminate].
    destruct ((0 <=? z) && (z <? 256 ^ Z.of_nat n)) eqn:E; [|discriminate].
    intros H; inversion H; subst. apply andb_prop in E as [E1 E2].
    apply Z.leb_le in E1. apply Z.ltb_lt in E2.
    split; [apply length_be_of_Z|].
    rewrite be_to_Z_of_Z, Z.mod_small by lia. reflexivity. }
  destruct f; simpl.
  - intros H. destruct (Hint _ H) as [H1 H2]. destruct v; inversion H2; subst; auto.
  - intros H. destruct (Hint _ H) as [H1 H2]. destruct v; inversion H2; subst; auto.
  - intros H. destruct (Hint _ H) as [H1 H2]. destruct v; inversion H2; subst; auto.
  - destruct v as [|bs]; [discriminate|]. intros H; inversion H; subst.
    split; [|reflexivity].
    rewrite length_app, length_take, repeat_length. lia.
  - destruct v as [|[|c [|]]]; try discriminate.
    intros H; inversion H; subst. auto.
Qed.

Lemma pack_unpack fmt :
  forall args payload,
    pack fmt args = Ok payload ->
    length payload = calcsize fmt /\
    unpack_fields fmt payload = zip_with as_packed fmt args.
Proof.
  induction fmt as [|f fmt IH]; intros [|a args] payload; simpl; try discriminate.
  - intros H; inversion H; auto.
  - destruct (pack_field f a) as [b|] eqn:Ef; [|discriminate]. simpl.
    destruct (pack fmt args) as [rest|] eqn:Er; [|discriminate]. simpl.
    intros H; inversion H; subst.
    destruct (pack_field_unpack _ _ _ Ef) as [Hl Hu].
    destruct (IH _ _ Er) as [Hl' Hu'].
    split; [rewrite length_app; lia|].
    rewrite <- Hl, take_app_length, drop_app_length, Hu, Hu'. reflexivity.
Qed.

(** X1: a message built by [TXMessage.__init__] carries the given id, its
    payload has exactly the size of the class's format, and unpacking
    the payload with that format gives the arguments back, a string
    argument cut or NUL-padded to its width. *)
Theorem TXMessage_round_trip fmt id args f :
  TXMessage fmt id args = Ok f ->
  arbitration_id f = id /\
  dlc f = calcsize fmt /\
  unpack fmt (data f) = Ok (zip_with as_packed fmt args).
Proof.
  unfold TXMessage. destruct (pack fmt args) as [payload|] eqn:E; [|discriminate].
  simpl. intros H; inversion H; subst; simpl.
  destruct (pack_unpack _ _ _ E) as [Hl Hu].
  split; [reflexivity|]. split; [exact Hl|].
  unfold unpack. destruct (decide (length payload = calcsize fmt)); [|contradiction].
  now rewrite Hu.
Qed.

Lemma TXMessage_round_trip_witness :
  arbitration_id (Message CMD_ID [x20; x03; x00; x5b; x02]) = CMD_ID /\
  dlc (Message CMD_ID [x20; x03; x00; x5b; x02]) = 5%nat /\
  unpack [fH; fH; fB] [x20; x03; x00; x5b; x02]
  = Ok [VInt 0x2003; VInt 91; VInt 2].
Proof.
  exact (TXMessage_round_trip [fH; fH; fB] CMD_ID
           [VInt 0x2003; VInt 91; VInt 2]
           (Message CMD_ID [x20; x03; x00; x5b; x02]) eq_refl).
Defined.

(** ** The parameter table *)

Lemma parameter_lookup_found before :
  forall offset fmt name after,
    name ∉ before.*2 ->
    parameter_lookup (before ++ (fmt, name) :: after) offset name
    = Ok (offset + table_size before, fmt).
Proof.
  induction before as [|[f n] before IH]; intros offset fmt name after Hn; simpl.
  - destruct (decide (name = name)); [|contradiction]. do 2 f_equal. lia.
  - simpl in Hn. apply not_elem_of_cons in Hn as [Hne Hn].
    destruct (decide (n = name)); [congruence|].
    rewrite IH by assumption. do 2 f_equal. lia.
Qed.

Lemma parameter_lookup_missing map :
  forall offset name,
    name ∉ map.*2 ->
    parameter_lookup map offset name
    = Err (RuntimeError "attempt to lookup non-existent parameter").
Proof.
  induction map as [|[f n] map IH]; intros offset name Hn; simpl; [reflexivity|].
  simpl in Hn. apply not_elem_of_cons in Hn as [Hne Hn].
  destruct (decide (n = name)); [congruence|]. now apply IH.
Qed.

(** X2: [_parameter] gives, for a name of [PARAMETER_MAP], the format of
    its entry and as offset the sizes of the entries before it added up;
    the names of the table are all different, so this is the only entry
    of that name.  Any other name is a [RuntimeError]. *)
Theorem parameter_offset_is_sum_of_widths name :
  NoDup PARAMETER_MAP.*2 /\
  (forall before fmt after,
     PARAMETER_MAP = before ++ (fmt, name) :: after ->
     _parameter name = Ok (table_size before, fmt)) /\
  (name ∉ PARAMETER_MAP.*2 ->
   _parameter name
   = Err (RuntimeError "attempt to lookup non-existent parameter")).
Proof.
  assert (Hnd : NoDup PARAMETER_MAP.*2).
  { apply (bool_decide_unpack (NoDup PARAMETER_MAP.*2)). vm_compute. exact I. }
  split; [exact Hnd|]. split.
  - intros before fmt after Hsplit. unfold _parameter. rewrite Hsplit.
    rewrite parameter_lookup_found; [reflexivity|].
    rewrite Hsplit, fmap_app in Hnd. apply NoDup_app in Hnd as (_ & Hdis & _).
    intros Hin. apply (Hdis _ Hin). simpl. left.
  - intros Hn. now apply parameter_lookup_missing.
Qed.

(** ** Receiving and commands *)

Lemma recv_filtered_spec script r rest :
  recv_filtered script = (r, rest) ->
  exists dropped,
    Forall (fun f => arbitration_id f ∉ RECEIVE_FILTER) dropped /\
    match r with
    | Some f =>
        arbitration_id f ∈ RECEIVE_FILTER /\
        script = map Some dropped ++ Some f :: rest
    | None =>
        script = map Some dropped ++ None :: rest \/
        (script = map Some dropped /\ rest = [])
    end.
Proof.
  revert r rest. induction script as [|[f|] script IH]; simpl; intros r rest H.
  - inversion H; subst. exists []. split; [constructor|]. right. auto.
  - destruct (decide (arbitration_id f ∈ RECEIVE_FILTER)) as [Hin|Hout].
    + inversion H; subst. exists []. split; [constructor|]. auto.
    + destruct (IH _ _ H) as [dropped [Hd Hr]].
      exists (f :: dropped). split; [constructor; assumption|].
      destruct r as [g|].
      * destruct Hr as [Hg ->]. auto.
      * destruct Hr as [-> | [-> ->]]; [left|right]; auto.
  - inversion H; subst. exists []. split; [constructor|]. left. reflexivity.
Qed.

(** X3: [Interface.recv] never raises, sends nothing, and returns the
    first frame of the bus whose id is in [RECEIVE_FILTER], after dropping
    the frames before it, all of them outside the filter; it returns
    [None] when the deadline passes or the bus stays silent before such a
    frame comes. *)
Theorem recv_returns_filtered_frames timeout b :
  exists msg rest dropped,
    recv timeout b
    = (Ok msg, {| tx := tx b; rx := rest; clock := clock b |}) /\
    Forall (fun f => arbitration_id f ∉ RECEIVE_FILTER) dropped /\
    match msg with
    | Some f =>
        arbitration_id f ∈ RECEIVE_FILTER /\
        rx b = map Some dropped ++ Some f :: rest
    | None =>
        rx b = map Some dropped ++ None :: rest \/
        (rx b = map Some dropped /\ rest = [])
    end.
Proof.
  unfold recv. destruct (recv_filtered (rx b)) as [msg rest] eqn:E.
  destruct (recv_filtered_spec _ _ _ E) as [dropped [Hd Hm]].
  exists msg, rest, dropped. auto.
Qed.

Lemma recv_inv timeout b r b' :
  recv timeout b = (r, b') ->
  exists msg, r = Ok msg /\ tx b' = tx b /\
    match msg with
    | Some f => arbitration_id f ∈ RECEIVE_FILTER
    | None => True
    end.
Proof.
  unfold recv. destruct (recv_filtered (rx b)) as [msg rest] eqn:E.
  destruct (recv_filtered_spec _ _ _ E) as [dropped [Hd Hm]].
  intros H; inversion H; subst. exists msg.
  repeat split. destruct msg; [tauto|exact I].
Qed.



(** ** Acknowledgements and the wait for a reboot *)

Lemma MSG_ack_Ok raw :
  arbitration_id raw = ACK_ID -> length (data raw) = 8%nat ->
  MSG_ack raw
  = Ok {| reason_code := be_to_Z (firstn 1 (data raw));
          ack_module_id := be_to_Z (firstn 4 (skipn 1 (data raw)));
          status_code := be_to_Z (firstn 1 (skipn 5 (data raw)));
          ack_sw_version := be_to_Z (firstn 2 (skipn 6 (data raw)));
          ack_reason :=
            lookup_or_unknown (list_to_map REASON_MAP)
              (be_to_Z (firstn 1 (data raw)));
          ack_status :=
            lookup_or_unknown (list_to_map STATUS_MAP)
              (be_to_Z (firstn 1 (skipn 5 (data raw)))) |}.
Proof.
  intros Hid Hlen. unfold MSG_ack.
  rewrite (receive_Ok_intro ack raw Hid Hlen eq_refl eq_refl).
  simpl. rewrite !drop_drop. reflexivity.
Qed.







(** X6: [MSG_ack] takes every frame of 8 bytes on the ACK id, and no
    other frame: none of its fields is filtered.  The reason code is byte
    0, the module id bytes 1 to 4, the status byte 5 and the software
    version bytes 6 and 7, all big-endian; the module id is below 2^32. *)
Theorem MSG_ack_layout raw :
  (arbitration_id raw <> ACK_ID ->
   MSG_ack raw = Err (MessageError WrongId)) /\
  (arbitration_id raw = ACK_ID -> length (data raw) <> 8%nat ->
   MSG_ack raw = Err (MessageError WrongLength)) /\
  (arbitration_id raw = ACK_ID -> length (data raw) = 8%nat ->
   exists a,
     MSG_ack raw = Ok a /\
     reason_code a = be_to_Z (firstn 1 (data raw)) /\
     ack_module_id a = be_to_Z (firstn 4 (skipn 1 (data raw))) /\
     status_code a = be_to_Z (firstn 1 (skipn 5 (data raw))) /\
     ack_sw_version a = be_to_Z (firstn 2 (skipn 6 (data raw))) /\
     0 <= ack_module_id a < 2 ^ 32).
Proof.
  split; [|split].
  - intros Hid. unfold MSG_ack, receive, RXMessage. simpl expected_id.
    destruct (decide (arbitration_id raw = ACK_ID)); [contradiction|reflexivity].
  - intros Hid Hlen. unfold MSG_ack, receive, RXMessage, dlc. simpl expected_id.
    destruct (decide (arbitration_id raw = ACK_ID)); [|contradiction].
    destruct (decide (length (data raw) = calcsize (_format ack))) as [Heq|];
      [exfalso; apply Hlen; exact Heq|reflexivity].
  - intros Hid Hlen. eexists. split; [apply MSG_ack_Ok; assumption|].
    cbn [reason_code ack_module_id status_code ack_sw_version].
    repeat split; try reflexivity.
    + apply be_to_Z_range.
    + pose proof (be_to_Z_range (firstn 4 (skipn 1 (data raw)))) as Hr.
      rewrite length_take, length_skipn, Hlen in Hr. simpl in Hr. lia.
Qed.


(** ** Flash-mode entry *)

Lemma accepted_first_field c r v :
  accepts c r -> _filter c !! 0%nat = Some (true, v) ->
  unpack_fields (_format c) (data r) !! 0%nat = Some v.
Proof.
  intros [vs H] Hf. apply receive_Ok_inv in H as (_ & _ & -> & Hc & _).
  apply (check_filter_ok_inv _ _ _ Hc 0%nat v Hf).
Qed.

Lemma program_ack_is_no_nak r :
  accepts program_ack r ->
  exists e, receive program_nak r = Err e /\ is_MessageError e = true.
Proof.
  intros Hack. destruct (receive program_nak r) as [vs|e] eqn:E.
  - exfalso.
    pose proof (accepted_first_field program_ack r _ Hack eq_refl) as H1.
    pose proof (accepted_first_field program_nak r _
                  (ex_intro _ vs E) eq_refl) as H2.
    change (_format program_nak) with (_format program_ack) in H2.
    rewrite H1 in H2. discriminate.
  - exists e. split; [reflexivity|]. eapply receive_raises_MessageError; eauto.
Qed.

Lemma MSG_program_Ok : MSG_program = Ok (Message CMD_ID [x20; x00]).
Proof. reflexivity. Qed.

Lemma enter_flash_mode_ack_run self b select_message sel_rsp sel
    ack_rsp rest :
  MSG_select (_module_id self) = Ok select_message ->
  MSG_selected sel_rsp = Ok sel -> module_id sel = _module_id self ->
  accepts program_ack ack_rsp ->
  rx b = Some sel_rsp :: Some ack_rsp :: rest ->
  _enter_flash_mode self b
  = (Ok tt,
     {| tx := tx b ++ [select_message; Message CMD_ID [x20; x00]];
        rx := rest; clock := clock b |}).
Proof.
  intros Hm Hsel Hid Hack Hrx. unfold _enter_flash_mode.
  unfold bind at 1. erewrite select_run by eauto.
  destruct (decide (module_id sel <> _module_id self)); [contradiction|].
  unfold bind at 1. unfold lift at 1. rewrite MSG_program_Ok.
  unfold bind at 1.
  erewrite cmd_reply;
    [|reflexivity|destruct Hack as [vs Hvs]; eapply receive_in_filter; eauto].
  destruct (program_ack_is_no_nak _ Hack) as [e [He Hme]].
  unfold bind at 1. unfold try_except.
  unfold bind at 1. unfold lift at 1. rewrite He, Hme.
  unfold ret at 1. unfold bind, lift. destruct Hack as [vs ->].
  unfold ret, exchanged. simpl. rewrite <- app_assoc. reflexivity.
Qed.

(** X7: when the module answers the select with its own id and the
    program command with [program_ack], [_enter_flash_mode] returns
    normally after exactly these two commands. *)
Theorem enter_flash_mode_from_bootloader self b select_message sel_rsp sel
    ack_rsp rest :
  MSG_select (_module_id self) = Ok select_message ->
  MSG_selected sel_rsp = Ok sel -> module_id sel = _module_id self ->
  accepts program_ack ack_rsp ->
  rx b = Some sel_rsp :: Some ack_rsp :: rest ->
  _enter_flash_mode self b
  = (Ok tt,
     {| tx := tx b ++ [select_message; Message CMD_ID [x20; x00]];
        rx := rest; clock := clock b |}).
Proof. apply enter_flash_mode_ack_run. Qed.

Lemma enter_flash_mode_from_bootloader_witness :
  _enter_flash_mode {| _module_id := 5; _verbose := false |}
    {| tx := [];
       rx := [Some (Message RSP_ID [x21; x10; x00; x00; x00; x05; x00; x01]);
              Some (Message RSP_ID [x21; x00; x00; x00; x00; x05; x00; x00])];
       clock := 0 |}
  = (Ok tt,
     {| tx := [Message CMD_ID [x20; x10; x00; x00; x00; x05];
               Message CMD_ID [x20; x00]];
        rx := []; clock := 0 |}).
Proof.
  apply (enter_flash_mode_from_bootloader
           {| _module_id := 5; _verbose := false |}
           {| tx := [];
              rx := [Some (Message RSP_ID [x21; x10; x00; x00; x00; x05; x00; x01]);
                     Some (Message RSP_ID [x21; x00; x00; x00; x00; x05; x00; x00])];
              clock := 0 |}
           (Message CMD_ID [x20; x10; x00; x00; x00; x05])
           (Message RSP_ID [x21; x10; x00; x00; x00; x05; x00; x01])
           {| module_id := 5; sw_version := 1 |}
           (Message RSP_ID [x21; x00; x00; x00; x00; x05; x00; x00]) []);
    try reflexivity.
  eexists. vm_compute. reflexivity.
Defined.



(** ** Erase *)


Lemma MSG_progress_accepted raw :
  accepts progress raw -> exists p, MSG_progress raw = Ok p.
Proof.
  intros [vs H]. unfold MSG_progress. rewrite H. simpl.
  apply receive_Ok_inv in H as (_ & _ & -> & _). simpl. eauto.
Qed.

(** A progress message ends in 00 and [erase_done] in 01: no frame is
    both. *)
Lemma progress_is_not_done raw :
  accepts progress raw ->
  exists e, receive erase_done raw = Err e /\ is_MessageError e = true.
Proof.
  intros Hp. destruct (receive erase_done raw) as [vs|e] eqn:E.
  - exfalso.
    destruct Hp as [vp Hp].
    apply receive_Ok_inv in Hp as (_ & Hlen & -> & Hcp & _).
    apply receive_Ok_inv in E as (_ & _ & -> & Hcd & _).
    pose proof (check_filter_ok_inv _ _ _ Hcp 3%nat _ eq_refl) as H3.
    pose proof (check_filter_ok_inv _ _ _ Hcd 2%nat _ eq_refl) as H2.
    unfold dlc in Hlen.
    destruct (data raw) as [|b0 [|b1 [|b2 [|b3 [|b4 l]]]]]; try discriminate.
    simpl in H3, H2. rewrite H3 in H2. discriminate.
  - exists e. split; [reflexivity|]. eapply receive_raises_MessageError; eauto.
Qed.

Lemma erase_loop_progress frames :
  forall b done rest,
    rx b = map Some frames ++ Some done :: rest ->
    Forall (accepts progress) frames ->
    accepts erase_done done ->
    erase_loop b = (Ok tt, {| tx := tx b; rx := rest; clock := clock b |}).
Proof.
  induction frames as [|f frames IH]; intros b done rest Hrx Hp Hd;
    rewrite erase_loop_eq.
  - simpl in Hrx. destruct Hd as [vs Hvs].
    erewrite recv_head by eauto using receive_in_filter.
    rewrite Hvs. reflexivity.
  - simpl in Hrx. inversion Hp as [|? ? Hf Hfs]; subst.
    assert (Hin : arbitration_id f ∈ RECEIVE_FILTER).
    { destruct Hf as [vs Hvs]. eapply receive_in_filter; eauto. }
    erewrite recv_head by eauto.
    destruct (progress_is_not_done _ Hf) as [e [-> ->]].
    destruct (MSG_progress_accepted _ Hf) as [p ->].
    rewrite (IH _ done rest) by (simpl; eauto). reflexivity.
Qed.

(** X9: after the erase command, any number of progress messages
    followed by [erase_done] makes [_erase] return normally; it has sent
    the erase command and nothing else, and taken the messages up to and
    including [erase_done] from the bus. *)
Theorem erase_with_progress b frames done rest :
  rx b = map Some frames ++ Some done :: rest ->
  Forall (accepts progress) frames ->
  accepts erase_done done ->
  _erase b
  = (Ok tt, {| tx := tx b ++ [Message CMD_ID [x02; x02]];
               rx := rest; clock := clock b |}).
Proof.
  intros Hrx Hp Hd. unfold _erase, bind, lift, send. simpl.
  erewrite erase_loop_progress; eauto.
Qed.

Lemma erase_with_progress_witness :
  _erase {| tx := [];
            rx := [Some (Message RSP_ID [x00; x00; x05; x00]);
                   Some (Message RSP_ID [x00; x01; x05; x00]);
                   Some (Message RSP_ID [x00; x00; xff; x01]);
                   None];
            clock := 0 |}
  = (Ok tt, {| tx := [Message CMD_ID [x02; x02]]; rx := [None]; clock := 0 |}).
Proof.
  apply (erase_with_progress
           {| tx := [];
              rx := [Some (Message RSP_ID [x00; x00; x05; x00]);
                     Some (Message RSP_ID [x00; x01; x05; x00]);
                     Some (Message RSP_ID [x00; x00; xff; x01]);
                     None];
              clock := 0 |}
           [Message RSP_ID [x00; x00; x05; x00];
            Message RSP_ID [x00; x01; x05; x00]]
           (Message RSP_ID [x00; x00; xff; x01]) [None]).
  - reflexivity.
  - repeat constructor; eexists; vm_compute; reflexivity.
  - eexists; vm_compute; reflexivity.
Defined.




(** ** EEPROM read: nothing to read, and a wrong reply *)

Lemma read_eeprom_loop_refused replies :
  forall A N acc b r rest,
    0 <= A -> A + N <= 65536 ->
    rx b = map Some replies ++ Some r :: rest ->
    (length replies < Z.to_nat ((N + 7) / 8))%nat ->
    Forall (fun r => arbitration_id r = DATA_ID) replies ->
    arbitration_id r ∈ RECEIVE_FILTER -> arbitration_id r <> DATA_ID ->
    exists cmds,
      Forall2 (fun ac f => MSG_read_eeprom ac.1 ac.2 = Ok f)
              (firstn (S (length replies)) (read_commands A N)) cmds /\
      read_eeprom_loop A N acc b
      = (Err (ModuleError "unexpected reply to EEPROM read"),
         {| tx := tx b ++ cmds; rx := rest; clock := clock b |}).
Proof.
  induction replies as [|d replies IH];
    intros A N acc b r rest HA HN Hrx Hlen Hdata Hin Hbad.
  - simpl in Hlen, Hrx.
    assert (HNpos : 0 < N) by div_lia.
    set (amount := Z.min 8 N).
    assert (Hmsg := MSG_read_eeprom_Ok A amount ltac:(lia) ltac:(lia)).
    set (message := Message CMD_ID _) in Hmsg.
    exists [message]. split.
    + rewrite read_commands_step by lia. simpl. repeat constructor. exact Hmsg.
    + rewrite read_eeprom_loop_eq.
      destruct (decide (N > 0)); [|lia]. cbv zeta.
      replace (if decide (N <= 8) then N else 8) with amount
        by (unfold amount; destruct (decide (N <= 8)); lia).
      unfold bind at 1. unfold lift. rewrite Hmsg.
      unfold bind at 1. erewrite cmd_reply by eauto.
      destruct (decide (arbitration_id r <> DATA_ID)); [reflexivity|contradiction].
  - simpl in Hlen, Hrx. inversion Hdata as [|? ? Hd Hds]; subst.
    assert (HNpos : 0 < N) by div_lia.
    set (amount := Z.min 8 N).
    assert (Hmsg := MSG_read_eeprom_Ok A amount ltac:(lia) ltac:(lia)).
    set (message := Message CMD_ID _) in Hmsg.
    destruct (IH (A + amount) (N - amount) (acc ++ data d)
                 (exchanged b message (map Some replies ++ Some r :: rest))
                 r rest)
      as [cmds [Hcmds Hrun]]; try (simpl; div_lia); try assumption; try reflexivity.
    exists (message :: cmds). split.
    + rewrite read_commands_step by lia.
      change (firstn (S (length (d :: replies)))
                ((A, Z.min 8 N)
                 :: read_commands (A + Z.min 8 N) (N - Z.min 8 N)))
        with ((A, Z.min 8 N)
              :: firstn (S (length replies))
                   (read_commands (A + Z.min 8 N) (N - Z.min 8 N))).
      constructor; assumption.
    + rewrite read_eeprom_loop_eq.
      destruct (decide (N > 0)); [|lia]. cbv zeta.
      replace (if decide (N <= 8) then N else 8) with amount
        by (unfold amount; destruct (decide (N <= 8)); lia).
      unfold bind at 1. unfold lift. rewrite Hmsg.
      unfold bind at 1.
      erewrite cmd_reply; [|exact Hrx|rewrite Hd; vm_compute; repeat constructor].
      destruct (decide (arbitration_id d <> DATA_ID)); [contradiction|].
      rewrite Hrun. simpl. rewrite <- !app_assoc. reflexivity.
Qed.

(** X11: [_read_eeprom] asked for no bytes, or for a negative number of
    them, selects the module and returns the empty result without any
    read command.  And a reply to a read command that is not on the DATA
    id stops the read with a [ModuleError] right after that command; the
    bytes read so far are dropped. *)
Theorem read_eeprom_edge_cases self A N b select_message sel_rsp sel :
  MSG_select (_module_id self) = Ok select_message ->
  MSG_selected sel_rsp = Ok sel -> module_id sel = _module_id self ->
  (forall rest,
     N <= 0 -> rx b = Some sel_rsp :: rest ->
     _read_eeprom self A N b = (Ok [], exchanged b select_message rest)) /\
  (forall replies r rest,
     0 <= A -> A + N <= 65536 ->
     rx b = Some sel_rsp :: map Some replies ++ Some r :: rest ->
     (length replies < Z.to_nat ((N + 7) / 8))%nat ->
     Forall (fun r => arbitration_id r = DATA_ID) replies ->
     arbitration_id r ∈ RECEIVE_FILTER -> arbitration_id r <> DATA_ID ->
     exists cmds,
       Forall2 (fun ac f => MSG_read_eeprom ac.1 ac.2 = Ok f)
               (firstn (S (length replies)) (read_commands A N)) cmds /\
       _read_eeprom self A N b
       = (Err (ModuleError "unexpected reply to EEPROM read"),
          {| tx := tx b ++ select_message :: cmds; rx := rest;
             clock := clock b |})).
Proof.
  intros Hm Hsel Hid. split.
  - intros rest HN Hrx. unfold _read_eeprom, bind.
    erewrite select_run by eauto.
    destruct (decide (module_id sel <> _module_id self)); [contradiction|].
    rewrite read_eeprom_loop_eq.
    destruct (decide (N > 0)); [lia|reflexivity].
  - intros replies r rest HA HN Hrx Hlen Hdata Hin Hbad.
    destruct (read_eeprom_loop_refused replies A N []
                (exchanged b select_message (map Some replies ++ Some r :: rest))
                r rest) as [cmds [Hcmds Hrun]]; try assumption; try reflexivity.
    exists cmds. split; [exact Hcmds|].
    unfold _read_eeprom, bind. erewrite select_run by eauto.
    destruct (decide (module_id sel <> _module_id self)); [contradiction|].
    rewrite Hrun. simpl. rewrite <- app_assoc. reflexivity.
Qed.

Lemma read_eeprom_edge_cases_witness :
  _read_eeprom {| _module_id := 5; _verbose := false |} 4 0
    {| tx := [];
       rx := [Some (Message RSP_ID [x21; x10; x00; x00; x00; x05; x00; x00])];
       clock := 0 |}
  = (Ok [], {| tx := [Message CMD_ID [x20; x10; x00; x00; x00; x05]];
               rx := []; clock := 0 |}).
Proof.
  apply (proj1 (read_eeprom_edge_cases
                  {| _module_id := 5; _verbose := false |} 4 0
                  {| tx := [];
                     rx := [Some (Message RSP_ID [x21; x10; x00; x00; x00; x05; x00; x00])];
                     clock := 0 |}
                  (Message CMD_ID [x20; x10; x00; x00; x00; x05])
                  (Message RSP_ID [x21; x10; x00; x00; x00; x05; x00; x00])
                  {| module_id := 5; sw_version := 0 |}
                  eq_refl eq_refl eq_refl) []); [lia|reflexivity].
Defined.

(** ** EEPROM write and [set_parameter]: what is never done *)

Lemma cmd_tx message c b r b' :
  _cmd message c b = (r, b') -> tx b' = tx b ++ [message].
Proof.
  unfold _cmd, bind, send.
  destruct (recv 1000 _) as [x b1] eqn:E.
  destruct (recv_inv _ _ _ _ E) as (msg & -> & Htx & _). simpl in Htx.
  destruct msg as [rsp|]; [|intros H; inversion H; subst; exact Htx].
  destruct c as [k|]; [|intros H; inversion H; subst; exact Htx].
  destruct (receive k rsp); [intros H; inversion H; subst; exact Htx|].
  destruct (is_MessageError e); intros H; inversion H; subst; exact Htx.
Qed.

(** [_select] sends the select command, or nothing when the module id
    does not fit the command. *)
Lemma select_tx self b r b' :
  _select self b = (r, b') ->
  (tx b' = tx b /\ exists e, r = Err e) \/
  (exists message, MSG_select (_module_id self) = Ok message /\
                   tx b' = tx b ++ [message]).
Proof.
  unfold _select. unfold bind at 1. unfold lift at 1.
  destruct (MSG_select (_module_id self)) as [message|e] eqn:Em.
  - intros H. right. exists message. split; [reflexivity|].
    unfold bind at 1 in H.
    destruct (_cmd message None b) as [[rsp|e] b1] eqn:Ec.
    + apply cmd_tx in Ec. unfold bind, lift in H.
      destruct (MSG_selected rsp) as [sel|e]; [|inversion H; subst; exact Ec].
      destruct (decide _); inversion H; subst; exact Ec.
    + apply cmd_tx in Ec. inversion H; subst. exact Ec.
  - intros H; inversion H; subst. left. eauto.
Qed.

Lemma write_eeprom_fails self address payload b r b' :
  _write_eeprom self address payload b = (r, b') ->
  (exists e, r = Err e) /\
  ((tx b' = tx b) \/
   (exists message, MSG_select (_module_id self) = Ok message /\
                    tx b' = tx b ++ [message])).
Proof.
  unfold _write_eeprom. unfold bind at 1.
  destruct (_select self b) as [[v|e] b1] eqn:Es.
  - intros H. cbv in H. inversion H; subst.
    split; [eauto|].
    destruct (select_tx _ _ _ _ Es) as [[_ [e0 He]]|Hm]; [discriminate|now right].
  - intros H; inversion H; subst. split; [eauto|].
    destruct (select_tx _ _ _ _ Es) as [[Ht _]|Hm]; [now left|now right].
Qed.

(** X12: [_write_eeprom] never returns normally, whatever the module
    answers: it ends in an exception, and the one frame it can have sent
    is the select command.  No frame on the EEPROM id and no
    [close_eeprom] command is sent. *)
Theorem write_eeprom_never_completes self address payload b r b' :
  _write_eeprom self address payload b = (r, b') ->
  (exists e, r = Err e) /\
  ((tx b' = tx b) \/
   (exists message, MSG_select (_module_id self) = Ok message /\
                    tx b' = tx b ++ [message])).
Proof. apply write_eeprom_fails. Qed.

Lemma write_eeprom_never_completes_witness :
  (exists e, @Err unit StructError = Err e) /\
  ((tx {| tx := [Message CMD_ID [x20; x10; x00; x00; x00; x05]];
          rx := [Some (Message RSP_ID [x21; x11; x01; x00; x00])];
          clock := 0 |} = []) \/
   (exists message,
      MSG_select 5 = Ok message /\
      tx {| tx := [Message CMD_ID [x20; x10; x00; x00; x00; x05]];
            rx := [Some (Message RSP_ID [x21; x11; x01; x00; x00])];
            clock := 0 |} = [] ++ [message])).
Proof.
  exact (write_eeprom_never_completes
           {| _module_id := 5; _verbose := false |} 127 [x58]
           {| tx := [];
              rx := [Some (Message RSP_ID [x21; x10; x00; x00; x00; x05; x00; x00]);
                     Some (Message RSP_ID [x21; x11; x01; x00; x00])];
              clock := 0 |}
           (Err StructError)
           {| tx := [Message CMD_ID [x20; x10; x00; x00; x00; x05]];
              rx := [Some (Message RSP_ID [x21; x11; x01; x00; x00])];
              clock := 0 |}
           eq_refl).
Defined.

(** X13: [set_parameter] never returns normally.  For a name outside
    [PARAMETER_WRITE_OK] it raises [RuntimeError] and leaves the bus as
    it was; for the three writable names it raises too, and what it has
    sent by then is at most the select command. *)
Theorem set_parameter_never_succeeds self name value b r b' :
  set_parameter self name value b = (r, b') ->
  (exists e, r = Err e) /\
  (name ∉ PARAMETER_WRITE_OK ->
   r = Err (RuntimeError "parameter not writable") /\ b' = b) /\
  ((tx b' = tx b) \/
   (exists message, MSG_select (_module_id self) = Ok message /\
                    tx b' = tx b ++ [message])).
Proof.
  unfold set_parameter.
  destruct (decide (name ∈ PARAMETER_WRITE_OK)) as [Hin|Hout].
  - intros H.
    assert (Hgoal : (exists e, r = Err e) /\
              ((tx b' = tx b) \/
               (exists message, MSG_select (_module_id self) = Ok message /\
                                tx b' = tx b ++ [message]))).
    { unfold bind at 1 in H. unfold lift at 1 in H.
      destruct (_parameter name) as [[address fmt]|e];
        [|inversion H; subst; eauto].
      destruct (decide (name = "BaudrateBootloader1"%string)) as [Hb|Hb].
      - unfold try_except in H. unfold bind at 1 in H. unfold lift at 1 in H.
        destruct (baud_code value) as [code|e].
        + destruct (_write_eeprom self address code b) as [x b1] eqn:Ew.
          destruct (write_eeprom_fails _ _ _ _ _ _ Ew) as [[e ->] Ht].
          destruct (decide (e = KeyError)); inversion H; subst; eauto.
        + destruct (decide (e = KeyError)); inversion H; subst; eauto.
      - destruct (ends_in_s fmt); [|inversion H; subst; eauto].
        cbv zeta in H. destruct value as [z|s]; [inversion H; subst; eauto|].
        destruct (decide _); [inversion H; subst; eauto|].
        unfold bind at 1 in H. unfold lift at 1 in H.
        destruct (encode_ascii _) as [data|e]; [|inversion H; subst; eauto].
        apply (write_eeprom_fails _ _ _ _ _ _ H). }
    destruct Hgoal as [He Ht]. split; [exact He|]. split; [|exact Ht].
    intros Hn. contradiction.
  - intros H; inversion H; subst. split; [eauto|]. split; [auto|now left].
Qed.

Lemma set_parameter_never_succeeds_witness :
  (exists e, @Err unit (RuntimeError "parameter not writable") = Err e) /\
  ("SerialNumber"%string ∉ PARAMETER_WRITE_OK ->
   @Err unit (RuntimeError "parameter not writable")
   = Err (RuntimeError "parameter not writable") /\
   {| tx := []; rx := []; clock := 0 |} = {| tx := []; rx := []; clock := 0 |}) /\
  ((tx {| tx := []; rx := []; clock := 0 |} = []) \/
   (exists message, MSG_select 5 = Ok message /\
      tx {| tx := []; rx := []; clock := 0 |} = [] ++ [message])).
Proof.
  exact (set_parameter_never_succeeds
           {| _module_id := 5; _verbose := false |} "SerialNumber" (PyInt 7)
           {| tx := []; rx := []; clock := 0 |}
           (Err (RuntimeError "parameter not writable"))
           {| tx := []; rx := []; clock := 0 |} eq_refl).
Defined.

(** ** Programming a whole image *)

Lemma for_each_record_plan self memory_records b :
  Forall (fun srec => _verbose self = false \/
                      utf8_valid (firstn 2 srec) = true) memory_records ->
  for_each memory_records (program_record self) b
  = run_plan (image_plan memory_records) b.
Proof.
  unfold image_plan. revert b.
  induction memory_records as [|srec l IH]; intros b Hv; [reflexivity|].
  inversion Hv as [|? ? Hs Hl]; subst. simpl.
  rewrite run_plan_app. unfold bind.
  rewrite program_record_plan by exact Hs.
  destruct (run_plan (record_plan srec) b) as [[[]|e] b1]; [|reflexivity].
  now apply IH.
Qed.

Lemma program_split self memory_records terminal_record b :
  Forall (fun srec => _verbose self = false \/
                      utf8_valid (firstn 2 srec) = true) memory_records ->
  _program self (memory_records ++ [terminal_record]) b
  = (run_plan (image_plan memory_records) ;;
     rsp <- _cmd (MSG_srecord terminal_record) None ;;
     expect srecords_done rsp "unexpected response to terminal S-record") b.
Proof.
  intros Hv. unfold _program. cbv zeta.
  rewrite last_snoc, removelast_last.
  unfold bind at 1. unfold lift at 1.
  unfold bind at 1. unfold bind at 3.
  rewrite for_each_record_plan by exact Hv. reflexivity.
Qed.

Lemma program_image_run self memory_records terminal_record b replies reply rest :
  Forall (fun srec => _verbose self = false \/
                      utf8_valid (firstn 2 srec) = true) memory_records ->
  rx b = map Some replies ++ Some reply :: rest ->
  Forall2 (fun p r => accepts p.2 r) (image_plan memory_records) replies ->
  arbitration_id reply ∈ RECEIVE_FILTER ->
  _program self (memory_records ++ [terminal_record]) b
  = (match receive srecords_done reply with
     | Ok _ => Ok tt
     | Err _ => Err (ModuleError "unexpected response to terminal S-record")
     end,
     {| tx := tx b ++ map (fun p => MSG_srecord p.1) (image_plan memory_records)
                   ++ [MSG_srecord terminal_record];
        rx := rest; clock := clock b |}).
Proof.
  intros Hv Hrx Hacc Hin. rewrite program_split by exact Hv.
  unfold bind at 1.
  rewrite (run_plan_accepted _ replies Hacc b (Some reply :: rest) Hrx).
  unfold bind at 1. erewrite cmd_reply by (simpl; eauto).
  destruct (receive srecords_done reply) as [vs|e] eqn:E.
  - rewrite expect_accepted by (now exists vs).
    unfold exchanged. simpl. rewrite <- app_assoc. reflexivity.
  - erewrite expect_refused by eauto.
    unfold exchanged. simpl. rewrite <- app_assoc. reflexivity.
Qed.

(** X14: for an image of memory records followed by the terminal record,
    [_program] sends the fragments of each memory record in turn and then
    the terminal record in one frame.  With every fragment acknowledged
    as its plan says, it returns normally when the reply to the terminal
    record is [srecords_done], and raises the [ModuleError] about the
    terminal record for any other reply, [no_program] included.  With no
    records at all it raises [IndexError] before anything is sent. *)
Theorem program_image self memory_records terminal_record b replies reply rest :
  Forall (fun srec => _verbose self = false \/
                      utf8_valid (firstn 2 srec) = true) memory_records ->
  rx b = map Some replies ++ Some reply :: rest ->
  Forall2 (fun p r => accepts p.2 r) (image_plan memory_records) replies ->
  arbitration_id reply ∈ RECEIVE_FILTER ->
  _program self (memory_records ++ [terminal_record]) b
  = (match receive srecords_done reply with
     | Ok _ => Ok tt
     | Err _ => Err (ModuleError "unexpected response to terminal S-record")
     end,
     {| tx := tx b ++ map (fun p => MSG_srecord p.1) (image_plan memory_records)
                   ++ [MSG_srecord terminal_record];
        rx := rest; clock := clock b |}) /\
  (accepts no_program reply -> exists e, receive srecords_done reply = Err e) /\
  _program self [] b = (Err IndexError, b).
Proof.
  intros Hv Hrx Hacc Hin.
  split; [eapply program_image_run; eauto|]. split; [|reflexivity].
  intros Hno. destruct (receive srecords_done reply) as [vs|e] eqn:E; [|eauto].
  exfalso. destruct Hno as [vn Hn].
  apply receive_Ok_inv in Hn as (_ & Hl1 & _).
  apply receive_Ok_inv in E as (_ & Hl2 & _).
  rewrite Hl1 in Hl2. discriminate.
Qed.

Lemma program_image_witness :
  _program {| _module_id := 5; _verbose := false |}
    ([[x53; x31; x01; x02; x03; x04; x05; x06; x07; x08]; [x53; x31; xaa]]
     ++ [[x53; x39]])
    {| tx := [];
       rx := map Some [Message RSP_ID [x00; x01; x01; x01; x01];
                       Message RSP_ID [x00; x00; x01];
                       Message RSP_ID [x00; x00; x01]]
             ++ Some (Message RSP_ID [x00; x02; x02; x02; x02]) :: [];
       clock := 0 |}
  = (Err (ModuleError "unexpected response to terminal S-record"),
     {| tx := [Message SREC_ID [x53; x31; x01; x02; x03; x04; x05; x06];
               Message SREC_ID [x07; x08];
               Message SREC_ID [x53; x31; xaa];
               Message SREC_ID [x53; x39]];
        rx := []; clock := 0 |}).
Proof.
  apply (proj1 (program_image {| _module_id := 5; _verbose := false |}
                  [[x53; x31; x01; x02; x03; x04; x05; x06; x07; x08];
                   [x53; x31; xaa]]
                  [x53; x39]
                  {| tx := [];
                     rx := map Some [Message RSP_ID [x00; x01; x01; x01; x01];
                                     Message RSP_ID [x00; x00; x01];
                                     Message RSP_ID [x00; x00; x01]]
                           ++ Some (Message RSP_ID [x00; x02; x02; x02; x02]) :: [];
                     clock := 0 |}
                  [Message RSP_ID [x00; x01; x01; x01; x01];
                   Message RSP_ID [x00; x00; x01];
                   Message RSP_ID [x00; x00; x01]]
                  (Message RSP_ID [x00; x02; x02; x02; x02]) []
                  ltac:(repeat constructor) eq_refl
                  ltac:(repeat constructor; eexists; vm_compute; reflexivity)
                  ltac:(vm_compute; repeat constructor))).
Defined.

(** ** A whole upload *)

Lemma erase_progress_run b frames done rest :
  rx b = map Some frames ++ Some done :: rest ->
  Forall (accepts progress) frames ->
  accepts erase_done done ->
  _erase b
  = (Ok tt, {| tx := tx b ++ [Message CMD_ID [x02; x02]];
               rx := rest; clock := clock b |}).
Proof.
  intros Hrx Hp Hd. unfold _erase, bind, lift, send. simpl.
  erewrite erase_loop_progress; eauto.
Qed.

(** X15: with a module that is in its bootloader and answers as the
    protocol says (selected with its own id, [program_ack], progress
    messages and [erase_done], each fragment acknowledged,
    [srecords_done]), [upload] returns normally, and the frames it has
    sent are: select, program, erase, the fragments of the memory records
    in order, the terminal record. *)
Theorem upload_completes self memory_records terminal_record b
    select_message sel_rsp sel ack_rsp erase_frames done replies reply rest :
  Forall (fun srec => _verbose self = false \/
                      utf8_valid (firstn 2 srec) = true) memory_records ->
  MSG_select (_module_id self) = Ok select_message ->
  MSG_selected sel_rsp = Ok sel -> module_id sel = _module_id self ->
  accepts program_ack ack_rsp ->
  Forall (accepts progress) erase_frames ->
  accepts erase_done done ->
  Forall2 (fun p r => accepts p.2 r) (image_plan memory_records) replies ->
  accepts srecords_done reply ->
  rx b = Some sel_rsp :: Some ack_rsp
         :: map Some erase_frames ++ Some done
         :: map Some replies ++ Some reply :: rest ->
  upload self (memory_records ++ [terminal_record]) b
  = (Ok tt,
     {| tx := tx b
              ++ [select_message; Message CMD_ID [x20; x00];
                  Message CMD_ID [x02; x02]]
              ++ map (fun p => MSG_srecord p.1) (image_plan memory_records)
              ++ [MSG_srecord terminal_record];
        rx := rest; clock := clock b |}).
Proof.
  intros Hv Hm Hsel Hid Hack Hprog Hdone Hacc Hfin Hrx.
  unfold upload. unfold bind at 1.
  erewrite enter_flash_mode_ack_run by eauto.
  unfold bind at 1.
  erewrite erase_progress_run by (simpl; eauto).
  erewrite program_image_run; simpl; eauto.
  - destruct Hfin as [vs ->]. rewrite <- !app_assoc. reflexivity.
  - destruct Hfin as [vs Hvs]. eapply receive_in_filter; eauto.
Qed.

Lemma upload_completes_witness :
  upload {| _module_id := 5; _verbose := true |}
    ([[x53; x31; x01; x02; x03; x04; x05; x06; x07; x08]] ++ [[x53; x39]])
    {| tx := [];
       rx := Some (Message RSP_ID [x21; x10; x00; x00; x00; x05; x00; x00])
             :: Some (Message RSP_ID [x21; x00; x00; x00; x00; x05; x00; x00])
             :: map Some [Message RSP_ID [x00; x00; x02; x00]]
             ++ Some (Message RSP_ID [x00; x00; x00; x01])
             :: map Some [Message RSP_ID [x00; x01; x01; x01; x01];
                          Message RSP_ID [x00; x00; x01]]
             ++ Some (Message RSP_ID [x00; x12; x34]) :: [];
       clock := 0 |}
  = (Ok tt,
     {| tx := [Message CMD_ID [x20; x10; x00; x00; x00; x05];
               Message CMD_ID [x20; x00];
               Message CMD_ID [x02; x02];
               Message SREC_ID [x53; x31; x01; x02; x03; x04; x05; x06];
               Message SREC_ID [x07; x08];
               Message SREC_ID [x53; x39]];
        rx := []; clock := 0 |}).
Proof.
  apply (upload_completes {| _module_id := 5; _verbose := true |}
           [[x53; x31; x01; x02; x03; x04; x05; x06; x07; x08]] [x53; x39]
           {| tx := [];
              rx := Some (Message RSP_ID [x21; x10; x00; x00; x00; x05; x00; x00])
                    :: Some (Message RSP_ID [x21; x00; x00; x00; x00; x05; x00; x00])
                    :: map Some [Message RSP_ID [x00; x00; x02; x00]]
                    ++ Some (Message RSP_ID [x00; x00; x00; x01])
                    :: map Some [Message RSP_ID [x00; x01; x01; x01; x01];
                                 Message RSP_ID [x00; x00; x01]]
                    ++ Some (Message RSP_ID [x00; x12; x34]) :: [];
              clock := 0 |}
           (Message CMD_ID [x20; x10; x00; x00; x00; x05])
           (Message RSP_ID [x21; x10; x00; x00; x00; x05; x00; x00])
           {| module_id := 5; sw_version := 0 |}
           (Message RSP_ID [x21; x00; x00; x00; x00; x05; x00; x00])
           [Message RSP_ID [x00; x00; x02; x00]]
           (Message RSP_ID [x00; x00; x00; x01])
           [Message RSP_ID [x00; x01; x01; x01; x01];
            Message RSP_ID [x00; x00; x01]]
           (Message RSP_ID [x00; x12; x34]) []);
    try reflexivity;
    try (repeat constructor; fail);
    try (eexists; vm_compute; reflexivity);
    repeat constructor; eexists; vm_compute; reflexivity.
Defined.

(** ** Scan: pings and failure *)




(** ** Draining and detection *)

Lemma delivered_dropped dropped :
  Forall (fun f => arbitration_id f ∉ RECEIVE_FILTER) dropped ->
  delivered (map Some dropped) = [].
Proof.
  unfold delivered. induction 1 as [|f l Hf _ IH]; [reflexivity|].
  simpl. rewrite filter_cons_False by exact Hf. exact IH.
Qed.

Lemma delivered_cons_in f script :
  arbitration_id f ∈ RECEIVE_FILTER ->
  delivered (Some f :: script) = f :: delivered script.
Proof.
  intros H. unfold delivered. simpl. now rewrite filter_cons_True by exact H.
Qed.

Lemma drain_loop_spec count :
  forall b, exists b' consumed,
    drain_loop count b = (Ok tt, b') /\
    tx b' = tx b /\ clock b' = clock b /\
    rx b = consumed ++ rx b' /\
    (length (delivered consumed) <= count)%nat /\
    (length (delivered consumed) = count \/ rx b' = [] \/
     exists c, consumed = c ++ [None]).
Proof.
  induction count as [|count IH]; intros b.
  - exists b, []. simpl. repeat split; auto.
  - simpl. unfold bind, recv.
    destruct (recv_filtered (rx b)) as [msg rest] eqn:E.
    destruct (recv_filtered_spec _ _ _ E) as [dropped [Hd Hm]].
    destruct msg as [f|].
    + destruct Hm as [Hf Hrx].
      destruct (IH {| tx := tx b; rx := rest; clock := clock b |})
        as (b' & consumed & Hrun & Htx & Hc & Hrx' & Hlen & Hwhy).
      simpl in *. exists b', (map Some dropped ++ Some f :: consumed).
      rewrite Hrun. repeat split; auto.
      * rewrite Hrx, Hrx', <- app_assoc. reflexivity.
      * rewrite delivered_app, delivered_dropped, delivered_cons_in by assumption.
        simpl length. lia.
      * rewrite delivered_app, delivered_dropped, delivered_cons_in by assumption.
        simpl length.
        destruct Hwhy as [H|[H|[c H]]]; [left; lia|right; now left|].
        right. right. exists (map Some dropped ++ Some f :: c).
        rewrite H, <- app_assoc. reflexivity.
    + destruct Hm as [Hrx | [Hrx ->]].
      * exists {| tx := tx b; rx := rest; clock := clock b |},
               (map Some dropped ++ [None]).
        simpl. repeat split; auto.
        -- rewrite Hrx, <- app_assoc. reflexivity.
        -- rewrite delivered_app, delivered_dropped by exact Hd. simpl. lia.
        -- right. right. eauto.
      * exists {| tx := tx b; rx := []; clock := clock b |}, (map Some dropped).
        simpl. repeat split; auto.
        -- rewrite app_nil_r. exact Hrx.
        -- rewrite delivered_dropped by exact Hd. simpl. lia.
Qed.

(** X17: [Interface.drain] never raises and sends nothing.  It takes
    frames from the bus and stops after the 100th frame the filter lets
    through, or earlier at the first reception that ends with nothing
    received: a deadline that passes, or a bus that stays silent. *)
Theorem drain_stops_at_quiet_or_100 b :
  exists b' consumed,
    drain b = (Ok tt, b') /\
    tx b' = tx b /\ clock b' = clock b /\
    rx b = consumed ++ rx b' /\
    (length (delivered consumed) <= 100)%nat /\
    (length (delivered consumed) = 100%nat \/ rx b' = [] \/
     exists c, consumed = c ++ [None]).
Proof. apply drain_loop_spec. Qed.



Lemma MSG_selected_Err raw e :
  MSG_selected raw = Err e -> is_MessageError e = true.
Proof.
  unfold MSG_selected. destruct (receive selected raw) as [vs|e'] eqn:E; simpl.
  - apply receive_Ok_inv in E as (_ & _ & -> & _). simpl. discriminate.
  - intros H; inversion H; subst. eapply receive_raises_MessageError; eauto.
Qed.




(** ** Integer parameters *)

Lemma read_one_command offset N cmds :
  0 < N <= 8 -> 0 <= offset < 65536 ->
  Forall2 (fun ac f => MSG_read_eeprom ac.1 ac.2 = Ok f)
          (read_commands offset N) cmds ->
  cmds = [Message CMD_ID ([x20; x03] ++ be_of_Z 2 offset ++ be_of_Z 1 N)].
Proof.
  intros HN Ho H.
  rewrite read_commands_step in H by lia.
  rewrite read_commands_nil in H by lia.
  inversion H as [|? ? ? ? H1 H2]; subst. inversion H2; subst.
  simpl in H1. replace (Z.min 8 N) with N in H1 by lia.
  rewrite MSG_read_eeprom_Ok in H1 by lia. inversion H1. reflexivity.
Qed.

Lemma parameter_integer_run self name offset f b
    select_message sel_rsp sel reply rest :
  _parameter name = Ok (offset, [f]) ->
  f ∈ [fB; fH; fI] ->
  0 <= offset -> offset + Z.of_nat (size f) <= 65536 ->
  MSG_select (_module_id self) = Ok select_message ->
  MSG_selected sel_rsp = Ok sel -> module_id sel = _module_id self ->
  rx b = Some sel_rsp :: Some reply :: rest ->
  arbitration_id reply = DATA_ID ->
  length (data reply) = size f ->
  parameter self name b
  = (Ok (PStr (pystr_of_string (HexString.of_Z (be_to_Z (data reply))))),
     {| tx := tx b
              ++ [select_message;
                  Message CMD_ID ([x20; x03] ++ be_of_Z 2 offset
                                  ++ be_of_Z 1 (Z.of_nat (size f)))];
        rx := rest; clock := clock b |}).
Proof.
  intros Hp Hf Ho Hend Hm Hsel Hid Hrx Hdata Hlen.
  assert (Hsize : (size f = 1 \/ size f = 2 \/ size f = 4)%nat).
  { repeat (apply elem_of_cons in Hf as [-> | Hf]; [simpl; auto|]). inversion Hf. }
  assert (Hcalc : calcsize [f] = size f) by (simpl; lia).
  destruct (read_eeprom_run self offset (Z.of_nat (size f)) b select_message
              sel_rsp sel [reply] rest) as [cmds [Hcmds Hrun]];
    try assumption.
  { simpl. destruct Hsize as [Hs | [Hs | Hs]]; rewrite Hs; reflexivity. }
  { repeat constructor. exact Hdata. }
  apply read_one_command in Hcmds; [|lia|lia]. subst cmds.
  unfold parameter. unfold bind at 1. unfold lift at 1. rewrite Hp.
  rewrite Hcalc. unfold bind at 1. rewrite Hrun. simpl concat. rewrite app_nil_r.
  unfold bind at 1. unfold lift at 1. unfold unpack. rewrite Hcalc.
  destruct (decide (length (data reply) = size f)); [|contradiction].
  assert (Hends : ends_in_s [f] = false).
  { repeat (apply elem_of_cons in Hf as [-> | Hf]; [reflexivity|]). inversion Hf. }
  rewrite Hends.
  assert (Hun : unpack_fields [f] (data reply) = [VInt (be_to_Z (data reply))]).
  { simpl. rewrite firstn_all2 by lia.
    repeat (apply elem_of_cons in Hf as [-> | Hf]; [reflexivity|]). inversion Hf. }
  rewrite Hun. reflexivity.
Qed.

(** X19: for a parameter whose format is a single integer ([B], [>H] or
    [>I]), [parameter] selects the module, reads the field with one read
    command and returns the big-endian value of the bytes rendered as
    Python's [#x] does: ["0x"] and lower-case hexadecimal digits. *)
Theorem parameter_integer_is_hex self name offset f b
    select_message sel_rsp sel reply rest :
  _parameter name = Ok (offset, [f]) ->
  f ∈ [fB; fH; fI] ->
  0 <= offset -> offset + Z.of_nat (size f) <= 65536 ->
  MSG_select (_module_id self) = Ok select_message ->
  MSG_selected sel_rsp = Ok sel -> module_id sel = _module_id self ->
  rx b = Some sel_rsp :: Some reply :: rest ->
  arbitration_id reply = DATA_ID ->
  length (data reply) = size f ->
  parameter self name b
  = (Ok (PStr (pystr_of_string (HexString.of_Z (be_to_Z (data reply))))),
     {| tx := tx b
              ++ [select_message;
                  Message CMD_ID ([x20; x03] ++ be_of_Z 2 offset
                                  ++ be_of_Z 1 (Z.of_nat (size f)))];
        rx := rest; clock := clock b |}).
Proof. apply parameter_integer_run. Qed.

Lemma parameter_integer_is_hex_witness :
  parameter {| _module_id := 5; _verbose := false |} "SerialNumber"
    {| tx := [];
       rx := [Some (Message RSP_ID [x21; x10; x00; x00; x00; x05; x00; x00]);
              Some (Message DATA_ID [x01; x02; x03; xab])];
       clock := 0 |}
  = (Ok (PStr (pystr_of_string "0x10203ab")),
     {| tx := [Message CMD_ID [x20; x10; x00; x00; x00; x05];
               Message CMD_ID [x20; x03; x00; x04; x04]];
        rx := []; clock := 0 |}).
Proof.
  apply (parameter_integer_is_hex
           {| _module_id := 5; _verbose := false |} "SerialNumber" 4 fI
           {| tx := [];
              rx := [Some (Message RSP_ID [x21; x10; x00; x00; x00; x05; x00; x00]);
                     Some (Message DATA_ID [x01; x02; x03; xab])];
              clock := 0 |}
           (Message CMD_ID [x20; x10; x00; x00; x00; x05])
           (Message RSP_ID [x21; x10; x00; x00; x00; x05; x00; x00])
           {| module_id := 5; sw_version := 0 |}
           (Message DATA_ID [x01; x02; x03; xab]) []);
    try reflexivity; try (simpl; lia).
  repeat constructor.
Defined.

(** ** The flasher's choice of S-record reader *)

Lemma mcu_type_rendering t :
  bool_decide (PStr (pystr_of_string (HexString.of_Z (Z_of_byte t)))
               = PStr (pystr_of_string "0x1"))
  = bool_decide (t = x01) /\
  bool_decide (PStr (pystr_of_string (HexString.of_Z (Z_of_byte t)))
               = PStr (pystr_of_string "0x6"))
  = bool_decide (t = x06) /\
  bool_decide (PStr (pystr_of_string (HexString.of_Z (Z_of_byte t)))
               = PStr (pystr_of_string "0x8"))
  = bool_decide (t = x08).
Proof. destruct t; vm_compute; repeat split. Qed.

Lemma bool_decide_eq_iff (P Q : Prop) (dP : Decision P) (dQ : Decision Q) :
  bool_decide P = bool_decide Q -> (P <-> Q).
Proof.
  intros Heq. rewrite <- (bool_decide_eq_true P), <- (bool_decide_eq_true Q), Heq.
  reflexivity.
Qed.

(** X20: [do_upload] first reads the MCUType parameter, one byte at
    offset 78.  For the byte 1 it takes the HCS08 reader, for 6 or 8 the
    S32K reader with that type, and then uploads what the reader gives;
    for every other byte it raises [RuntimeError] with nothing sent but
    the select and the read command: flash mode is not entered and
    nothing is erased. *)
Theorem do_upload_picks_reader HCS08_Srecords S32K_Srecords module b
    select_message sel_rsp sel t rest :
  MSG_select (_module_id module) = Ok select_message ->
  MSG_selected sel_rsp = Ok sel -> module_id sel = _module_id module ->
  rx b = Some sel_rsp :: Some (Message DATA_ID [t]) :: rest ->
  do_upload HCS08_Srecords S32K_Srecords module b
  = (if decide (t = x01) then
       srecords <- lift HCS08_Srecords ;; upload module srecords
     else if decide (t = x06) then
       srecords <- lift (S32K_Srecords 6) ;; upload module srecords
     else if decide (t = x08) then
       srecords <- lift (S32K_Srecords 8) ;; upload module srecords
     else raise (RuntimeError "Unsupported module MCU"))
      {| tx := tx b ++ [select_message;
                        Message CMD_ID [x20; x03; x00; x4e; x01]];
         rx := rest; clock := clock b |}.
Proof.
  intros Hm Hsel Hid Hrx. unfold do_upload. unfold bind at 1.
  rewrite (parameter_integer_run module "MCUType" 78 fB b select_message
             sel_rsp sel (Message DATA_ID [t]) rest);
    try assumption; try reflexivity; try (simpl; lia);
    [|repeat constructor].
  change (be_to_Z (data (Message DATA_ID [t]))) with (0 * 256 + Z_of_byte t).
  rewrite Z.add_0_l.
  destruct (mcu_type_rendering t) as (H1 & H6 & H8).
  apply bool_decide_eq_iff in H1, H6, H8.
  unfold bind at 1.
  repeat match goal with
  | |- context [decide ?P] =>
      lazymatch P with
      | _ = PStr _ => destruct (decide P)
      | t = _ => destruct (decide P)
      end
  end; try reflexivity; tauto.
Qed.

Lemma do_upload_picks_reader_witness :
  do_upload (Ok [[x53; x39]]) (fun _ => Err ValueError)
    {| _module_id := 5; _verbose := false |}
    {| tx := [];
       rx := [Some (Message RSP_ID [x21; x10; x00; x00; x00; x05; x00; x00]);
              Some (Message DATA_ID [x07])];
       clock := 0 |}
  = (Err (RuntimeError "Unsupported module MCU"),
     {| tx := [Message CMD_ID [x20; x10; x00; x00; x00; x05];
               Message CMD_ID [x20; x03; x00; x4e; x01]];
        rx := []; clock := 0 |}).
Proof.
  exact (do_upload_picks_reader (Ok [[x53; x39]]) (fun _ => Err ValueError)
           {| _module_id := 5; _verbose := false |}
           {| tx := [];
              rx := [Some (Message RSP_ID [x21; x10; x00; x00; x00; x05; x00; x00]);
                     Some (Message DATA_ID [x07])];
              clock := 0 |}
           (Message CMD_ID [x20; x10; x00; x00; x00; x05])
           (Message RSP_ID [x21; x10; x00; x00; x00; x05; x00; x00])
           {| module_id := 5; sw_version := 0 |} x07 []
           eq_refl eq_refl eq_refl eq_refl).
Defined.

(** ** What the message classes raise, and which frames they share *)


(** The bytes of a payload of known length, named. *)
Ltac name_bytes d Hlen :=
  repeat (let b := fresh "b" in destruct d as [|b d]; try discriminate Hlen).

Lemma accepted_bytes c r :
  accepts c r ->
  arbitration_id r = expected_id c /\
  length (data r) = calcsize (_format c) /\
  forall i v, _filter c !! i = Some (true, v) ->
              unpack_fields (_format c) (data r) !! i = Some v.
Proof.
  intros [vs H]. apply receive_Ok_inv in H as (Hid & Hlen & -> & Hc & _).
  repeat split; auto. intros i v Hf.
  apply (check_filter_ok_inv _ _ _ Hc i v Hf).
Qed.

(** X22: the message classes do not overlap: a frame that one class
    accepts is refused by every other class.  So the order in which the
    code tries classes on a reply never decides what the reply is taken
    for. *)
Theorem message_classes_are_disjoint c c' r :
  accepts c r -> accepts c' r -> c = c'.
Proof.
  intros H H'.
  apply accepted_bytes in H as (Hid & Hlen & Hf).
  apply accepted_bytes in H' as (Hid' & Hlen' & Hf').
  destruct r as [id d]. simpl in *.
  destruct c, c'; try reflexivity; exfalso;
    simpl in Hid, Hid', Hlen, Hlen';
    try (rewrite Hid in Hid'; discriminate Hid');
    try (rewrite Hlen in Hlen'; discriminate Hlen');
    name_bytes d Hlen;
    try (pose proof (Hf 0%nat _ eq_refl) as F0;
         pose proof (Hf' 0%nat _ eq_refl) as F0';
         simpl in F0, F0'; rewrite F0 in F0'; discriminate F0');
    try (pose proof (Hf 0%nat _ eq_refl) as F0;
         pose proof (Hf' 0%nat _ eq_refl) as F0';
         simpl in F0, F0';
         first [ injection F0 as F0; injection F0' as F0'
               | injection F0' as F0'; injection F0 as F0 ];
         subst; vm_compute in *; discriminate);
    try (pose proof (Hf 3%nat _ eq_refl) as F3;
         pose proof (Hf' 2%nat _ eq_refl) as F2;
         simpl in F3, F2; rewrite F3 in F2; discriminate F2);
    try (pose proof (Hf 2%nat _ eq_refl) as F2;
         pose proof (Hf' 3%nat _ eq_refl) as F3;
         simpl in F3, F2; rewrite F3 in F2; discriminate F2).
Qed.

Lemma message_classes_are_disjoint_witness : progress = progress.
Proof.
  assert (H : accepts progress (Message RSP_ID [x00; x00; x02; x00])).
  { exists [VInt 0; VInt 0; VInt 2; VInt 0]. vm_compute. reflexivity. }
  exact (message_classes_are_disjoint progress progress
           (Message RSP_ID [x00; x00; x02; x00]) H H).
Defined.

(** ** Selection and the erase operation *)

Lemma MSG_selected_fields rsp :
  accepts selected rsp ->
  MSG_selected rsp
  = Ok {| module_id := be_to_Z (take 4 (drop 2 (data rsp)));
          sw_version := be_to_Z (drop 6 (data rsp)) |}.
Proof.
  intros [vs H]. unfold MSG_selected. rewrite H. simpl.
  apply receive_Ok_inv in H as (_ & Hlen & -> & _).
  destruct rsp as [id d]. unfold dlc in Hlen. simpl in *.
  name_bytes d Hlen. reflexivity.
Qed.

Lemma select_outcome_run self b message rsp rest :
  MSG_select (_module_id self) = Ok message ->
  rx b = Some rsp :: rest ->
  arbitration_id rsp ∈ RECEIVE_FILTER ->
  exists r,
    _select self b = (r, exchanged b message rest) /\
    (accepts selected rsp ->
     be_to_Z (take 4 (drop 2 (data rsp))) = _module_id self ->
     r = Ok (be_to_Z (drop 6 (data rsp)))) /\
    (~ accepts selected rsp -> exists k, r = Err (MessageError k)).
Proof.
  intros Hm Hrx Hin. unfold _select, bind, lift. rewrite Hm.
  erewrite cmd_reply by eauto.
  destruct (MSG_selected rsp) as [sel|e] eqn:Hsel.
  - destruct (decide (module_id sel <> _module_id self)) as [Hne|Heq];
      (eexists; split; [reflexivity|]; split;
       [|intros Hno; exfalso; apply Hno; eapply MSG_selected_Ok_inv; eauto]);
      intros Hacc Hid; rewrite (MSG_selected_fields _ Hacc) in Hsel;
      inversion Hsel; subst sel; simpl in *; [contradiction|reflexivity].
  - eexists. split; [reflexivity|]. split.
    + intros Hacc. rewrite (MSG_selected_fields _ Hacc) in Hsel. discriminate.
    + intros _. apply MSG_selected_Err in Hsel.
      destruct e; try discriminate. eauto.
Qed.

(** X23: [_select] sends the select command and takes the next reply.
    If the reply is a [selected] message whose bytes 2..5 are the
    module's id, the result is the number in its bytes 6..7, the
    software version.  If the reply is not a [selected] message, the
    [MessageError] of the message class comes out as it is: [_select]
    does not turn it into a [ModuleError]. *)
Theorem select_outcome self b message rsp rest :
  MSG_select (_module_id self) = Ok message ->
  rx b = Some rsp :: rest ->
  arbitration_id rsp ∈ RECEIVE_FILTER ->
  exists r,
    _select self b = (r, exchanged b message rest) /\
    (accepts selected rsp ->
     be_to_Z (take 4 (drop 2 (data rsp))) = _module_id self ->
     r = Ok (be_to_Z (drop 6 (data rsp)))) /\
    (~ accepts selected rsp -> exists k, r = Err (MessageError k)).
Proof. apply select_outcome_run. Qed.

Lemma select_outcome_witness :
  exists r,
    _select {| _module_id := 5; _verbose := false |}
      {| tx := [];
         rx := [Some (Message RSP_ID [x21; x10; x00; x00; x00; x05; x01; x02])];
         clock := 0 |}
    = (r, exchanged {| tx := [];
                       rx := [Some (Message RSP_ID
                                [x21; x10; x00; x00; x00; x05; x01; x02])];
                       clock := 0 |}
            (Message CMD_ID [x20; x10; x00; x00; x00; x05]) []) /\
    (accepts selected (Message RSP_ID [x21; x10; x00; x00; x00; x05; x01; x02]) ->
     be_to_Z (take 4 (drop 2 [x21; x10; x00; x00; x00; x05; x01; x02])) = 5 ->
     r = Ok (be_to_Z (drop 6 [x21; x10; x00; x00; x00; x05; x01; x02]))) /\
    (~ accepts selected (Message RSP_ID [x21; x10; x00; x00; x00; x05; x01; x02]) ->
     exists k, r = Err (MessageError k)).
Proof.
  assert (Hm : MSG_select 5 = Ok (Message CMD_ID [x20; x10; x00; x00; x00; x05]))
    by (vm_compute; reflexivity).
  assert (Hin : RSP_ID ∈ RECEIVE_FILTER) by (vm_compute; set_solver).
  exact (select_outcome {| _module_id := 5; _verbose := false |}
           {| tx := [];
              rx := [Some (Message RSP_ID [x21; x10; x00; x00; x00; x05; x01; x02])];
              clock := 0 |}
           (Message CMD_ID [x20; x10; x00; x00; x00; x05])
           (Message RSP_ID [x21; x10; x00; x00; x00; x05; x01; x02]) []
           Hm eq_refl Hin).
Defined.

Lemma erase_commands_run self b r b' :
  erase self b = (r, b') ->
  exists cmds,
    tx b' = tx b ++ cmds /\
    Forall is_command cmds /\
    (r = Ok tt ->
     exists b1 done,
       _enter_flash_mode self b = (Ok tt, b1) /\
       last cmds = Some (Message CMD_ID [x02; x02]) /\
       accepts erase_done done /\ Some done ∈ rx b1).
Proof.
  unfold erase. intros H. unfold bind at 1 in H.
  destruct (_enter_flash_mode self b) as [[[]|e] b1] eqn:He.
  - destruct (appends_enter_flash_mode self _ _ _ He) as [n1 [Ht1 Hc1]].
    destruct (erase_run _ _ _ H) as [Ht2 Hdone].
    exists (n1 ++ [Message CMD_ID [x02; x02]]). split; [|split].
    + rewrite Ht2, Ht1, <- app_assoc. reflexivity.
    + apply Forall_app. split; [exact Hc1|]. repeat constructor.
    + intros Hr. destruct (Hdone Hr) as [done [Hacc Hin]].
      exists b1, done. repeat split; auto. apply last_snoc.
  - inversion H; subst.
    destruct (appends_enter_flash_mode self _ _ _ He) as [n1 [Ht1 Hc1]].
    exists n1. repeat split; auto. discriminate.
Qed.

(** X24: whatever the bus delivers, [Module.erase] sends command frames
    only, never an S-record or an EEPROM frame.  It returns normally only
    if entering flash mode succeeded, the last frame it sent is the erase
    command, and the module answered that with an [erase_done] message. *)
Theorem erase_sends_commands_only self b r b' :
  erase self b = (r, b') ->
  exists cmds,
    tx b' = tx b ++ cmds /\
    Forall is_command cmds /\
    (r = Ok tt ->
     exists b1 done,
       _enter_flash_mode self b = (Ok tt, b1) /\
       last cmds = Some (Message CMD_ID [x02; x02]) /\
       accepts erase_done done /\ Some done ∈ rx b1).
Proof. apply erase_commands_run. Qed.

Lemma erase_sends_commands_only_witness :
  exists cmds,
    [Message CMD_ID [x20; x10; x00; x00; x00; x05];
     Message CMD_ID [x20; x00];
     Message CMD_ID [x02; x02]] = [] ++ cmds /\
    Forall is_command cmds /\
    (Ok tt = Ok tt ->
     exists b1 done,
       _enter_flash_mode {| _module_id := 5; _verbose := false |}
         {| tx := [];
            rx := [Some (Message RSP_ID [x21; x10; x00; x00; x00; x05; x00; x00]);
                   Some (Message RSP_ID [x21; x00; x00; x00; x00; x05; x00; x00]);
                   Some (Message RSP_ID [x00; x00; x02; x00]);
                   Some (Message RSP_ID [x00; x00; x00; x01])];
            clock := 0 |} = (Ok tt, b1) /\
       last cmds = Some (Message CMD_ID [x02; x02]) /\
       accepts erase_done done /\ Some done ∈ rx b1).
Proof.
  assert (Hrun :
    erase {| _module_id := 5; _verbose := false |}
      {| tx := [];
         rx := [Some (Message RSP_ID [x21; x10; x00; x00; x00; x05; x00; x00]);
                Some (Message RSP_ID [x21; x00; x00; x00; x00; x05; x00; x00]);
                Some (Message RSP_ID [x00; x00; x02; x00]);
                Some (Message RSP_ID [x00; x00; x00; x01])];
         clock := 0 |}
    = (Ok tt,
       {| tx := [Message CMD_ID [x20; x10; x00; x00; x00; x05];
                 Message CMD_ID [x20; x00];
                 Message CMD_ID [x02; x02]];
          rx := []; clock := 0 |})) by (vm_compute; reflexivity).
  exact (erase_sends_commands_only _ _ _ _ Hrun).
Defined.
